(** * vuDataSim web UI: duration parser, checksum-guarded YAML store,
      EPS engine and cluster bulk edit

    A shallow embedding of
      - [src/core/yaml_editor.py]     (class [SafeYAMLEditor]),
      - [src/core/eps_calculator.py]  (class [EPSCalculator]),
      - [src/core/cluster_manager.py] (class [ClusterManager], version 2),
    followed by the properties of these functions.

    Conventions of the embedding.
      - A Python [str] is a [string]; a character is a code point below 256.
      - A Python [int] is a [Z]; a Python [float] is an IEEE 754 binary64
        number, a [spec_float] with precision 53 and maximal exponent 1024,
        computed with the operations of [SpecFloat].
      - A path is the list of its components, a file system is a finite map
        from paths to file contents; a directory exists when something
        lies below it.
      - A function that can raise returns a [result]; a function that touches
        the file system threads a [world] through. *)

From Stdlib Require Import ZArith QArith Qabs Lia Bool List Permutation.
From Stdlib Require Import Ascii String.
From Stdlib Require Import Decimal DecimalString DecimalZ DecimalPos DecimalN.
From Stdlib Require Import Floats.SpecFloat.
From stdpp Require Import base option list gmap strings.

Open Scope Z_scope.
Open Scope string_scope.
Open Scope list_scope.

(* ===================================================================== *)
(** * Part I: the embedding                                               *)
(* ===================================================================== *)

(** ** Exceptions and results *)

(** The [ValueError]s of the code are told apart by their message. *)
Inductive value_error :=
  | InvalidDurationFormat      (* "Invalid duration format: ..." *)
  | InvalidPeriodFormat        (* "Invalid period format: ..." *)
  | ModifiedSinceRead          (* "... has been modified since it was read" *)
  | NumUniqKeyBounds           (* "NumUniqKey must be between 1 and ..." *)
  | CannotConvertNaN           (* int(nan), round(nan) *)
  | NotEnoughValuesToUnpack.   (* a, b = [x] *)

Inductive exn :=
  | ValueError (why : value_error)
  | FileNotFoundError
  | OSError
  | YAMLError
  | KeyError
  | TypeError
  | AttributeError
  | OverflowError
  | ZeroDivisionError
  | NodeConnectionError.

(** The failure names of the specification. *)
Definition InvalidFormat : exn := ValueError InvalidDurationFormat.
Definition ConcurrentModification : exn := ValueError ModifiedSinceRead.
Definition OutOfRange : exn := ValueError NumUniqKeyBounds.
Definition NotFound : exn := FileNotFoundError.

Inductive result (A : Type) :=
  | Ok (a : A)
  | Raise (e : exn).
Arguments Ok {A} a.
Arguments Raise {A} e.

Definition bind {A B} (r : result A) (k : A -> result B) : result B :=
  match r with
  | Ok a => k a
  | Raise e => Raise e
  end.

Notation "'let*' x ':=' r 'in' k" := (bind r (fun x => k))
  (at level 10, x pattern, r at level 200, k at level 200,
   format "'[v' 'let*'  x  ':='  r  'in' '/' k ']'").

(** An exception other than [OutOfRange]. *)
Definition not_out_of_range (e : exn) : Prop := e <> OutOfRange.

(** ** Python numbers *)

Module PyFloat.

Definition prec : Z := 53.
Definition emax : Z := 1024.

Abbreviation float := spec_float.

(** The float nearest to an integer (ties to even); infinite when the
    integer is too large. *)
Definition of_Z (z : Z) : float := binary_normalize prec emax z 0 false.

Definition mul : float -> float -> float := SFmul prec emax.
Definition div : float -> float -> float := SFdiv prec emax.
Definition sub : float -> float -> float := SFsub prec emax.
Definition add : float -> float -> float := SFadd prec emax.
Definition abs : float -> float := SFabs.
Definition ltb : float -> float -> bool := SFltb.
Definition leb : float -> float -> bool := SFleb.
Definition eqb : float -> float -> bool := SFeqb.

(** A decimal literal [p/q] denotes the float nearest to that rational,
    which is what the correctly rounded division of two exactly
    represented integers yields. *)
Definition literal (p q : Z) : float := div (of_Z p) (of_Z q).

Definition is_zero (f : float) : bool :=
  match f with S754_zero _ => true | _ => false end.

(** The exact value of a finite float. *)
Definition to_Q (f : float) : Q :=
  match f with
  | S754_finite s m e =>
      let v := if (0 <=? e)%Z then inject_Z (Z.pos m * 2 ^ e)
               else Qmake (Z.pos m) (Z.to_pos (2 ^ (- e))) in
      if s then Qopp v else v
  | _ => 0%Q
  end.

(** The 53-bit mantissa and the exponent with which binary64 holds a
    positive integer of at most 53 bits. *)
Definition norm_m (p : positive) : positive :=
  match (53 - Z.pos (digits2_pos p))%Z with
  | Z.pos k => Pos.iter xO p k
  | _ => p
  end.
Definition norm_e (p : positive) : Z := Z.pos (digits2_pos p) - 53.

(** [float(z)] and the implicit conversion of an [int] operand:
    [OverflowError] when the rounded value is not finite. *)
Definition float_of_int (z : Z) : result float :=
  match of_Z z with
  | S754_infinity _ => Raise OverflowError
  | f => Ok f
  end.

(** The integer part, towards zero. *)
Definition trunc_finite (s : bool) (m : positive) (e : Z) : Z :=
  let a := if (0 <=? e)%Z then Z.pos m * 2 ^ e else Z.pos m / 2 ^ (- e) in
  if s then - a else a.

(** [int(f)] *)
Definition int_of_float (f : float) : result Z :=
  match f with
  | S754_zero _ => Ok 0
  | S754_finite s m e => Ok (trunc_finite s m e)
  | S754_infinity _ => Raise OverflowError
  | S754_nan => Raise (ValueError CannotConvertNaN)
  end.

(** [round(f)]: the nearest integer, ties to the even one. *)
Definition round_half_even_finite (s : bool) (m : positive) (e : Z) : Z :=
  let a :=
    if (0 <=? e)%Z then Z.pos m * 2 ^ e
    else
      let d := 2 ^ (- e) in
      let q := Z.pos m / d in
      let r := Z.pos m mod d in
      match (2 * r ?= d)%Z with
      | Lt => q
      | Gt => q + 1
      | Eq => if Z.even q then q else q + 1
      end in
  if s then - a else a.

Definition round (f : float) : result Z :=
  match f with
  | S754_zero _ => Ok 0
  | S754_finite s m e => Ok (round_half_even_finite s m e)
  | S754_infinity _ => Raise OverflowError
  | S754_nan => Raise (ValueError CannotConvertNaN)
  end.

(** [math.floor] as a float, for the quotient of [//]. *)
Definition floor (f : float) : float :=
  match f with
  | S754_finite s m e =>
      if (0 <=? e)%Z then f
      else
        let d := 2 ^ (- e) in
        let q := Z.pos m / d in
        let r := Z.pos m mod d in
        if s then of_Z (- (if (r =? 0)%Z then q else q + 1))
        else match q with
             | Z0 => S754_zero false
             | _ => of_Z q
             end
  | _ => f
  end.

(** C's [fmod]: the exact remainder of the truncated quotient, with the
    sign of the dividend. *)
Definition fmod (x y : float) : float :=
  match x, y with
  | S754_nan, _ | _, S754_nan => S754_nan
  | S754_infinity _, _ => S754_nan
  | _, S754_zero _ => S754_nan
  | _, S754_infinity _ => x
  | S754_zero _, _ => x
  | S754_finite sx mx ex, S754_finite _ my ey =>
      let e0 := Z.min ex ey in
      let X := Z.pos mx * 2 ^ (ex - e0) in
      let Y := Z.pos my * 2 ^ (ey - e0) in
      let r := X mod Y in
      match r with
      | Z0 => S754_zero sx
      | _ => binary_normalize prec emax (if sx then - r else r) e0 false
      end
  end.

Definition is_neg (f : float) : bool := ltb f (S754_zero false).

(** [copysign(0.0, f)] *)
Definition zero_with_sign_of (f : float) : float :=
  match f with
  | S754_zero s | S754_infinity s | S754_finite s _ _ => S754_zero s
  | S754_nan => S754_zero false
  end.

(** [x // y] on floats, as [float_floor_div] and [_float_div_mod] of
    CPython compute it: the quotient of [x - fmod(x, y)] by [y], lowered
    by one when the remainder and the divisor differ in sign, then
    snapped to the nearest integral value. *)
Definition floordiv (vx wx : float) : result float :=
  if eqb wx (S754_zero false) then Raise ZeroDivisionError
  else
    let md := fmod vx wx in
    let dv := div (sub vx md) wx in
    let dv :=
      if negb (is_zero md) && negb (Bool.eqb (is_neg wx) (is_neg md))
      then sub dv (of_Z 1) else dv in
    if is_zero dv then Ok (zero_with_sign_of (div vx wx))
    else
      let fl := floor dv in
      if ltb (literal 1 2) (sub dv fl) then Ok (add fl (of_Z 1)) else Ok fl.

End PyFloat.

(** A number as [_format_duration] can receive it. *)
Inductive pynum :=
  | NumInt (z : Z)
  | NumFloat (f : PyFloat.float).

(** The Python objects that a YAML document loads to, and that callers
    pass for a period or a key: [None], booleans, integers, strings, lists
    and dictionaries with string keys (in insertion order). Floating-point
    scalars of a document are outside the embedding. *)
#[local] Set Warnings "-register-all".
Inductive pyobj :=
  | PNone
  | PBool (b : bool)
  | PInt (z : Z)
  | PStr (s : string)
  | PList (l : list pyobj)
  | PDict (d : list (string * pyobj)).

(** ** Python strings *)

Module PyStr.

Definition code (c : ascii) : N := N_of_ascii c.

(** [str.isspace] on the code points below 256. *)
Definition is_space (c : ascii) : bool :=
  let n := code c in
  ((9 <=? n) && (n <=? 13) || (28 <=? n) && (n <=? 32)
   || (n =? 133) || (n =? 160))%N.

(** The class [\d] on the code points below 256. *)
Definition is_digit (c : ascii) : bool :=
  let n := code c in ((48 <=? n) && (n <=? 57))%N.

Fixpoint lstrip (s : string) : string :=
  match s with
  | String c s' => if is_space c then lstrip s' else s
  | EmptyString => EmptyString
  end.

Fixpoint rstrip (s : string) : string :=
  match s with
  | EmptyString => EmptyString
  | String c s' =>
      match rstrip s' with
      | EmptyString => if is_space c then EmptyString else String c EmptyString
      | r => String c r
      end
  end.

(** [s.strip()] *)
Definition strip (s : string) : string := rstrip (lstrip s).

(** The longest run of digits at the front, and what follows it. *)
Fixpoint span_digits (s : string) : string * string :=
  match s with
  | String c s' =>
      if is_digit c
      then let '(d, r) := span_digits s' in (String c d, r)
      else (EmptyString, s)
  | EmptyString => (EmptyString, EmptyString)
  end.

Definition digit_value (c : ascii) : Z := Z.of_N (code c) - 48.

Fixpoint int_of_digits_acc (acc : Z) (s : string) : Z :=
  match s with
  | EmptyString => acc
  | String c s' => int_of_digits_acc (10 * acc + digit_value c) s'
  end.

(** [int(s)] for a run of digits [s]. *)
Definition int_of_digits (s : string) : Z := int_of_digits_acc 0 s.

(** [str(z)], also [f"{z}"]. *)
Definition str_of_int (z : Z) : string := NilZero.string_of_int (Z.to_int z).

Definition NL : string := String (ascii_of_N 10) EmptyString.

(** [s.endswith(t)] *)
Definition endswith (s t : string) : bool :=
  let n := String.length s in
  let k := String.length t in
  (k <=? n)%nat && String.eqb (substring (n - k) k s) t.


(** The last character of a string. *)
Fixpoint last_char (s : string) : option ascii :=
  match s with
  | EmptyString => None
  | String c EmptyString => Some c
  | String _ s' => last_char s'
  end.

(** [s.split('/', 1)] *)
Fixpoint split_slash_once (s : string) : option (string * string) :=
  match s with
  | EmptyString => None
  | String c s' =>
      if Ascii.eqb c "/" then Some (EmptyString, s')
      else match split_slash_once s' with
           | Some (a, b) => Some (String c a, b)
           | None => None
           end
  end.

(** No character of [s] is white space. *)
Fixpoint no_space (s : string) : bool :=
  match s with
  | EmptyString => true
  | String c s' => negb (is_space c) && no_space s'
  end.

Definition starts_with_digit (r : string) : bool :=
  match r with
  | String c _ => is_digit c
  | EmptyString => false
  end.

End PyStr.

(** ** Operations on Python objects *)

Module PyObj.

(** [bool(v)] *)
Definition truthy (v : pyobj) : bool :=
  match v with
  | PNone => false
  | PBool b => b
  | PInt z => negb (z =? 0)%Z
  | PStr s => negb (String.eqb s EmptyString)
  | PList l => match l with [] => false | _ => true end
  | PDict d => match d with [] => false | _ => true end
  end.

(** [v or {}] *)
Definition or_empty_dict (v : pyobj) : pyobj :=
  if truthy v then v else PDict [].

(** [isinstance(v, int)]: the integers, and the booleans as 0 and 1. *)
Definition as_int (v : pyobj) : option Z :=
  match v with
  | PInt z => Some z
  | PBool b => Some (if b then 1 else 0)
  | _ => None
  end.

Definition is_dict (v : pyobj) : bool :=
  match v with PDict _ => true | _ => false end.

Fixpoint assoc_get (d : list (string * pyobj)) (k : string) : option pyobj :=
  match d with
  | [] => None
  | (k', v) :: d' => if String.eqb k' k then Some v else assoc_get d' k
  end.

(** [d[k] = v] on a dictionary: the value is replaced in place, a new
    key goes to the end. *)
Fixpoint assoc_set (d : list (string * pyobj)) (k : string) (v : pyobj)
  : list (string * pyobj) :=
  match d with
  | [] => [(k, v)]
  | (k', v') :: d' =>
      if String.eqb k' k then (k', v) :: d' else (k', v') :: assoc_set d' k v
  end.

(** [t in s] on strings *)
Fixpoint is_substring (t s : string) : bool :=
  String.prefix t s
  || match s with
     | EmptyString => false
     | String _ s' => is_substring t s'
     end.

(** [k in v] for a string [k] *)
Definition contains (v : pyobj) (k : string) : result bool :=
  match v with
  | PDict d => Ok (match assoc_get d k with Some _ => true | None => false end)
  | PList l =>
      Ok (existsb (fun x => match x with
                            | PStr s => String.eqb s k
                            | _ => false
                            end) l)
  | PStr s => Ok (is_substring k s)
  | _ => Raise TypeError
  end.

(** [v[k]] for a string [k] *)
Definition getitem (v : pyobj) (k : string) : result pyobj :=
  match v with
  | PDict d => match assoc_get d k with
               | Some x => Ok x
               | None => Raise KeyError
               end
  | _ => Raise TypeError
  end.

(** [v[k] = x] for a string [k] *)
Definition setitem (v : pyobj) (k : string) (x : pyobj) : result pyobj :=
  match v with
  | PDict d => Ok (PDict (assoc_set d k x))
  | _ => Raise TypeError
  end.

(** [v.get(k, default)] *)
Definition dict_get (v : pyobj) (k : string) (default : pyobj)
  : result pyobj :=
  match v with
  | PDict d => Ok (match assoc_get d k with Some x => x | None => default end)
  | _ => Raise AttributeError
  end.

(** [v < n] for an integer [n] *)
Definition lt_int (v : pyobj) (n : Z) : result bool :=
  match as_int v with
  | Some z => Ok (z <? n)%Z
  | None => Raise TypeError
  end.

End PyObj.

(** ** The duration parser ([SafeYAMLEditor._parse_duration],
       [SafeYAMLEditor._format_duration]) *)

Module Duration.
Import PyFloat PyStr PyObj.

Inductive duration_unit := UnitMs | UnitS | UnitM | UnitH.

Definition unit_text (u : duration_unit) : string :=
  match u with
  | UnitMs => "ms" | UnitS => "s" | UnitM => "m" | UnitH => "h"
  end.

(** The tail [(ms|s|m|h)$] of the pattern; [$] matches at the end of the
    string and also just before a newline that ends it. *)
Definition match_unit_at_end (r : string) : option duration_unit :=
  let at_end u := String.eqb r u || String.eqb r (u +:+ NL) in
  if at_end "ms" then Some UnitMs
  else if at_end "s" then Some UnitS
  else if at_end "m" then Some UnitM
  else if at_end "h" then Some UnitH
  else None.

(** [re.match(r'^(\d+)(ms|s|m|h)$', s)]: the groups of the match. No
    unit starts with a digit, so the greedy [\d+] never gives back. *)
Definition re_match_duration (s : string)
  : option (string * duration_unit) :=
  let '(d, r) := span_digits s in
  match d with
  | EmptyString => None
  | _ => match match_unit_at_end r with
         | Some u => Some (d, u)
         | None => None
         end
  end.

Definition multipliers (u : duration_unit) : float :=
  match u with
  | UnitMs => literal 1 1000     (* 0.001 *)
  | UnitS => of_Z 1              (* 1.0 *)
  | UnitM => of_Z 60             (* 60.0 *)
  | UnitH => of_Z 3600           (* 3600.0 *)
  end.

(** [duration_str] is whatever object the caller passes; [not
    duration_str] holds for [None] and the empty string (and for the
    other objects that are false), and [.strip()] exists on strings
    only. *)
Definition _parse_duration (duration_str : pyobj) : result float :=
  if negb (truthy duration_str) then Ok (of_Z 1)
  else
    match duration_str with
    | PStr s =>
        let duration_str := strip s in
        match re_match_duration duration_str with
        | None => Raise (ValueError InvalidDurationFormat)
        | Some (value, unit) =>
            let value := int_of_digits value in
            let* v := float_of_int value in
            Ok (mul v (multipliers unit))
        end
    | _ => Raise AttributeError
    end.

Definition _format_duration (seconds : pynum) : result string :=
  match seconds with
  | NumInt z =>
      if (z <? 1)%Z then Ok (str_of_int (z * 1000) +:+ "ms")
      else if (z <? 60)%Z then Ok (str_of_int z +:+ "s")
      else if (z <? 3600)%Z then Ok (str_of_int (z / 60) +:+ "m")
      else Ok (str_of_int (z / 3600) +:+ "h")
  | NumFloat f =>
      if ltb f (of_Z 1) then
        let* n := int_of_float (mul f (of_Z 1000)) in
        Ok (str_of_int n +:+ "ms")
      else if ltb f (of_Z 60) then
        let* n := int_of_float f in
        Ok (str_of_int n +:+ "s")
      else if ltb f (of_Z 3600) then
        let* q := floordiv f (of_Z 60) in
        let* n := int_of_float q in
        Ok (str_of_int n +:+ "m")
      else
        let* q := floordiv f (of_Z 3600) in
        let* n := int_of_float q in
        Ok (str_of_int n +:+ "h")
  end.

(** *** The words of the specification *)

Fixpoint all_digits (d : string) : bool :=
  match d with
  | EmptyString => true
  | String c d' => is_digit c && all_digits d'
  end.

(** [s] has the shape <integer><unit>: the digits [d], then the unit. *)
Definition integer_unit (s d : string) (u : duration_unit) : Prop :=
  s = d +:+ unit_text u /\ d <> EmptyString /\ all_digits d = true.

(** The unit that the thresholds select for a whole number of seconds,
    and the magnitude printed with it. *)
Definition chosen_unit (x : Z) : duration_unit :=
  if (x <? 1)%Z then UnitMs
  else if (x <? 60)%Z then UnitS
  else if (x <? 3600)%Z then UnitM
  else UnitH.

Definition magnitude (x : Z) : Z :=
  match chosen_unit x with
  | UnitMs => x * 1000
  | UnitS => x
  | UnitM => x / 60
  | UnitH => x / 3600
  end.

(** One step of a unit, in seconds. *)
Definition unit_step (u : duration_unit) : Q :=
  match u with
  | UnitMs => (1 # 1000)%Q
  | UnitS => 1%Q
  | UnitM => 60%Q
  | UnitH => 3600%Q
  end.

End Duration.


(** ** Paths, files and the world *)

Module FS.
Import PyStr.

(** A path is the list of its components: [d / "a" / "b.yml"] is
    [d ++ ["a"; "b.yml"]]. Module and submodule names are single
    components. *)
Abbreviation path := (list string).

(** [Path.name] *)
Definition name (p : path) : string := List.last p EmptyString.

(** The position of the last dot of a name. *)
Fixpoint rfind_dot (s : string) : option nat :=
  match s with
  | EmptyString => None
  | String c s' =>
      match rfind_dot s' with
      | Some i => Some (S i)
      | None => if Ascii.eqb c "." then Some 0%nat else None
      end
  end.

(** [Path.suffix]: from the last dot on, unless the name starts or ends
    with it. *)
Definition suffix_of (nm : string) : string :=
  match rfind_dot nm with
  | Some i =>
      if (0 <? i)%nat && (i <? String.length nm - 1)%nat
      then substring i (String.length nm - i) nm
      else EmptyString
  | None => EmptyString
  end.

(** [Path.stem] *)
Definition stem_of (nm : string) : string :=
  substring 0 (String.length nm - String.length (suffix_of nm)) nm.

(** [Path.with_suffix(suffix)] *)
Definition with_suffix (p : path) (suffix : string) : path :=
  removelast p ++ [stem_of (name p) +:+ suffix].

(** What remains of [p] below the directory [dir]. *)
Fixpoint below (dir p : path) : option path :=
  match dir, p with
  | [], _ => Some p
  | d :: dir', c :: p' => if String.eqb d c then below dir' p' else None
  | _ :: _, [] => None
  end.

Abbreviation files_t := (gmap path string).

Definition paths (fs : files_t) : list path := (map_to_list fs).*1.

(** [p.is_file()] *)
Definition is_file (fs : files_t) (p : path) : bool :=
  match fs !! p with Some _ => true | None => false end.

(** [p.is_dir()]: some file lies strictly below [p]. *)
Definition is_dir (fs : files_t) (p : path) : bool :=
  existsb (fun q => match below p q with
                    | Some (_ :: _) => true
                    | _ => false
                    end) (paths fs).

(** [p.exists()] *)
Definition exists_ (fs : files_t) (p : path) : bool :=
  is_file fs p || is_dir fs p.

Fixpoint dedup_names (l : list string) : list string :=
  match l with
  | [] => []
  | x :: l' => if existsb (String.eqb x) l' then dedup_names l'
               else x :: dedup_names l'
  end.

(** [dir.iterdir()]: the names of the entries of [dir], in the order
    the file system yields them. *)
Definition iterdir (fs : files_t) (dir : path) : list string :=
  dedup_names
    (omap (fun q => match below dir q with
                    | Some (c :: _) => Some c
                    | _ => None
                    end) (paths fs)).

(** [dir.glob("*.yml")]: the names of the entries of [dir] that end
    in [.yml]. *)
Definition glob_yml (fs : files_t) (dir : path) : list string :=
  List.filter (fun nm => endswith nm ".yml") (iterdir fs dir).

(** [sorted(names)] *)
Fixpoint insert_sorted (x : string) (l : list string) : list string :=
  match l with
  | [] => [x]
  | y :: l' => if String.leb x y then x :: l else y :: insert_sorted x l'
  end.

Definition sorted (l : list string) : list string :=
  fold_right insert_sorted [] l.

(** The file operations that are observed. *)
Inductive event :=
  | EvRead (p : path)              (* open(p) for reading, and read *)
  | EvOpenWrite (p : path)         (* open(p, 'w'): create or truncate *)
  | EvWrite (p : path)             (* output written to p *)
  | EvCopy (src dst : path)        (* shutil.copy2 *)
  | EvReplace (src dst : path)     (* Path.replace *)
  | EvUnlink (p : path).           (* Path.unlink *)

(** Failures that the environment injects into a write. *)
Record faults := {
  copy_fails : bool;               (* shutil.copy2 raises *)
  open_write_fails : bool;         (* open(temp, 'w') raises *)
  dump_fails : option string;      (* yaml.dump raises, this much written *)
  replace_fails : bool             (* the rename raises *)
}.

Definition no_faults : faults :=
  {| copy_fails := false; open_write_fails := false;
     dump_fails := None; replace_fails := false |}.

Record world := {
  files : files_t;
  log : list event;
  clock : string;                  (* now().strftime("%Y%m%d_%H%M%S") *)
  env : faults
}.

Definition set_files (w : world) (fs : files_t) : world :=
  {| files := fs; log := log w; clock := clock w; env := env w |}.

Definition record (ev : event) (w : world) : world :=
  {| files := files w; log := log w ++ [ev]; clock := clock w;
     env := env w |}.

(** Computations in the world. *)
Definition M (A : Type) : Type := world -> result A * world.

Definition ret {A} (a : A) : M A := fun w => (Ok a, w).
Definition raise {A} (e : exn) : M A := fun w => (Raise e, w).
Definition lift {A} (r : result A) : M A := fun w => (r, w).

Definition bindM {A B} (m : M A) (k : A -> M B) : M B :=
  fun w => match m w with
           | (Ok a, w') => k a w'
           | (Raise e, w') => (Raise e, w')
           end.

(** [try: m except Exception as e: h e] *)
Definition try_except {A} (m : M A) (h : exn -> M A) : M A :=
  fun w => match m w with
           | (Ok a, w') => (Ok a, w')
           | (Raise e, w') => h e w'
           end.

(** [with open(p, 'r') as f: f.read()], also in binary mode *)
Definition read_file (p : path) : M string :=
  fun w => match files w !! p with
           | Some b => (Ok b, record (EvRead p) w)
           | None =>
               (Raise (if is_dir (files w) p then OSError
                       else FileNotFoundError), w)
           end.

(** [shutil.copy2(src, dst)] *)
Definition copy2 (src dst : path) : M unit :=
  fun w => if copy_fails (env w) then (Raise OSError, w)
           else match files w !! src with
                | Some b =>
                    (Ok tt, record (EvCopy src dst)
                              (set_files w (<[dst := b]> (files w))))
                | None => (Raise FileNotFoundError, w)
                end.

(** [open(p, 'w')]: the file is created, or emptied. *)
Definition open_write (p : path) : M unit :=
  fun w => if open_write_fails (env w) then (Raise OSError, w)
           else (Ok tt, record (EvOpenWrite p)
                          (set_files w (<[p := EmptyString]> (files w)))).

(** The serialiser writes [text] into the open file [p]; when it raises
    it has written the part that the environment names. *)
Definition write_dump (p : path) (text : string) : M unit :=
  fun w => match dump_fails (env w) with
           | Some part =>
               (Raise YAMLError,
                record (EvWrite p) (set_files w (<[p := part]> (files w))))
           | None =>
               (Ok tt,
                record (EvWrite p) (set_files w (<[p := text]> (files w))))
           end.

(** [src.replace(dst)]: an atomic rename. *)
Definition replace (src dst : path) : M unit :=
  fun w => if replace_fails (env w) then (Raise OSError, w)
           else match files w !! src with
                | Some b =>
                    (Ok tt, record (EvReplace src dst)
                              (set_files w (<[dst := b]> (delete src (files w)))))
                | None => (Raise FileNotFoundError, w)
                end.

(** [p.unlink()] *)
Definition unlink (p : path) : M unit :=
  fun w => match files w !! p with
           | Some _ =>
               (Ok tt, record (EvUnlink p) (set_files w (delete p (files w))))
           | None => (Raise FileNotFoundError, w)
           end.

(** [p.exists()] in the current world *)
Definition path_exists (p : path) : M bool :=
  fun w => (Ok (exists_ (files w) p), w).

(** Every exception that [m] can raise satisfies [P]. *)
Definition raises_only {A} (P : exn -> Prop) (m : M A) : Prop :=
  forall w e w', m w = (Raise e, w') -> P e.

End FS.

Notation "'do*' x '<-' m ';' k" := (FS.bindM m (fun x => k))
  (at level 10, x pattern, m at level 200, k at level 200,
   format "'[v' 'do*'  x  '<-'  m ';' '/' k ']'").

(** ** Settings and the YAML library

    [core/config.py] gives the directories and the key bounds; the check
    sum is MD5 and the documents go through ruamel.yaml. They are taken
    as given. *)
Record settings := {
  CONF_D_DIR : FS.path;
  BACKUPS_DIR : FS.path;
  MAX_UNIQUE_KEY : Z;
  DEFAULT_UNIQUE_KEY : Z;
  md5_hexdigest : string -> string;       (* hashlib.md5(b).hexdigest() *)
  yaml_load : string -> option pyobj;     (* YAML().load; None: it raises *)
  yaml_dump : pyobj -> string             (* YAML().dump *)
}.

(** ** The checksum-guarded file store ([SafeYAMLEditor]) *)

Module YamlEditor.
Import PyObj PyStr FS.

Record write_result := {
  success : bool;
  backup_path : path;
  new_checksum : string
}.

Section Editor.
Variable cfg : settings.

Definition _calculate_checksum (file_path : path) : M string :=
  do* b <- read_file file_path;
  ret (md5_hexdigest cfg b).

Definition _create_backup (file_path : path) : M path :=
  fun w =>
    let timestamp := clock w in
    let backup_path :=
      BACKUPS_DIR cfg ++ [name file_path +:+ ".bak." +:+ timestamp] in
    (do* _ <- copy2 file_path backup_path;
     ret backup_path) w.

(** Where [_create_backup] puts the copy of [p]. *)
Definition backup_of (p : path) (w : world) : path :=
  BACKUPS_DIR cfg ++ [name p +:+ ".bak." +:+ clock w].

Definition main_config_path : path := CONF_D_DIR cfg ++ ["conf.yml"].

Definition module_config_path (module_name : string) : path :=
  CONF_D_DIR cfg ++ [module_name; "conf.yml"].

Definition submodule_config_path (module_name submodule_name : string)
  : path :=
  CONF_D_DIR cfg ++ [module_name; submodule_name +:+ ".yml"].

(** The body shared by [read_main_config], [read_module_config] and
    [read_submodule_config]; the handler of the source logs and
    raises again. *)
Definition read_config_at (config_path : path) : M (pyobj * string) :=
  do* present <- path_exists config_path;
  if negb present then raise FileNotFoundError
  else
    do* content <- read_file config_path;
    match yaml_load cfg content with
    | None => raise YAMLError
    | Some data =>
        do* checksum <- _calculate_checksum config_path;
        ret (data, checksum)
    end.

(** What [read_config_at] returns, as a function of the files. *)
Definition read_result (fs : files_t) (config_path : path)
  : result (pyobj * string) :=
  if negb (exists_ fs config_path) then Raise FileNotFoundError
  else
    match fs !! config_path with
    | None => Raise OSError
    | Some content =>
        match yaml_load cfg content with
        | None => Raise YAMLError
        | Some data => Ok (data, md5_hexdigest cfg content)
        end
    end.

Definition read_main_config : M (pyobj * string) :=
  read_config_at main_config_path.

Definition read_module_config (module_name : string)
  : M (pyobj * string) :=
  read_config_at (module_config_path module_name).

Definition read_submodule_config (module_name submodule_name : string)
  : M (pyobj * string) :=
  read_config_at (submodule_config_path module_name submodule_name).

(** The body shared by [write_main_config], [write_module_config] and
    [write_submodule_config], which differ in the path and in the
    wording of their messages. *)
Definition write_config_at (config_path : path) (data : pyobj)
    (original_checksum : string) : M write_result :=
  (* Check for concurrent modifications *)
  do* current_checksum <- _calculate_checksum config_path;
  if negb (String.eqb current_checksum original_checksum)
  then raise (ValueError ModifiedSinceRead)
  else
    (* Create backup *)
    do* backup_path <- _create_backup config_path;
    (* Write to temporary file first *)
    let temp_path := with_suffix config_path ".tmp" in
    try_except
      (do* _ <- open_write temp_path;
       do* _ <- write_dump temp_path (yaml_dump cfg data);
       (* Atomic move *)
       do* _ <- replace temp_path config_path;
       do* new_checksum <- _calculate_checksum config_path;
       ret {| success := true; backup_path := backup_path;
              new_checksum := new_checksum |})
      (fun e =>
         (* Clean up temp file on error *)
         do* present <- path_exists temp_path;
         do* _ <- (if present then unlink temp_path else ret tt);
         raise e).

Definition write_main_config (data : pyobj) (original_checksum : string)
  : M write_result :=
  write_config_at main_config_path data original_checksum.

Definition write_module_config (module_name : string) (data : pyobj)
    (original_checksum : string) : M write_result :=
  write_config_at (module_config_path module_name) data original_checksum.

Definition write_submodule_config (module_name submodule_name : string)
    (data : pyobj) (original_checksum : string) : M write_result :=
  write_config_at (submodule_config_path module_name submodule_name)
    data original_checksum.

(** [not isinstance(n, int) or n < 1 or n > MAX_UNIQUE_KEY] *)
Definition key_out_of_bounds (num_uniquekey : pyobj) : bool :=
  match as_int num_uniquekey with
  | None => true
  | Some z => (z <? 1)%Z || (MAX_UNIQUE_KEY cfg <? z)%Z
  end.

(** [if "uniquekey" not in data: data["uniquekey"] = {}] and then
    [data["uniquekey"]["NumUniqKey"] = num_uniquekey] *)
Definition set_num_uniq_key (data num_uniquekey : pyobj) : result pyobj :=
  let* has := contains data "uniquekey" in
  let* data := (if negb has then setitem data "uniquekey" (PDict [])
                else Ok data) in
  let* section := getitem data "uniquekey" in
  let* section := setitem section "NumUniqKey" num_uniquekey in
  setitem data "uniquekey" section.

(** What the two mutators do once the bound check has passed, on
    the path of the module or of the submodule. *)
Definition update_at (p : path) (num_uniquekey : pyobj)
    (original_checksum : string) : M write_result :=
  do* (data, current_checksum) <- read_config_at p;
  if negb (String.eqb current_checksum original_checksum)
  then raise (ValueError ModifiedSinceRead)
  else
    do* data <- lift (set_num_uniq_key data num_uniquekey);
    write_config_at p data original_checksum.

Definition update_module_uniquekey (module_name : string)
    (num_uniquekey : pyobj) (original_checksum : string)
  : M write_result :=
  if key_out_of_bounds num_uniquekey
  then raise (ValueError NumUniqKeyBounds)
  else
    (* Read current config *)
    do* (data, current_checksum) <- read_module_config module_name;
    if negb (String.eqb current_checksum original_checksum)
    then raise (ValueError ModifiedSinceRead)
    else
      (* Update/create uniquekey section *)
      do* data <- lift (set_num_uniq_key data num_uniquekey);
      (* Write back *)
      write_module_config module_name data original_checksum.

Definition update_submodule_uniquekey (module_name submodule_name : string)
    (num_uniquekey : pyobj) (original_checksum : string)
  : M write_result :=
  if key_out_of_bounds num_uniquekey
  then raise (ValueError NumUniqKeyBounds)
  else
    do* (data, current_checksum) <-
      read_submodule_config module_name submodule_name;
    if negb (String.eqb current_checksum original_checksum)
    then raise (ValueError ModifiedSinceRead)
    else
      do* data <- lift (set_num_uniq_key data num_uniquekey);
      write_submodule_config module_name submodule_name data
        original_checksum.

(** [update_module_period]: the period is validated by parsing it, a
    [ValueError] of the parser is raised again as the [ValueError] of
    the period, and any other exception of the parser leaves as it
    is. *)
Definition update_module_period (module_name : string) (period : pyobj)
    (original_checksum : string) : M write_result :=
  (* Validate period format *)
  match Duration._parse_duration period with
  | Raise (ValueError _) => raise (ValueError InvalidPeriodFormat)
  | Raise e => raise e
  | Ok _ =>
      (* Read current config *)
      do* (data, current_checksum) <- read_module_config module_name;
      if negb (String.eqb current_checksum original_checksum)
      then raise (ValueError ModifiedSinceRead)
      else
        (* Update period *)
        do* data <- lift (setitem data "period" period);
        (* Write back *)
        write_module_config module_name data original_checksum
  end.

End Editor.
End YamlEditor.

(** ** The EPS engine ([EPSCalculator]) *)

Module EpsCalculator.
Import PyFloat PyObj PyStr FS Duration YamlEditor.

(** The dictionary that [get_module_config] returns; [mc_error] is its
    ["error"] entry. *)
Record module_config := {
  mc_uniquekey : pyobj;
  mc_period : pyobj;
  mc_period_seconds : float;
  mc_full_config : pyobj;
  mc_error : option exn
}.

Record submodule_config := {
  sc_uniquekey : pyobj;
  sc_full_config : pyobj;
  sc_error : option exn
}.

Record submodule_detail := {
  sd_name : string;
  sd_uniquekey : Z;
  sd_multiplier : Z;
  sd_contribution : Z
}.

Record eps_result := {
  module_name : string;
  module_uniquekey : pyobj;
  module_period : pyobj;
  module_period_seconds : float;
  submodules : list submodule_detail;
  total_submodule_contribution : Z;
  eps : float
}.

Record suggestion := {
  target_eps : float;
  suggested_module_uniquekey : Z;
  current_module_uniquekey : pyobj;
  sg_module_period : pyobj;
  period_seconds : float;
  sg_total_submodule_contribution : Z;
  expected_eps : float;
  tolerance_used : float;
  within_tolerance : bool;
  required_module_uniquekey : float
}.

(** [suggest_uniquekey_for_target_eps] returns either the dictionary
    [{"error": "No valid submodules found for EPS calculation",
    "suggestion": None}] or the suggestion. *)
Inductive suggest_result :=
  | NoUsableSubmodules
  | Suggested (s : suggestion).

(** An entry of the dictionary of [calculate_eps_for_all_modules]: the
    result of [calculate_eps], or [{"error": str(e), "eps": 0}]. *)
Inductive module_eps :=
  | EpsData (r : eps_result)
  | EpsError (e : exn).

(** The ["eps"] of an entry. *)
Definition eps_of (x : module_eps) : pynum :=
  match x with
  | EpsData r => NumFloat (eps r)
  | EpsError _ => NumInt 0
  end.

(** [results[k] = v] on a dictionary of entries, in insertion order. *)
Fixpoint results_set (results : list (string * module_eps)) (k : string)
    (v : module_eps) : list (string * module_eps) :=
  match results with
  | [] => [(k, v)]
  | (k', v') :: rest =>
      if String.eqb k' k then (k', v) :: rest
      else (k', v') :: results_set rest k v
  end.

(** The dictionary of [get_module_summary]. *)
Record module_summary := {
  ms_name : string;
  ms_enabled : pyobj;
  ms_current_eps : float;
  ms_module_uniquekey : pyobj;
  ms_module_period : pyobj;
  ms_submodule_count : Z;
  ms_submodules : list submodule_detail;
  ms_config : module_config
}.

(** [get_module_summary] returns the summary, or
    [{"name": module_name, "error": str(e), "current_eps": 0}]. *)
Inductive summary_result :=
  | Summary (s : module_summary)
  | SummaryError (name : string) (e : exn).

(** The ["current_eps"] of a summary. *)
Definition current_eps_of (x : summary_result) : pynum :=
  match x with
  | Summary s => NumFloat (ms_current_eps s)
  | SummaryError _ _ => NumInt 0
  end.

Section Calculator.
Variable cfg : settings.

Definition _parse_duration_to_seconds (duration_str : pyobj)
  : result float :=
  _parse_duration duration_str.

(** The names that [module_dir.glob("*.yml")] yields, without
    [conf.yml], as stems, sorted. *)
Definition submodule_names (fs : files_t) (module_name : string)
  : list string :=
  let module_dir := CONF_D_DIR cfg ++ [module_name] in
  if negb (exists_ fs module_dir) then []
  else
    sorted
      (List.map stem_of
         (List.filter (fun nm => negb (String.eqb nm "conf.yml"))
            (glob_yml fs module_dir))).

Definition get_submodules (module_name : string) : M (list string) :=
  fun w => (Ok (submodule_names (files w) module_name), w).

(** [d["uniquekey"]["NumUniqKey"]] when both keys are there, else the
    default. *)
Definition extract_uniquekey (data : pyobj) : result pyobj :=
  let* has_section := contains data "uniquekey" in
  if negb has_section then Ok (PInt (DEFAULT_UNIQUE_KEY cfg))
  else
    let* section := getitem data "uniquekey" in
    let* has_key := contains section "NumUniqKey" in
    if negb has_key then Ok (PInt (DEFAULT_UNIQUE_KEY cfg))
    else getitem section "NumUniqKey".

(** The statements of [get_module_config] after the read. *)
Definition parse_module_config (data : pyobj) : result module_config :=
  let* uniquekey := extract_uniquekey data in
  let* has_period := contains data "period" in
  let* period := (if has_period then getitem data "period"
                  else Ok (PStr "1s")) in
  let* seconds := _parse_duration_to_seconds period in
  Ok {| mc_uniquekey := uniquekey; mc_period := period;
        mc_period_seconds := seconds; mc_full_config := data;
        mc_error := None |}.

(** The dictionary of the [except] branch. *)
Definition default_module_config (e : exn) : module_config :=
  {| mc_uniquekey := PInt (DEFAULT_UNIQUE_KEY cfg);
     mc_period := PStr "1s";
     mc_period_seconds := of_Z 1;
     mc_full_config := PDict [];
     mc_error := Some e |}.

Definition get_module_config (module_name : string) : M module_config :=
  try_except
    (do* (data, _) <- read_module_config cfg module_name;
     lift (parse_module_config data))
    (fun e => ret (default_module_config e)).

Definition parse_submodule_config (data : pyobj) : result submodule_config :=
  let* uniquekey := extract_uniquekey data in
  Ok {| sc_uniquekey := uniquekey; sc_full_config := data;
        sc_error := None |}.

Definition default_submodule_config (e : exn) : submodule_config :=
  {| sc_uniquekey := PInt (DEFAULT_UNIQUE_KEY cfg);
     sc_full_config := PDict [];
     sc_error := Some e |}.

Definition get_submodule_config (module_name submodule_name : string)
  : M submodule_config :=
  try_except
    (do* (data, _) <- read_submodule_config cfg module_name submodule_name;
     lift (parse_submodule_config data))
    (fun e => ret (default_submodule_config e)).

(** What [get_module_config] and [get_submodule_config] return, as
    functions of the files. *)
Definition module_config_of (fs : files_t) (module_name : string)
  : module_config :=
  match read_result cfg fs (module_config_path cfg module_name) with
  | Ok (data, _) =>
      match parse_module_config data with
      | Ok c => c
      | Raise e => default_module_config e
      end
  | Raise e => default_module_config e
  end.

Definition submodule_config_of (fs : files_t)
    (module_name submodule_name : string) : submodule_config :=
  match read_result cfg fs
          (submodule_config_path cfg module_name submodule_name) with
  | Ok (data, _) =>
      match parse_submodule_config data with
      | Ok c => c
      | Raise e => default_submodule_config e
      end
  | Raise e => default_submodule_config e
  end.

(** One turn of the loop over the submodules: the key of the
    submodule (or its override), replaced by the default when below 1,
    times the multiplier 1. *)
Definition submodule_contribution (module_name : string)
    (submodule_overrides : option (list (string * pyobj)))
    (submodule_name : string) : M submodule_detail :=
  do* submodule_config <- get_submodule_config module_name submodule_name;
  let uniquekey :=
    match submodule_overrides with
    | Some ((_ :: _) as d) =>
        match assoc_get d submodule_name with
        | Some v => v
        | None => sc_uniquekey submodule_config
        end
    | _ => sc_uniquekey submodule_config
    end in
  do* below_one <- lift (lt_int uniquekey 1);
  let uniquekey :=
    if below_one then Some (DEFAULT_UNIQUE_KEY cfg) else as_int uniquekey in
  match uniquekey with
  | None => raise TypeError
  | Some uniquekey =>
      let multiplier := 1 in
      let contribution := multiplier * uniquekey in
      ret {| sd_name := submodule_name; sd_uniquekey := uniquekey;
             sd_multiplier := multiplier;
             sd_contribution := contribution |}
  end.

Fixpoint submodule_contributions (module_name : string)
    (submodule_overrides : option (list (string * pyobj)))
    (names : list string) (details : list submodule_detail) (total : Z)
  : M (list submodule_detail * Z) :=
  match names with
  | [] => ret (details, total)
  | submodule_name :: names' =>
      do* d <- submodule_contribution module_name submodule_overrides
                 submodule_name;
      submodule_contributions module_name submodule_overrides names'
        (details ++ [d]) (total + sd_contribution d)
  end.

(** [n / d] for an integer [n] and a float [d] *)
Definition truediv_int_float (n : Z) (d : float) : result float :=
  let* f := float_of_int n in
  if eqb d (S754_zero false) then Raise ZeroDivisionError
  else Ok (div f d).

(** [a / b] on floats *)
Definition truediv (a b : float) : result float :=
  if eqb b (S754_zero false) then Raise ZeroDivisionError
  else Ok (div a b).

Definition calculate_eps (module_name : string)
    (module_uniquekey : option pyobj) (module_period : option pyobj)
    (submodule_overrides : option (list (string * pyobj)))
  : M eps_result :=
  (* Get module configuration *)
  do* module_config <- get_module_config module_name;
  (* Apply overrides *)
  let uniquekey :=
    match module_uniquekey with
    | Some k => k
    | None => mc_uniquekey module_config
    end in
  do* (period, seconds) <-
    lift (match module_period with
          | Some p =>
              let* sec := _parse_duration_to_seconds p in Ok (p, sec)
          | None =>
              Ok (mc_period module_config,
                  mc_period_seconds module_config)
          end);
  (* Get submodules *)
  do* submodules <- get_submodules module_name;
  (* Calculate submodule contributions *)
  do* (submodule_details, total_submodule_contribution) <-
    submodule_contributions module_name submodule_overrides submodules
      [] 0;
  let module_level_keys := uniquekey in
  let period_seconds :=
    if leb seconds (S754_zero false) then of_Z 1 else seconds in
  match as_int module_level_keys with
  | None => raise TypeError
  | Some keys =>
      do* eps <- lift (truediv_int_float
                         (keys * total_submodule_contribution)
                         period_seconds);
      ret {| module_name := module_name;
             module_uniquekey := module_level_keys;
             module_period := period;
             module_period_seconds := period_seconds;
             submodules := submodule_details;
             total_submodule_contribution := total_submodule_contribution;
             eps := eps |}
  end.

Definition suggest_uniquekey_for_target_eps (module_name : string)
    (target_eps : float) (period : option pyobj) (tolerance : float)
  : M suggest_result :=
  (* Get current configuration *)
  do* module_config <- get_module_config module_name;
  do* submodules <- get_submodules module_name;
  (* Get current period if not specified *)
  let period :=
    match period with
    | None => mc_period module_config
    | Some p => p
    end in
  do* period_seconds <- lift (_parse_duration_to_seconds period);
  (* Calculate current total submodule contribution *)
  do* (_, total_submodule_contribution) <-
    submodule_contributions module_name None submodules [] 0;
  if (total_submodule_contribution <=? 0)%Z then ret NoUsableSubmodules
  else
    lift
      (let* total := float_of_int total_submodule_contribution in
       let* required_module_uniquekey :=
         truediv (mul target_eps period_seconds) total in
       (* Round to nearest integer *)
       let* rounded := round required_module_uniquekey in
       let suggested_module_uniquekey := Z.max 1 rounded in
       (* Calculate expected EPS with suggested value *)
       let* expected_eps :=
         truediv_int_float
           (suggested_module_uniquekey * total_submodule_contribution)
           period_seconds in
       (* Check if we're within tolerance *)
       let* actual_tolerance :=
         (if ltb (S754_zero false) target_eps
          then truediv (abs (sub expected_eps target_eps)) target_eps
          else Ok (S754_zero false)) in
       Ok (Suggested
             {| target_eps := target_eps;
                suggested_module_uniquekey := suggested_module_uniquekey;
                current_module_uniquekey := mc_uniquekey module_config;
                sg_module_period := period;
                period_seconds := period_seconds;
                sg_total_submodule_contribution :=
                  total_submodule_contribution;
                expected_eps := expected_eps;
                tolerance_used := actual_tolerance;
                within_tolerance := leb actual_tolerance tolerance;
                required_module_uniquekey :=
                  required_module_uniquekey |})).

(** [get_module_list]: the directories of [conf.d] that hold a
    [conf.yml], sorted; an exception of the listing is logged and the
    list is empty. *)
Definition module_names (fs : files_t) : list string :=
  sorted
    (List.filter
       (fun nm => is_dir fs (CONF_D_DIR cfg ++ [nm])
                  && exists_ fs (CONF_D_DIR cfg ++ [nm; "conf.yml"]))
       (iterdir fs (CONF_D_DIR cfg))).

Definition get_module_list : M (list string) :=
  fun w => (Ok (module_names (files w)), w).

(** One turn of the loop of [calculate_eps_for_all_modules]:
    [results[module_name] = ...] *)
Definition eps_for_module (module_name : string)
    (results : list (string * module_eps)) : M (list (string * module_eps)) :=
  try_except
    (do* eps_data <- calculate_eps module_name None None None;
     ret (results_set results module_name (EpsData eps_data)))
    (fun e => ret (results_set results module_name (EpsError e))).

Fixpoint eps_for_modules (modules : list string)
    (results : list (string * module_eps)) : M (list (string * module_eps)) :=
  match modules with
  | [] => ret results
  | module_name :: modules' =>
      do* results <- eps_for_module module_name results;
      eps_for_modules modules' results
  end.

Definition calculate_eps_for_all_modules : M (list (string * module_eps)) :=
  do* modules <- get_module_list;
  eps_for_modules modules [].

(** [get_module_summary] *)
Definition get_module_summary (module_name : string) : M summary_result :=
  try_except
    (do* eps_data <- calculate_eps module_name None None None;
     do* module_config <- get_module_config module_name;
     do* enabled <- lift (dict_get (mc_full_config module_config)
                            "enabled" (PBool false));
     ret (Summary
            {| ms_name := module_name;
               ms_enabled := enabled;
               ms_current_eps := eps eps_data;
               ms_module_uniquekey := module_uniquekey eps_data;
               ms_module_period := module_period eps_data;
               ms_submodule_count := Z.of_nat (length (submodules eps_data));
               ms_submodules := submodules eps_data;
               ms_config := module_config |}))
    (fun e => ret (SummaryError module_name e)).

(** *** The words of the specification *)

(** The document of a file, when the file is there and loads. *)
Definition document (fs : files_t) (p : path) : option pyobj :=
  match fs !! p with
  | Some content => yaml_load cfg content
  | None => None
  end.

(** [uniquekey.NumUniqKey] of a document. *)
Definition num_uniq_key (doc : pyobj) : option pyobj :=
  match doc with
  | PDict d =>
      match assoc_get d "uniquekey" with
      | Some (PDict u) => assoc_get u "NumUniqKey"
      | _ => None
      end
  | _ => None
  end.

(** The key of a file: its [uniquekey.NumUniqKey], and the configured
    default when that is missing. *)
Definition key_or_default (doc : option pyobj) : pyobj :=
  match doc with
  | Some d =>
      match num_uniq_key d with
      | Some v => v
      | None => PInt (DEFAULT_UNIQUE_KEY cfg)
      end
  | None => PInt (DEFAULT_UNIQUE_KEY cfg)
  end.

(** What a submodule with the given key contributes: the key, and the
    default when the key is below 1; the multiplier is 1. [None] when the
    key is not an integer. *)
Definition contribution_of_key (key : pyobj) : option Z :=
  match as_int key with
  | Some z => Some (if (z <? 1)%Z then DEFAULT_UNIQUE_KEY cfg else z)
  | None => None
  end.

Fixpoint contributions_of (fs : files_t) (module_name : string)
    (names : list string) : option (list Z) :=
  match names with
  | [] => Some []
  | nm :: names' =>
      match contribution_of_key
              (key_or_default
                 (document fs (submodule_config_path cfg module_name nm)))
      with
      | Some c =>
          match contributions_of fs module_name names' with
          | Some cs => Some (c :: cs)
          | None => None
          end
      | None => None
      end
  end.

(** The entry of a submodule that contributes [c]. *)
Definition detail_of (nm : string) (c : Z) : submodule_detail :=
  {| sd_name := nm; sd_uniquekey := c; sd_multiplier := 1;
     sd_contribution := c |}.

Definition sum_Z (l : list Z) : Z := fold_right Z.add 0 l.

(** The period that divides: 1.0 in place of a period of zero or less. *)
Definition guarded_period (seconds : float) : float :=
  if leb seconds (S754_zero false) then of_Z 1 else seconds.

End Calculator.
End EpsCalculator.

(** ** The cluster manager ([ClusterManager]) *)

Module ClusterManager.
Import PyObj PyStr FS.

(** What the manager is built on: its snapshot directory, PyYAML, MD5
    and [str()] of a list or dictionary. *)
Record cluster_settings := {
  conf_snapshots_dir : path;
  safe_load : string -> option pyobj;    (* yaml.safe_load; None: it raises *)
  safe_dump : pyobj -> string;           (* yaml.dump(..., sort_keys=False) *)
  md5 : string -> string;
  str_of_collection : pyobj -> string
}.

(** An entry of [nodes.yaml]. *)
Record node_config := {
  host : string;
  user : string;
  key_path : string;
  conf_dir : string;
  binary_dir : string;
  enabled : option bool                  (* config.get('enabled', True) *)
}.


(** The node at the other end of a connection and the scratch files of
    [tempfile], by serial number. *)
Record transport := {
  connect_fails : bool;
  get_fails : string -> bool;            (* sftp.get raises on this path *)
  put_fails : string -> option (option string)
    (* sftp.put raises on this path: before touching the remote file,
       or leaving it with the given content *)
}.

Record cworld := {
  remote : gmap string string;           (* the node's files *)
  scratch : gmap nat string;             (* local temporary files *)
  net : transport
}.

Definition C (A : Type) : Type := cworld -> result A * cworld.

Section Manager.
Variable cs : cluster_settings.
Variable nodes : list (string * node_config).   (* nodes_config['nodes'] *)

Fixpoint lookup_node (l : list (string * node_config)) (nm : string)
  : option node_config :=
  match l with
  | [] => None
  | (k, v) :: l' => if String.eqb k nm then Some v else lookup_node l' nm
  end.

(** [_calculate_checksum]: the digest of the file, and the empty
    string when reading it raises. *)
Definition _calculate_checksum (fs : files_t) (file_path : path)
  : string :=
  match fs !! file_path with
  | Some b => md5 cs b
  | None => EmptyString
  end.








(** *** Bulk edit *)

Definition cret {A} (a : A) : C A := fun w => (Ok a, w).
Definition craise {A} (e : exn) : C A := fun w => (Raise e, w).

Definition cbind {A B} (m : C A) (k : A -> C B) : C B :=
  fun w => match m w with
           | (Ok a, w') => k a w'
           | (Raise e, w') => (Raise e, w')
           end.

(** [self.create_node_backup(node_name)]: the class defines no method
    of this name (its backup method is [create_backup(node_name,
    file_path)]), so the attribute lookup raises. *)
Definition create_node_backup (node_name : string) : C bool :=
  craise AttributeError.

Definition _create_ssh_connection (node : node_config) : C unit :=
  fun w => if connect_fails (net w) then (Raise NodeConnectionError, w)
           else (Ok tt, w).

(** [tempfile.NamedTemporaryFile(mode='w+', suffix='.yml',
    delete=False)]: a new, empty file. *)
Definition named_temporary_file : C nat :=
  fun w =>
    let n := fresh (dom (scratch w)) in
    (Ok n, {| remote := remote w;
              scratch := <[n := EmptyString]> (scratch w);
              net := net w |}).

(** [sftp.get(remote_path, temp_path)] *)
Definition sftp_get (remote_path : string) (temp_path : nat) : C unit :=
  fun w =>
    if get_fails (net w) remote_path then (Raise OSError, w)
    else match remote w !! remote_path with
         | None => (Raise FileNotFoundError, w)
         | Some b =>
             (Ok tt, {| remote := remote w;
                        scratch := <[temp_path := b]> (scratch w);
                        net := net w |})
         end.

(** [sftp.put(temp_path, remote_path)] *)
Definition sftp_put (temp_path : nat) (remote_path : string) : C unit :=
  fun w =>
    match scratch w !! temp_path with
    | None => (Raise FileNotFoundError, w)
    | Some b =>
        match put_fails (net w) remote_path with
        | Some None => (Raise OSError, w)
        | Some (Some part) =>
            (Raise OSError,
             {| remote := <[remote_path := part]> (remote w);
                scratch := scratch w; net := net w |})
        | None =>
            (Ok tt, {| remote := <[remote_path := b]> (remote w);
                       scratch := scratch w; net := net w |})
        end
    end.

Definition read_scratch (temp_path : nat) : C string :=
  fun w => match scratch w !! temp_path with
           | Some b => (Ok b, w)
           | None => (Raise FileNotFoundError, w)
           end.

Definition write_scratch (temp_path : nat) (text : string) : C unit :=
  fun w => (Ok tt, {| remote := remote w;
                      scratch := <[temp_path := text]> (scratch w);
                      net := net w |}).

(** [os.unlink(temp_path)] inside [try: ... except: pass] *)
Definition unlink_scratch (temp_path : nat) : C unit :=
  fun w => (Ok tt, {| remote := remote w;
                      scratch := delete temp_path (scratch w);
                      net := net w |}).

(** The update of the loaded document: the [uniquekey] section is
    created, or replaced when it is not a dictionary, and
    [NumUniqKey] is set in it. *)
Definition set_remote_key (config_data new_value : pyobj)
  : result pyobj :=
  let* has := contains config_data "uniquekey" in
  let* config_data :=
    (if negb has then setitem config_data "uniquekey" (PDict [])
     else Ok config_data) in
  let* section := getitem config_data "uniquekey" in
  let* config_data :=
    (if negb (is_dict section) then setitem config_data "uniquekey" (PDict [])
     else Ok config_data) in
  let* section := getitem config_data "uniquekey" in
  let* section := setitem section "NumUniqKey" new_value in
  setitem config_data "uniquekey" section.

(** The statements of the inner [try]. *)
Definition edit_remote_file (remote_file_path : string) (temp_path : nat)
    (new_value : pyobj) : C unit :=
  cbind (sftp_get remote_file_path temp_path) (fun _ =>
  cbind (read_scratch temp_path) (fun content =>
  match safe_load cs content with
  | None => craise YAMLError
  | Some loaded =>
      match set_remote_key (or_empty_dict loaded) new_value with
      | Raise e => craise e
      | Ok config_data =>
          cbind (write_scratch temp_path (safe_dump cs config_data))
            (fun _ => sftp_put temp_path remote_file_path)
      end
  end)).

(** One turn of [for submodule_path, new_value in
    unique_key_updates.items()]. *)
Definition edit_one (node : node_config) (submodule_path : string)
    (new_value : pyobj) (results : gmap string bool)
  : C (gmap string bool) :=
  match split_slash_once submodule_path with
  | None =>
      (* except ValueError *)
      cret (<[submodule_path := false]> results)
  | Some (module_name, submodule_name) =>
      let remote_file_path :=
        conf_dir node +:+ "/" +:+ module_name +:+ "/"
          +:+ submodule_name +:+ ".yml" in
      cbind named_temporary_file (fun temp_path =>
      fun w =>
        let '(r, w') := edit_remote_file remote_file_path temp_path
                          new_value w in
        let results :=
          match r with
          | Ok _ => <[submodule_path := true]> results
          | Raise _ => <[submodule_path := false]> results
          end in
        (* finally: clean up temp file *)
        let '(_, w'') := unlink_scratch temp_path w' in
        (Ok results, w''))
  end.

Fixpoint edit_all (node : node_config)
    (unique_key_updates : list (string * pyobj))
    (results : gmap string bool) : C (gmap string bool) :=
  match unique_key_updates with
  | [] => cret results
  | (submodule_path, new_value) :: rest =>
      cbind (edit_one node submodule_path new_value results)
        (fun results => edit_all node rest results)
  end.

(** [{path: False for path in unique_key_updates.keys()}] *)
Definition all_false (unique_key_updates : list (string * pyobj))
  : gmap string bool :=
  list_to_map (List.map (fun kv => (fst kv, false)) unique_key_updates).

(** The dictionary [unique_key_updates] is given by its items in
    order. The function has handlers for every exception, so it
    returns a map and never raises. *)
Definition bulk_edit_submodule_unique_keys (node_name : string)
    (unique_key_updates : list (string * pyobj)) (create_backup : bool)
  : cworld -> gmap string bool * cworld :=
  fun w =>
    match lookup_node nodes node_name with
    | None => (all_false unique_key_updates, w)
    | Some node =>
        if negb (default true (enabled node))
        then (all_false unique_key_updates, w)
        else
          let body :=
            cbind (if create_backup then create_node_backup node_name
                   else cret true) (fun _ =>
            cbind (_create_ssh_connection node) (fun _ =>
            edit_all node unique_key_updates ∅)) in
          match body w with
          | (Ok results, w') => (results, w')
          | (Raise _, w') => (all_false unique_key_updates, w')
          end
    end.

(** *** Words of the claims on discovery *)

(** The first node whose snapshot holds a [conf.d]. *)
Definition first_available (fs : files_t) : option path :=
  match List.filter
          (fun d => is_dir fs (conf_snapshots_dir cs ++ [d])
                    && exists_ fs (conf_snapshots_dir cs ++ [d; "conf.d"]))
          (iterdir fs (conf_snapshots_dir cs)) with
  | [] => None
  | nm :: _ => Some (conf_snapshots_dir cs ++ [nm; "conf.d"])
  end.

(** The snapshot directory that the discovery walks through. *)
Definition snapshot_dir_of (fs : files_t) (node_name : option string)
  : option path :=
  match node_name with
  | Some nm =>
      if negb (String.eqb nm EmptyString)
      then Some (conf_snapshots_dir cs ++ [nm; "conf.d"])
      else first_available fs
  | None => first_available fs
  end.




(** The file of a submodule on a node, as the bulk edit names it. *)
Definition remote_file_path_of (node : node_config)
    (module_name submodule_name : string) : string :=
  conf_dir node +:+ "/" +:+ module_name +:+ "/" +:+ submodule_name +:+ ".yml".


(** [_get_module_level_unique_key]: the [uniquekey.NumUniqKey] of the
    [conf.yml] of the module in the snapshot, as the document has it;
    1 when there is no snapshot, no file, no such key, or when anything
    raises. *)
Definition _get_module_level_unique_key (fs : files_t)
    (module_name : string) (node_name : option string) : pyobj :=
  match snapshot_dir_of fs node_name with
  | None => PInt 1
  | Some conf_d =>
      let module_conf_path := conf_d ++ [module_name; "conf.yml"] in
      if negb (exists_ fs module_conf_path) then PInt 1
      else
        match fs !! module_conf_path with
        | None => PInt 1
        | Some text =>
            match safe_load cs text with
            | None => PInt 1
            | Some loaded =>
                match or_empty_dict loaded with
                | PDict module_config =>
                    match assoc_get module_config "uniquekey" with
                    | Some (PDict u) =>
                        match assoc_get u "NumUniqKey" with
                        | Some v => v
                        | None => PInt 1
                        end
                    | _ => PInt 1
                    end
                | _ => PInt 1
                end
            end
        end
  end.

(** [_get_default_cluster_settings] *)
Definition _get_default_cluster_settings : pyobj :=
  PDict [("backup_retention_days", PInt 30); ("sync_timeout", PInt 60);
         ("connection_timeout", PInt 10); ("max_retries", PInt 3);
         ("conflict_resolution", PStr "manual")].

(** The validation of the loaded configuration: the two sections are
    added when [in] does not find them. *)
Definition with_sections (config : pyobj) : result pyobj :=
  let* has := contains config "nodes" in
  let* config := (if negb has then setitem config "nodes" (PDict [])
                  else Ok config) in
  let* has := contains config "cluster_settings" in
  if negb has
  then setitem config "cluster_settings" _get_default_cluster_settings
  else Ok config.

(** [_load_nodes_config], for the file [base_dir / nodes_file]. *)
Definition _load_nodes_config (fs : files_t) (nodes_file : path) : pyobj :=
  if negb (exists_ fs nodes_file)
  then PDict [("nodes", PDict []); ("cluster_settings", PDict [])]
  else
    let fallback :=
      PDict [("nodes", PDict []);
             ("cluster_settings", _get_default_cluster_settings)] in
    match fs !! nodes_file with
    | None => fallback
    | Some text =>
        match safe_load cs text with
        | None => fallback
        | Some loaded =>
            match with_sections (or_empty_dict loaded) with
            | Ok config => config
            | Raise _ => fallback
            end
        end
    end.


End Manager.
End ClusterManager.

(** ** The registry of the nodes ([ClusterManager.get_nodes],
       [get_enabled_nodes], [add_node], [remove_node]) *)

Module NodeRegistry.
Import PyObj FS.

(** [del d[k]] on a dictionary *)
Fixpoint assoc_del (d : list (string * pyobj)) (k : string)
  : list (string * pyobj) :=
  match d with
  | [] => []
  | (k', v) :: d' =>
      if String.eqb k' k then assoc_del d' k else (k', v) :: assoc_del d' k
  end.

(** [del v[k]] for a string [k] *)
Definition delitem (v : pyobj) (k : string) : result pyobj :=
  match v with
  | PDict d => match assoc_get d k with
               | Some _ => Ok (PDict (assoc_del d k))
               | None => Raise KeyError
               end
  | _ => Raise TypeError
  end.

(** [v.items()] *)
Definition items (v : pyobj) : result (list (string * pyobj)) :=
  match v with
  | PDict d => Ok d
  | _ => Raise AttributeError
  end.

(** [shutil.rmtree(dir)]: every file below the directory goes; a path
    that is a file is refused. *)
Definition rmtree (dir : path) : M unit :=
  fun w => if is_file (files w) dir then (Raise OSError, w)
           else (Ok tt,
                 set_files w
                   (filter (fun kv : path * string => below dir kv.1 = None)
                      (files w))).

(** A name that is one component of a path: [dir / name] lies in
    [dir]. *)
Definition is_component (name : string) : bool :=
  negb (String.eqb name EmptyString)
  && negb (String.eqb name ".") && negb (String.eqb name "..")
  && negb (is_substring "/" name).

(** The dictionary that [add_node] stores for a node. *)
Definition node_entry (host user key_path conf_dir binary_dir description
    enabled : pyobj) : pyobj :=
  PDict [("host", host); ("user", user); ("key_path", key_path);
         ("conf_dir", conf_dir); ("binary_dir", binary_dir);
         ("description", description); ("enabled", enabled)].

Section Registry.
Variable yaml_dump : pyobj -> string.  (* yaml.dump(..., default_flow_style=False) *)
Variable base_dir : path.
Variable nodes_file_name : string.     (* "nodes.yaml" *)

Definition nodes_file : path := base_dir ++ [nodes_file_name].
Definition conf_snapshots_dir : path := base_dir ++ ["conf_snapshots"].
Definition backups_dir : path := base_dir ++ ["backups"].

(** [get_nodes], on [self.nodes_config] *)
Definition get_nodes (nodes_config : pyobj) : result pyobj :=
  dict_get nodes_config "nodes" (PDict []).

(** [{name: config for name, config in items
      if config.get('enabled', True)}] *)
Fixpoint enabled_items (its : list (string * pyobj))
  : result (list (string * pyobj)) :=
  match its with
  | [] => Ok []
  | (name, config) :: rest =>
      let* enabled := dict_get config "enabled" (PBool true) in
      let* kept := enabled_items rest in
      Ok (if truthy enabled then (name, config) :: kept else kept)
  end.

(** [get_enabled_nodes] *)
Definition get_enabled_nodes (nodes_config : pyobj) : result pyobj :=
  let* nodes := get_nodes nodes_config in
  let* its := items nodes in
  let* kept := enabled_items its in
  Ok (PDict kept).

(** [with open(self.nodes_file, 'w') as f: yaml.dump(config, f)] *)
Definition save (config : pyobj) : M unit :=
  do* _ <- open_write nodes_file;
  write_dump nodes_file (yaml_dump config).

(** [add_node]: the answer and [self.nodes_config] after the call. The
    configuration is changed in memory before it is saved. *)
Definition add_node (nodes_config : pyobj) (name : string)
    (host user key_path conf_dir binary_dir description enabled : pyobj)
  : M (bool * pyobj) :=
  match (let* has := contains nodes_config "nodes" in
         if negb has then setitem nodes_config "nodes" (PDict [])
         else Ok nodes_config) with
  | Raise _ => ret (false, nodes_config)
  | Ok config1 =>
      match (let* nodes := getitem config1 "nodes" in
             let* nodes := setitem nodes name
                             (node_entry host user key_path conf_dir
                                binary_dir description enabled) in
             setitem config1 "nodes" nodes) with
      | Raise _ => ret (false, config1)
      | Ok config2 =>
          try_except
            (do* _ <- save config2;
             ret (true, config2))
            (fun _ => ret (false, config2))
      end
  end.

(** [remove_node]: the answer and [self.nodes_config] after the
    call. *)
Definition remove_node (nodes_config : pyobj) (name : string)
  : M (bool * pyobj) :=
  match (let* nodes := get_nodes nodes_config in contains nodes name) with
  | Raise _ => ret (false, nodes_config)
  | Ok false => ret (false, nodes_config)
  | Ok true =>
      match (let* nodes := getitem nodes_config "nodes" in
             let* nodes := delitem nodes name in
             setitem nodes_config "nodes" nodes) with
      | Raise _ => ret (false, nodes_config)
      | Ok config1 =>
          let node_snapshot_dir := conf_snapshots_dir ++ [name] in
          let node_backup_dir := backups_dir ++ [name] in
          try_except
            (do* _ <- save config1;
             do* has <- path_exists node_snapshot_dir;
             do* _ <- (if has then rmtree node_snapshot_dir else ret tt);
             do* has <- path_exists node_backup_dir;
             do* _ <- (if has then rmtree node_backup_dir else ret tt);
             ret (true, config1))
            (fun _ => ret (false, config1))
      end
  end.

End Registry.
End NodeRegistry.

(** ** A small installation, to run the functions on *)

Module Examples.
Import PyObj PyStr FS.

(** Documents are written in YAML flow style. *)
Fixpoint flow_dump (v : pyobj) : string :=
  match v with
  | PNone => "null"
  | PBool true => "true"
  | PBool false => "false"
  | PInt z => str_of_int z
  | PStr s => s
  | PList l =>
      "[" +:+ (fix items (l : list pyobj) : string :=
                 match l with
                 | [] => EmptyString
                 | [x] => flow_dump x
                 | x :: l' => flow_dump x +:+ ", " +:+ items l'
                 end) l +:+ "]"
  | PDict d =>
      "{" +:+ (fix items (d : list (string * pyobj)) : string :=
                 match d with
                 | [] => EmptyString
                 | [(k, x)] => k +:+ ": " +:+ flow_dump x
                 | (k, x) :: d' => k +:+ ": " +:+ flow_dump x +:+ ", " +:+ items d'
                 end) d +:+ "}"
  end.

(** A loader that knows the documents of a table. *)
Definition load_table (docs : list pyobj) (text : string) : option pyobj :=
  List.find (fun d => String.eqb (flow_dump d) text) docs.

Definition with_key (k : Z) : pyobj :=
  PDict [("uniquekey", PDict [("NumUniqKey", PInt k)])].

Definition module_doc (k : Z) (period : string) : pyobj :=
  PDict [("enabled", PBool true);
         ("uniquekey", PDict [("NumUniqKey", PInt k)]);
         ("period", PStr period);
         ("Include_sub_modules", PList [PStr "status"; PStr "access"])].

Definition docs : list pyobj :=
  [module_doc 5 "1s"; module_doc 5 "10s"; module_doc 1000000000 "1s";
   with_key 10; with_key 20; with_key 30; with_key 0; with_key (-7);
   with_key 2000000000; PDict []].

Definition cfg : settings :=
  {| CONF_D_DIR := ["conf.d"];
     BACKUPS_DIR := ["backups"];
     MAX_UNIQUE_KEY := 1000000000;
     DEFAULT_UNIQUE_KEY := 1;
     md5_hexdigest := fun b => b;
     yaml_load := load_table docs;
     yaml_dump := flow_dump |}.

(** The module [Apache] with key 5, the given period and three
    submodules with the keys 10, 20 and 30. *)
Definition apache_files (period : string) : files_t :=
  list_to_map
    [(["conf.d"; "Apache"; "conf.yml"], flow_dump (module_doc 5 period));
     (["conf.d"; "Apache"; "status.yml"], flow_dump (with_key 10));
     (["conf.d"; "Apache"; "access.yml"], flow_dump (with_key 20));
     (["conf.d"; "Apache"; "error.yml"], flow_dump (with_key 30))].

Definition world_of (fs : files_t) : world :=
  {| files := fs; log := []; clock := "20240101_120000";
     env := no_faults |}.

Definition apache_world (period : string) : world :=
  world_of (apache_files period).

(** An installation with no file at all. *)
Definition empty_world : world := world_of ∅.

(** A world in which the serialiser raises after a few characters. *)
Definition torn_dump_world : world :=
  {| files := apache_files "1s"; log := []; clock := "20240101_120000";
     env := {| copy_fails := false; open_write_fails := false;
               dump_fails := Some "{enabled: tr"; replace_fails := false |} |}.

(** The documents of a snapshot: a module that takes every file of
    its directory, and one that names a file that is not there. *)
Definition wildcard_doc : pyobj :=
  PDict [("Include_sub_modules", PStr "*")].

Definition missing_doc : pyobj :=
  PDict [("Include_sub_modules", PList [PStr "jmx"])].

Definition cluster_docs : list pyobj :=
  docs ++ [wildcard_doc; missing_doc].

(** More documents: a period that is no duration, a period of zero,
    a key that is a string, and the documents that the mutators
    write. *)
Definition text_key : pyobj :=
  PDict [("uniquekey", PDict [("NumUniqKey", PStr "ten")])].

Definition edge_docs : list pyobj :=
  docs ++ [module_doc 5 "fast"; module_doc 5 "0s"; text_key; with_key 7;
           module_doc 7 "1s"].

Definition edge_cfg : settings :=
  {| CONF_D_DIR := ["conf.d"];
     BACKUPS_DIR := ["backups"];
     MAX_UNIQUE_KEY := 1000000000;
     DEFAULT_UNIQUE_KEY := 1;
     md5_hexdigest := fun b => b;
     yaml_load := load_table edge_docs;
     yaml_dump := flow_dump |}.

(** The module [Apache] with a submodule whose key is a string. *)
Definition text_key_world : world :=
  world_of (<[["conf.d"; "Apache"; "status.yml"] := flow_dump text_key]>
              (apache_files "1s")).

(** A world in which the backup copy fails. *)
Definition failing_copy_world : world :=
  {| files := apache_files "1s"; log := []; clock := "20240101_120000";
     env := {| copy_fails := true; open_write_fails := false;
               dump_fails := None; replace_fails := false |} |}.

Definition cluster_cfg : ClusterManager.cluster_settings :=
  {| ClusterManager.conf_snapshots_dir := ["conf_snapshots"];
     ClusterManager.safe_load := load_table cluster_docs;
     ClusterManager.safe_dump := flow_dump;
     ClusterManager.md5 := fun b => b;
     ClusterManager.str_of_collection := flow_dump |}.

(** The snapshot of [node1]: [Apache] names [status] and [access] and
    has [error.yml] alongside, [Nginx] takes ["*"], and [Tomcat] names
    [jmx], of which there is no file. *)
Definition snapshot_dir : path := ["conf_snapshots"; "node1"; "conf.d"].

Definition snapshot_files : files_t :=
  list_to_map
    [(snapshot_dir ++ ["conf.yml"], flow_dump (PDict []));
     (snapshot_dir ++ ["Apache"; "conf.yml"], flow_dump (module_doc 5 "1s"));
     (snapshot_dir ++ ["Apache"; "status.yml"], flow_dump (with_key 10));
     (snapshot_dir ++ ["Apache"; "access.yml"], flow_dump (with_key 20));
     (snapshot_dir ++ ["Apache"; "error.yml"], flow_dump (with_key 30));
     (snapshot_dir ++ ["Nginx"; "conf.yml"], flow_dump wildcard_doc);
     (snapshot_dir ++ ["Nginx"; "stub.yml"], flow_dump (with_key 10));
     (snapshot_dir ++ ["Nginx"; "extra.yml"], flow_dump (with_key 20));
     (snapshot_dir ++ ["Tomcat"; "conf.yml"], flow_dump missing_doc)].

(** A cluster of one node. *)
Definition node1 : ClusterManager.node_config :=
  {| ClusterManager.host := "10.0.0.1";
     ClusterManager.user := "vunet";
     ClusterManager.key_path := "~/.ssh/id_rsa";
     ClusterManager.conf_dir := "/opt/vudatasim/conf.d";
     ClusterManager.binary_dir := "/opt/vudatasim/bin";
     ClusterManager.enabled := Some true |}.

Definition nodes : list (string * ClusterManager.node_config) :=
  [("node1", node1)].

Definition remote_files : gmap string string :=
  list_to_map
    [("/opt/vudatasim/conf.d/Apache/status.yml", flow_dump (with_key 10));
     ("/opt/vudatasim/conf.d/Apache/access.yml", flow_dump (with_key 20));
     ("/opt/vudatasim/conf.d/Apache/error.yml", flow_dump (with_key 30))].

Definition transport_ok : ClusterManager.transport :=
  {| ClusterManager.connect_fails := false;
     ClusterManager.get_fails := fun _ => false;
     ClusterManager.put_fails := fun _ => None |}.

(** The transfer of [access.yml] from the node fails. *)
Definition transport_second_fails : ClusterManager.transport :=
  {| ClusterManager.connect_fails := false;
     ClusterManager.get_fails :=
       fun p => String.eqb p "/opt/vudatasim/conf.d/Apache/access.yml";
     ClusterManager.put_fails := fun _ => None |}.

Definition cluster_world (t : ClusterManager.transport)
  : ClusterManager.cworld :=
  {| ClusterManager.remote := remote_files;
     ClusterManager.scratch := ∅;
     ClusterManager.net := t |}.

Definition three_updates : list (string * pyobj) :=
  [("Apache/status", PInt 100); ("Apache/access", PInt 200);
   ("Apache/error", PInt 300)].

(** A registry of two nodes, of which the second is disabled, with the
    snapshots and the backups of both. *)
Definition entry_of (host : string) (enabled : bool) : pyobj :=
  NodeRegistry.node_entry (PStr host) (PStr "vunet") (PStr "~/.ssh/id_rsa")
    (PStr "/opt/vudatasim/conf.d") (PStr "/opt/vudatasim/bin")
    (PStr EmptyString) (PBool enabled).

Definition registry : pyobj :=
  PDict [("nodes", PDict [("node1", entry_of "10.0.0.1" true);
                          ("node2", entry_of "10.0.0.2" false)]);
         ("cluster_settings", PDict [])].

Definition registry_files : files_t :=
  list_to_map
    [(["nodes.yaml"], flow_dump registry);
     (["conf_snapshots"; "node1"; "conf.d"; "Apache"; "conf.yml"],
      flow_dump (module_doc 5 "1s"));
     (["conf_snapshots"; "node2"; "conf.d"; "Apache"; "conf.yml"],
      flow_dump (module_doc 5 "10s"));
     (["backups"; "node2"; "conf.yml.bak"], flow_dump (module_doc 5 "1s"))].

(** A world in which the nodes file cannot be opened for writing. *)
Definition read_only_world : world :=
  {| files := registry_files; log := []; clock := "20240101_120000";
     env := {| copy_fails := false; open_write_fails := true;
               dump_fails := None; replace_fails := false |} |}.


End Examples.

(* ===================================================================== *)
(** * Part II: properties                                                 *)
(* ===================================================================== *)

(** ** Integers that binary64 represents exactly *)

Module PyFloatFacts.
Import PyFloat.

Lemma digits2_bounds p : 2 ^ (Z.pos (digits2_pos p) - 1) <= Z.pos p < 2 ^ Z.pos (digits2_pos p).
Proof.
  induction p; cbn [digits2_pos].
  - rewrite Pos2Z.inj_succ. replace (Z.succ (Z.pos (digits2_pos p)) - 1) with (Z.succ (Z.pos (digits2_pos p) - 1)) by lia.
    rewrite !Z.pow_succ_r by lia. lia.
  - rewrite Pos2Z.inj_succ. replace (Z.succ (Z.pos (digits2_pos p)) - 1) with (Z.succ (Z.pos (digits2_pos p) - 1)) by lia.
    rewrite !Z.pow_succ_r by lia. lia.
  - simpl. lia.
Qed.

Lemma digits2_unique p d : 0 < d -> 2 ^ (d - 1) <= Z.pos p < 2 ^ d -> Z.pos (digits2_pos p) = d.
Proof.
  intros Hd [H1 H2]. destruct (digits2_bounds p) as [B1 B2].
  set (e := Z.pos (digits2_pos p)) in *. assert (0 < e) by (unfold e; lia).
  destruct (Z.lt_trichotomy e d) as [Hlt | [Heq | Hgt]]; [ | assumption | ].
  - exfalso. assert (2 ^ e <= 2 ^ (d - 1)) by (apply Z.pow_le_mono_r; lia). lia.
  - exfalso. assert (2 ^ d <= 2 ^ (e - 1)) by (apply Z.pow_le_mono_r; lia). lia.
Qed.

Lemma iter_pos_shift {A} (f : A -> A) p : forall x, SpecFloat.iter_pos f p (f x) = f (SpecFloat.iter_pos f p x).
Proof.
  induction p; intros x; cbn [SpecFloat.iter_pos]; rewrite ?IHp; reflexivity.
Qed.

(* shifting right an exact multiple *)
Lemma shr_1_double m : shr_1 (Build_shr_record (Z.pos m~0) false false) = Build_shr_record (Z.pos m) false false.
Proof. reflexivity. Qed.

Lemma iter_shr_exact p : forall m : positive,
  SpecFloat.iter_pos shr_1 p (Build_shr_record (Z.pos (Pos.iter xO m p)) false false)
  = Build_shr_record (Z.pos m) false false.
Proof.
  induction p; intros m; cbn [SpecFloat.iter_pos Pos.iter].
  - rewrite shr_1_double, !IHp. reflexivity.
  - rewrite !IHp. reflexivity.
  - reflexivity.
Qed.

Lemma pos_iter_xO m k : Z.pos (Pos.iter xO m k) = Z.pos m * 2 ^ Z.pos k.
Proof.
  rewrite <- Z.shiftl_mul_pow2 by lia. cbn [Z.shiftl].
  apply Pos.iter_swap_gen. reflexivity.
Qed.

Lemma fexp_eq e : -1021 <= e -> fexp prec emax e = e - 53.
Proof. intros. unfold fexp, emin, prec, emax. lia. Qed.

(* A 53-digit mantissa with an exponent in range is left as it is. *)
Lemma round_aux_canonical s m e :
  Z.pos (digits2_pos m) = 53 -> -1074 <= e <= 971 ->
  binary_round_aux prec emax s (Z.pos m) e loc_Exact = S754_finite s m e.
Proof.
  intros Hd He. unfold binary_round_aux, shr_fexp. cbn [Zdigits2 shr_record_of_loc].
  rewrite Hd. rewrite fexp_eq by lia.
  replace (53 + e - 53 - e) with 0 by lia. cbn [shr shr_m loc_of_shr_record round_nearest_even Zdigits2].
  rewrite Hd, fexp_eq by lia. replace (53 + e - 53 - e) with 0 by lia. cbn [shr shr_m].
  destruct (Z.leb_spec e (emax - prec)); [reflexivity | unfold emax, prec in *; lia].
Qed.

(* Rounding an exact multiple m * 2^k with more than 53 digits, whose
   low k bits are zero, where the quotient has exactly 53 digits *)
Lemma round_aux_exact s (m : positive) (k : positive) e :
  Z.pos (digits2_pos m) = 53 -> -1074 <= e + Z.pos k <= 971 -> -1021 - 53 <= e ->
  binary_round_aux prec emax s (Z.pos (Pos.iter xO m k)) e loc_Exact = S754_finite s m (e + Z.pos k).
Proof.
  intros Hd He He'. 
  assert (Hdig : Zdigits2 (Z.pos (Pos.iter xO m k)) = 53 + Z.pos k).
  { cbn [Zdigits2].
    apply digits2_unique; [lia|]. destruct (digits2_bounds m) as [B1 B2]. rewrite Hd in *.
    rewrite pos_iter_xO.
    replace (53 + Z.pos k - 1) with (52 + Z.pos k) by lia. rewrite !Z.pow_add_r by lia.
    assert (0 < 2 ^ Z.pos k) by (apply Z.pow_pos_nonneg; lia). simpl in B1. nia. }
  unfold binary_round_aux, shr_fexp. rewrite Hdig.
  rewrite fexp_eq by lia. replace (53 + Z.pos k + e - 53 - e) with (Z.pos k) by lia.
  cbn [shr_record_of_loc shr]. rewrite iter_shr_exact.
  cbn [shr_m loc_of_shr_record round_nearest_even Zdigits2]. rewrite Hd.
  rewrite fexp_eq by lia. replace (53 + (e + Z.pos k) - 53 - (e + Z.pos k)) with 0 by lia.
  cbn [shr shr_m].
  destruct (Z.leb_spec (e + Z.pos k) (emax - prec)); [reflexivity | unfold emax, prec in *; lia].
Qed.

Lemma norm_m_val p : Z.pos (digits2_pos p) <= 53 ->
  Z.pos (norm_m p) = Z.pos p * 2 ^ (53 - Z.pos (digits2_pos p)).
Proof.
  intros H. unfold norm_m. destruct (53 - Z.pos (digits2_pos p)) eqn:E; try lia.
  apply pos_iter_xO.
Qed.

Lemma norm_m_digits p : Z.pos (digits2_pos p) <= 53 -> Z.pos (digits2_pos (norm_m p)) = 53.
Proof.
  intros H. apply digits2_unique; [lia|]. rewrite norm_m_val by assumption.
  destruct (digits2_bounds p) as [B1 B2]. set (d := Z.pos (digits2_pos p)) in *.
  assert (0 < d) by (unfold d; lia).
  assert (E1 : 2 ^ (53 - 1) = 2 ^ (d - 1) * 2 ^ (53 - d)) by (rewrite <- Z.pow_add_r by lia; f_equal; lia).
  assert (E2 : 2 ^ 53 = 2 ^ d * 2 ^ (53 - d)) by (rewrite <- Z.pow_add_r by lia; f_equal; lia).
  rewrite E1, E2. assert (0 < 2 ^ (53 - d)) by (apply Z.pow_pos_nonneg; lia). nia.
Qed.

Lemma of_Z_pos p : Z.pos (digits2_pos p) <= 53 ->
  of_Z (Z.pos p) = S754_finite false (norm_m p) (norm_e p).
Proof.
  intros H. unfold of_Z, binary_normalize, binary_round, shl_align.
  rewrite Z.add_0_r, fexp_eq by lia. rewrite Z.sub_0_r.
  assert (Hn := norm_m_digits p H). unfold norm_m, norm_e in *.
  destruct (53 - Z.pos (digits2_pos p)) eqn:E; try lia.
  - replace (Z.pos (digits2_pos p) - 53) with 0 by lia.
    cbv beta iota.
    rewrite round_aux_canonical by (auto; lia). reflexivity.
  - replace (Z.pos (digits2_pos p) - 53) with (Z.neg p0) by lia.
    cbv beta iota.
    rewrite round_aux_canonical by (auto; lia). reflexivity.
Qed.

Lemma digits_le_53 p : Z.pos p < 2 ^ 53 -> Z.pos (digits2_pos p) <= 53.
Proof.
  intros H. destruct (digits2_bounds p) as [B1 _].
  destruct (Z.le_gt_cases (Z.pos (digits2_pos p)) 53); [assumption|].
  assert (2 ^ 53 <= 2 ^ (Z.pos (digits2_pos p) - 1)) by (apply Z.pow_le_mono_r; lia). lia.
Qed.

Lemma mul_exact_pos a b : Z.pos (a * b) < 2 ^ 53 ->
  mul (of_Z (Z.pos a)) (of_Z (Z.pos b)) = of_Z (Z.pos (a * b)).
Proof.
  intros H.
  assert (Hab := digits_le_53 _ H).
  assert (Ha : Z.pos (digits2_pos a) <= 53) by (apply digits_le_53; nia).
  assert (Hb : Z.pos (digits2_pos b) <= 53) by (apply digits_le_53; nia).
  rewrite !of_Z_pos by assumption. unfold mul, SFmul. cbn [xorb].
  destruct (digits2_bounds a) as [A1 A2]. destruct (digits2_bounds b) as [B1 B2].
  destruct (digits2_bounds (a * b)) as [C1 C2].
  set (da := Z.pos (digits2_pos a)) in *. set (db := Z.pos (digits2_pos b)) in *.
  set (dab := Z.pos (digits2_pos (a * b))) in *.
  assert (0 < da) by (unfold da; lia). assert (0 < db) by (unfold db; lia).
  assert (Hlow : da + db - 1 <= dab).
  { destruct (Z.le_gt_cases (da + db - 1) dab); [assumption|exfalso].
    assert (2 ^ dab <= 2 ^ (da + db - 2)) by (apply Z.pow_le_mono_r; lia).
    assert (2 ^ (da + db - 2) = 2 ^ (da - 1) * 2 ^ (db - 1)) by (rewrite <- Z.pow_add_r by lia; f_equal; lia).
    assert (0 < 2 ^ (da - 1)) by (apply Z.pow_pos_nonneg; lia).
    assert (0 < 2 ^ (db - 1)) by (apply Z.pow_pos_nonneg; lia).
    rewrite Pos2Z.inj_mul in *. nia. }
  destruct (53 + dab - da - db) as [|k|k] eqn:Ek; try lia.
  assert (Hm : (norm_m a * norm_m b)%positive = Pos.iter xO (norm_m (a * b)) k).
  { apply Pos2Z.inj. rewrite pos_iter_xO, Pos2Z.inj_mul, !norm_m_val by assumption.
    fold da db dab. rewrite Pos2Z.inj_mul. rewrite <- Ek.
    replace (53 - da) with ((53 - da) + 0) by lia.
    assert (E : 2 ^ (53 - da) * 2 ^ (53 - db) = 2 ^ (53 - dab) * 2 ^ (53 + dab - da - db)).
    { rewrite <- !Z.pow_add_r by lia. f_equal. lia. }
    rewrite Z.add_0_r. 
    transitivity (Z.pos a * Z.pos b * (2 ^ (53 - da) * 2 ^ (53 - db))); [ring|]. rewrite E. ring. }
  rewrite Hm. rewrite round_aux_exact.
  - f_equal. unfold norm_e. fold da db dab. lia.
  - apply norm_m_digits; assumption.
  - unfold norm_e. fold da db. lia.
  - unfold norm_e. fold da db. lia.
Qed.

Lemma of_Z_exact_mul a b :
  0 < a -> 0 < b -> a * b < 2 ^ 53 ->
  mul (of_Z a) (of_Z b) = of_Z (a * b).
Proof.
  intros Ha Hb H. destruct a as [|a|a]; try lia. destruct b as [|b|b]; try lia.
  apply mul_exact_pos. exact H.
Qed.

(** The value of the float of an integer below 2^53 is that integer. *)
Lemma to_Q_of_Z n : 0 <= n < 2 ^ 53 -> (to_Q (of_Z n) == inject_Z n)%Q.
Proof.
  intros [H0 H]. destruct n as [|p|p]; try lia.
  - reflexivity.
  - assert (Hd := digits_le_53 _ H). rewrite of_Z_pos by assumption.
    unfold to_Q, norm_e. destruct (Z.leb_spec 0 (Z.pos (digits2_pos p) - 53)).
    + rewrite norm_m_val by assumption.
      replace (53 - Z.pos (digits2_pos p)) with 0 by lia.
      replace (Z.pos (digits2_pos p) - 53) with 0 by lia.
      rewrite !Z.pow_0_r, !Z.mul_1_r. reflexivity.
    + unfold Qeq. cbn [Qnum Qden inject_Z]. rewrite norm_m_val by assumption.
      replace (- (Z.pos (digits2_pos p) - 53)) with (53 - Z.pos (digits2_pos p)) by lia.
      rewrite Z2Pos.id by (apply Z.pow_pos_nonneg; lia). lia.
Qed.

Lemma of_Z_finite n : 0 < n < 2 ^ 53 -> float_of_int n = Ok (of_Z n).
Proof.
  intros [H0 H]. destruct n as [|p|p]; try lia.
  unfold float_of_int. rewrite of_Z_pos by (apply digits_le_53; assumption).
  reflexivity.
Qed.

End PyFloatFacts.

(** ** Strings: stripping, digits, decimal numerals *)

Module PyStrFacts.
Import PyStr Duration.

Lemma append_cons a s t : String a s +:+ t = String a (s +:+ t).
Proof. reflexivity. Qed.

Lemma append_empty_l t : EmptyString +:+ t = t.
Proof. reflexivity. Qed.

Ltac sapp := rewrite ?append_cons, ?append_empty_l.

Lemma append_nil_r s : s +:+ EmptyString = s.
Proof. induction s; sapp; congruence. Qed.

Lemma append_assoc s t u : (s +:+ t) +:+ u = s +:+ (t +:+ u).
Proof. induction s; sapp; congruence. Qed.

Lemma last_char_snoc s c : last_char (s +:+ String c EmptyString) = Some c.
Proof.
  induction s as [|a s IH]; [reflexivity|].
  sapp. simpl. destruct (s +:+ String c EmptyString) eqn:E; [|exact IH].
  destruct s; rewrite ?append_cons, ?append_empty_l in E; discriminate.
Qed.

Lemma last_char_app s t c : last_char (s +:+ t +:+ String c EmptyString) = Some c.
Proof. rewrite <- append_assoc. apply last_char_snoc. Qed.

(** What [rstrip] returns does not end in white space. *)
Lemma rstrip_last s c : last_char (rstrip s) = Some c -> is_space c = false.
Proof.
  induction s as [|a s IH]; simpl; [discriminate|].
  destruct (rstrip s) as [|b r] eqn:E.
  - destruct (is_space a) eqn:Ea; simpl; [discriminate|]. intros [= <-]. exact Ea.
  - intros H. apply IH. exact H.
Qed.

Lemma strip_last s c : last_char (strip s) = Some c -> is_space c = false.
Proof. apply rstrip_last. Qed.

Lemma rstrip_no_space s : no_space s = true -> rstrip s = s.
Proof.
  induction s as [|a s IH]; simpl; [reflexivity|].
  intros [Ha Hs]%andb_prop. rewrite (IH Hs).
  destruct s; [|reflexivity]. apply negb_true_iff in Ha. now rewrite Ha.
Qed.

Lemma lstrip_no_space s : no_space s = true -> lstrip s = s.
Proof.
  destruct s as [|a s]; simpl; [reflexivity|].
  intros [Ha _]%andb_prop. apply negb_true_iff in Ha. now rewrite Ha.
Qed.

Lemma strip_no_space s : no_space s = true -> strip s = s.
Proof.
  intros H. unfold strip. rewrite (lstrip_no_space _ H). now apply rstrip_no_space.
Qed.

Lemma no_space_app s t : no_space s = true -> no_space t = true -> no_space (s +:+ t) = true.
Proof.
  induction s as [|a s IH]; sapp; simpl; [auto|].
  intros [Ha Hs]%andb_prop Ht. rewrite Ha. simpl. auto.
Qed.

Lemma digit_not_space c : is_digit c = true -> is_space c = false.
Proof.
  unfold is_digit, is_space. intros [H1 H2]%andb_prop.
  apply N.leb_le in H1, H2.
  repeat match goal with
         | |- context [(?a <=? ?b)%N] => destruct (N.leb_spec a b)
         | |- context [(?a =? ?b)%N] => destruct (N.eqb_spec a b)
         end; simpl; try reflexivity; lia.
Qed.

Lemma all_digits_no_space d : all_digits d = true -> no_space d = true.
Proof.
  induction d as [|a d IH]; simpl; [auto|].
  intros [Ha Hd]%andb_prop. rewrite (digit_not_space _ Ha). simpl. auto.
Qed.

Lemma unit_text_no_space u : no_space (unit_text u) = true.
Proof. destruct u; reflexivity. Qed.

(** *** The scan of the digits *)

Lemma span_digits_app d r :
  all_digits d = true -> starts_with_digit r = false ->
  span_digits (d +:+ r) = (d, r).
Proof.
  intros Hd Hr. induction d as [|a d IH]; sapp; simpl in *.
  - destruct r as [|c r]; [reflexivity|]. simpl in *. now rewrite Hr.
  - apply andb_prop in Hd as [Ha Hd]. rewrite Ha, (IH Hd). reflexivity.
Qed.

Lemma span_digits_spec s d r :
  span_digits s = (d, r) ->
  s = d +:+ r /\ all_digits d = true /\ starts_with_digit r = false.
Proof.
  revert d r. induction s as [|a s IH]; simpl; intros d r.
  - intros [= <- <-]. auto.
  - destruct (is_digit a) eqn:Ea.
    + destruct (span_digits s) as [d' r'] eqn:E. intros [= <- <-].
      destruct (IH _ _ eq_refl) as (-> & Hd & Hr). sapp. simpl. rewrite Ea. auto.
    + intros [= <- <-]. sapp. simpl. auto.
Qed.

Lemma unit_text_no_digit u : starts_with_digit (unit_text u) = false.
Proof. destruct u; reflexivity. Qed.

Lemma match_unit_at_end_text u : match_unit_at_end (unit_text u) = Some u.
Proof. destruct u; reflexivity. Qed.

Lemma match_unit_at_end_spec r u :
  match_unit_at_end r = Some u ->
  r = unit_text u \/ r = unit_text u +:+ NL.
Proof.
  unfold match_unit_at_end.
  repeat match goal with
         | |- context [String.eqb r ?t] => destruct (String.eqb_spec r t)
         end; simpl; intros [= <-]; subst; auto.
Qed.

(** *** Decimal numerals *)

Lemma int_of_digits_acc_pos d : forall acc : positive,
  int_of_digits_acc (Z.pos acc) (NilEmpty.string_of_uint d)
  = Z.pos (Pos.of_uint_acc d acc).
Proof.
  induction d; intros acc; cbn [NilEmpty.string_of_uint int_of_digits_acc Pos.of_uint_acc];
    [reflexivity | rewrite <- IHd; f_equal; unfold digit_value, code; simpl; lia ..].
Qed.

Lemma int_of_digits_acc_zero d :
  int_of_digits_acc 0 (NilEmpty.string_of_uint d) = Z.of_N (Pos.of_uint d).
Proof.
  induction d; cbn [NilEmpty.string_of_uint int_of_digits_acc Pos.of_uint];
    [reflexivity | exact IHd | cbn [Z.of_N]; rewrite <- int_of_digits_acc_pos; reflexivity ..].
Qed.

Lemma all_digits_uint d : all_digits (NilEmpty.string_of_uint d) = true.
Proof. induction d; simpl; auto. Qed.

(** [int(str(n)) = n] for a natural number [n]. *)
Lemma int_of_digits_str_of_int n : 0 <= n -> int_of_digits (str_of_int n) = n.
Proof.
  intros Hn. destruct n as [|p|p]; [reflexivity| |lia].
  unfold int_of_digits, str_of_int. cbn [Z.to_int NilZero.string_of_int].
  unfold NilZero.string_of_uint.
  destruct (Pos.to_uint p) eqn:E;
    [now apply DecimalPos.Unsigned.to_uint_nonnil in E | rewrite <- E ..];
    rewrite int_of_digits_acc_zero, DecimalPos.Unsigned.of_to; reflexivity.
Qed.

Lemma str_of_int_digits n :
  0 <= n -> all_digits (str_of_int n) = true /\ str_of_int n <> EmptyString.
Proof.
  intros Hn. destruct n as [|p|p]; [split; [reflexivity|discriminate]| |lia].
  unfold str_of_int. cbn [Z.to_int NilZero.string_of_int].
  unfold NilZero.string_of_uint.
  destruct (Pos.to_uint p) eqn:E;
    [now apply DecimalPos.Unsigned.to_uint_nonnil in E | rewrite <- E ..];
    (split; [apply all_digits_uint|]);
    rewrite E; discriminate.
Qed.

End PyStrFacts.

(** ** The duration parser *)

Module DurationFacts.
Import PyFloat PyStr PyObj Duration PyStrFacts PyFloatFacts.

Lemma truthy_str s : s <> EmptyString -> truthy (PStr s) = true.
Proof. destruct s; [congruence|reflexivity]. Qed.

Lemma re_match_shape s d u :
  integer_unit s d u -> re_match_duration s = Some (d, u).
Proof.
  intros (-> & Hne & Hd). unfold re_match_duration.
  rewrite span_digits_app by auto using unit_text_no_digit.
  destruct d; [congruence|]. now rewrite match_unit_at_end_text.
Qed.

Lemma re_match_strip_shape s d u :
  re_match_duration (strip s) = Some (d, u) -> integer_unit (strip s) d u.
Proof.
  unfold re_match_duration. destruct (span_digits (strip s)) as [d' r] eqn:Es.
  apply span_digits_spec in Es as (Hs & Hd & _).
  destruct d' as [|c d']; [discriminate|].
  destruct (match_unit_at_end r) as [u'|] eqn:Eu; [|discriminate].
  intros [= <- <-]. apply match_unit_at_end_spec in Eu as [-> | ->].
  - repeat split; [exact Hs | discriminate | exact Hd].
  - exfalso. unfold NL in Hs.
    pose proof (strip_last s (ascii_of_N 10)) as Hl.
    rewrite Hs, last_char_app in Hl. specialize (Hl eq_refl). discriminate.
Qed.

(** The parse of a string, by the shape of what [strip] leaves. *)
Lemma parse_duration_shaped s d u :
  s <> EmptyString -> integer_unit (strip s) d u ->
  _parse_duration (PStr s)
  = (let* v := float_of_int (int_of_digits d) in Ok (mul v (multipliers u))).
Proof.
  intros Hs H. unfold _parse_duration. rewrite truthy_str by assumption.
  cbn [negb]. now rewrite (re_match_shape _ _ _ H).
Qed.

Lemma parse_duration_unshaped s :
  s <> EmptyString -> (forall d u, ~ integer_unit (strip s) d u) ->
  _parse_duration (PStr s) = Raise InvalidFormat.
Proof.
  intros Hs H. unfold _parse_duration. rewrite truthy_str by assumption.
  cbn [negb]. destruct (re_match_duration (strip s)) as [[d u]|] eqn:E; [|reflexivity].
  apply re_match_strip_shape in E. now apply H in E.
Qed.

Lemma parse_duration_ok_shape s f :
  _parse_duration (PStr s) = Ok f ->
  s = EmptyString \/ exists d u, integer_unit (strip s) d u.
Proof.
  destruct s as [|c s]; [auto|]. intros H. right.
  unfold _parse_duration in H. cbn [truthy String.eqb negb] in H.
  destruct (re_match_duration (strip (String c s))) as [[d u]|] eqn:E; [|discriminate].
  exists d, u. now apply re_match_strip_shape.
Qed.

(** C5 (as amended). The parse of an absent or empty argument is 1.0.
    For any other string the white space around it is removed first: when
    what remains has the shape <integer><unit>, the parse is the integer
    times the multiplier of the unit (and [OverflowError] when the
    integer has no finite float), and when it has not, the parse fails
    with InvalidFormat. A parse succeeds in these cases only. So
    "1s" gives 1.0, "250ms" gives 0.25, "2h" gives 7200.0, while "1.5s",
    "-1s", "1m30s" and "12" fail. *)
Theorem parse_duration_by_shape (s : string) :
  _parse_duration PNone = Ok (of_Z 1)
  /\ _parse_duration (PStr EmptyString) = Ok (of_Z 1)
  /\ (forall d u, s <> EmptyString -> integer_unit (strip s) d u ->
       _parse_duration (PStr s)
       = (let* v := float_of_int (int_of_digits d) in
          Ok (mul v (multipliers u))))
  /\ (s <> EmptyString -> (forall d u, ~ integer_unit (strip s) d u) ->
       _parse_duration (PStr s) = Raise InvalidFormat)
  /\ (forall f, _parse_duration (PStr s) = Ok f ->
       s = EmptyString \/ exists d u, integer_unit (strip s) d u)
  /\ _parse_duration (PStr "1s") = Ok (of_Z 1)
  /\ _parse_duration (PStr "250ms") = Ok (literal 1 4)
  /\ _parse_duration (PStr "2h") = Ok (of_Z 7200)
  /\ _parse_duration (PStr "1.5s") = Raise InvalidFormat
  /\ _parse_duration (PStr "-1s") = Raise InvalidFormat
  /\ _parse_duration (PStr "1m30s") = Raise InvalidFormat
  /\ _parse_duration (PStr "12") = Raise InvalidFormat.
Proof.
  split; [reflexivity|]. split; [reflexivity|].
  split; [intros d u; apply parse_duration_shaped|].
  split; [apply parse_duration_unshaped|].
  split; [apply parse_duration_ok_shape|].
  repeat split; vm_compute; reflexivity.
Qed.

Lemma parse_duration_by_shape_witness :
  "250ms" <> EmptyString
  /\ integer_unit (strip "250ms") "250" UnitMs
  /\ _parse_duration (PStr "250ms")
     = (let* v := float_of_int (int_of_digits "250") in
        Ok (mul v (multipliers UnitMs))).
Proof.
  assert (H1 : "250ms" <> EmptyString) by discriminate.
  assert (H2 : integer_unit (strip "250ms") "250" UnitMs)
    by (repeat split; discriminate).
  split; [exact H1|]. split; [exact H2|].
  exact (proj1 (proj2 (proj2 (parse_duration_by_shape "250ms")))
           "250" UnitMs H1 H2).
Defined.

(** C5 as stated fails: a string with white space around the number
    has not the shape <integer><unit>, and it parses. *)
Lemma parse_duration_accepts_padding :
  (forall d u, ~ integer_unit " 1s" d u)
  /\ _parse_duration (PStr " 1s") = Ok (of_Z 1).
Proof.
  split; [|vm_compute; reflexivity].
  intros d u (H & Hne & Hd). destruct d as [|c d]; [congruence|].
  rewrite PyStrFacts.append_cons in H. injection H as <- _. discriminate.
Qed.

(** *** Formatting and parsing back *)

Lemma parse_formatted n u :
  0 <= n ->
  _parse_duration (PStr (str_of_int n +:+ unit_text u))
  = (let* v := float_of_int n in Ok (mul v (multipliers u))).
Proof.
  intros Hn. destruct (str_of_int_digits n Hn) as [Hd Hne].
  assert (Hs : no_space (str_of_int n +:+ unit_text u) = true)
    by auto using no_space_app, all_digits_no_space, unit_text_no_space.
  rewrite (parse_duration_shaped _ (str_of_int n) u).
  - now rewrite int_of_digits_str_of_int.
  - destruct (str_of_int n); [congruence|discriminate].
  - rewrite strip_no_space by assumption. repeat split; assumption.
Qed.

Lemma within_step a x k :
  0 <= x - a < k ->
  (Qabs (inject_Z a - inject_Z x) < inject_Z k)%Q.
Proof.
  intros H. apply Qabs_Qlt_condition.
  unfold Qlt, Qminus, Qplus, Qopp, inject_Z; cbn [Qnum Qden]. lia.
Qed.

Lemma float_times_unit n k :
  0 < n -> 0 < k -> n * k < 2 ^ 53 ->
  exists f, (let* v := float_of_int n in Ok (mul v (of_Z k))) = Ok f
            /\ (to_Q f == inject_Z (n * k))%Q.
Proof.
  intros Hn Hk H. exists (of_Z (n * k)).
  rewrite of_Z_finite by nia. cbn [bind].
  rewrite of_Z_exact_mul by assumption.
  split; [reflexivity|]. apply to_Q_of_Z. nia.
Qed.

Lemma format_int x :
  _format_duration (NumInt x)
  = Ok (str_of_int (magnitude x) +:+ unit_text (chosen_unit x)).
Proof.
  unfold _format_duration, magnitude, chosen_unit.
  destruct (Z.ltb x 1); [reflexivity|].
  destruct (Z.ltb x 60); [reflexivity|].
  destruct (Z.ltb x 3600); reflexivity.
Qed.

Lemma round_trip x :
  0 <= x < 2 ^ 53 ->
  exists f,
    _parse_duration
      (PStr (str_of_int (magnitude x) +:+ unit_text (chosen_unit x))) = Ok f
    /\ (Qabs (to_Q f - inject_Z x) < unit_step (chosen_unit x))%Q.
Proof.
  intros [H0 H]. unfold magnitude, chosen_unit.
  destruct (Z.ltb_spec x 1) as [H1|H1].
  - assert (x = 0) as -> by lia. eexists. split; [vm_compute; reflexivity|].
    vm_compute. reflexivity.
  - destruct (Z.ltb_spec x 60) as [H2|H2]; [|destruct (Z.ltb_spec x 3600) as [H3|H3]].
    + rewrite parse_formatted by lia. cbn [multipliers unit_step].
      destruct (float_times_unit x 1) as (f & -> & Hf); [lia..|].
      exists f. split; [reflexivity|]. rewrite Hf. apply (within_step _ _ 1). lia.
    + assert (Hq : 1 <= x / 60) by (apply Z.div_le_lower_bound; lia).
      pose proof (Z.mul_div_le x 60 ltac:(lia)) as Hle.
      pose proof (Z.mod_pos_bound x 60 ltac:(lia)) as Hm.
      pose proof (Z.div_mod x 60 ltac:(lia)) as Hdm.
      rewrite parse_formatted by lia. cbn [multipliers unit_step].
      destruct (float_times_unit (x / 60) 60) as (f & -> & Hf); [lia..|].
      exists f. split; [reflexivity|]. rewrite Hf. apply (within_step _ _ 60). lia.
    + assert (Hq : 1 <= x / 3600) by (apply Z.div_le_lower_bound; lia).
      pose proof (Z.mul_div_le x 3600 ltac:(lia)) as Hle.
      pose proof (Z.mod_pos_bound x 3600 ltac:(lia)) as Hm.
      pose proof (Z.div_mod x 3600 ltac:(lia)) as Hdm.
      rewrite parse_formatted by lia. cbn [multipliers unit_step].
      destruct (float_times_unit (x / 3600) 3600) as (f & -> & Hf); [lia..|].
      exists f. split; [reflexivity|]. rewrite Hf. apply (within_step _ _ 3600). lia.
Qed.

(** C6 (as amended). A whole number of seconds is printed in
    milliseconds below 1, in seconds below 60, in minutes below 3600 and
    in hours from there on, the number of minutes or hours being the
    quotient of the floor division; a float is cut to its integer part,
    not rounded (59.9 gives "59s", 119.9 gives "1m", 7199.5 gives "1h",
    0.25 gives "250ms"). For a whole number [x] of seconds with
    [0 <= x < 2^53], the text parses, and to a value less than one step of
    the chosen unit away from [x]. *)
Theorem format_then_parse_within_step (x : Z) :
  _format_duration (NumInt x)
  = Ok (str_of_int (magnitude x) +:+ unit_text (chosen_unit x))
  /\ (0 <= x < 2 ^ 53 ->
      exists f,
        _parse_duration
          (PStr (str_of_int (magnitude x) +:+ unit_text (chosen_unit x)))
        = Ok f
        /\ (Qabs (to_Q f - inject_Z x) < unit_step (chosen_unit x))%Q)
  /\ _format_duration (NumInt 119) = Ok "1m"
  /\ _format_duration (NumInt 7199) = Ok "1h"
  /\ _format_duration (NumFloat (literal 599 10)) = Ok "59s"
  /\ _format_duration (NumFloat (literal 1199 10)) = Ok "1m"
  /\ _format_duration (NumFloat (literal 14399 2)) = Ok "1h"
  /\ _format_duration (NumFloat (literal 1 4)) = Ok "250ms".
Proof.
  split; [apply format_int|]. split; [apply round_trip|].
  repeat split; vm_compute; reflexivity.
Qed.

Lemma format_then_parse_within_step_witness :
  0 <= 7199 < 2 ^ 53
  /\ exists f,
       _parse_duration
         (PStr (str_of_int (magnitude 7199) +:+ unit_text (chosen_unit 7199)))
       = Ok f
       /\ (Qabs (to_Q f - inject_Z 7199) < unit_step (chosen_unit 7199))%Q.
Proof.
  assert (H : 0 <= 7199 < 2 ^ 53) by lia.
  split; [exact H|].
  exact (proj1 (proj2 (format_then_parse_within_step 7199)) H).
Defined.

(** C6 as stated fails for large whole numbers of seconds: the product
    of the hours and 3600.0 is rounded to 53 bits, and here it lands
    3615 seconds below the input. *)
Lemma format_then_parse_off_by_more_than_a_step :
  0 <= 144115188075871199
  /\ _format_duration (NumInt 144115188075871199) = Ok "40031996687741h"
  /\ _parse_duration (PStr "40031996687741h")
     = Ok (of_Z 144115188075867584)
  /\ (to_Q (of_Z 144115188075867584) - inject_Z 144115188075871199
      == - inject_Z 3615)%Q
  /\ ~ (Qabs (to_Q (of_Z 144115188075867584)
               - inject_Z 144115188075871199)
        < unit_step (chosen_unit 144115188075871199))%Q.
Proof.
  split; [lia|].
  split; [vm_compute; reflexivity|].
  split; [vm_compute; reflexivity|].
  split; [vm_compute; reflexivity|].
  vm_compute. intros H. discriminate H.
Qed.

End DurationFacts.

(** ** The checksum-guarded file store *)

Module YamlEditorFacts.
Import PyObj PyStr FS YamlEditor PyStrFacts.

Ltac run :=
  unfold bindM, try_except, ret, raise, lift, path_exists.

Lemma files_record ev w : files (record ev w) = files w.
Proof. reflexivity. Qed.
Lemma files_set_files w fs : files (set_files w fs) = fs.
Proof. reflexivity. Qed.
Lemma env_record ev w : env (record ev w) = env w.
Proof. reflexivity. Qed.
Lemma env_set_files w fs : env (set_files w fs) = env w.
Proof. reflexivity. Qed.
Lemma clock_record ev w : clock (record ev w) = clock w.
Proof. reflexivity. Qed.
Lemma clock_set_files w fs : clock (set_files w fs) = clock w.
Proof. reflexivity. Qed.

(** Reduce the steps that are decided, keeping the worlds folded. *)
Ltac weval :=
  repeat (progress (cbv beta iota;
                    rewrite ?env_record, ?env_set_files, ?files_record,
                      ?files_set_files, ?clock_record, ?clock_set_files)).

(** *** Paths *)

Lemma name_snoc (d : path) nm : name (d ++ [nm]) = nm.
Proof. unfold name. apply List.last_last. Qed.

Lemma last_char_tmp t : last_char (t +:+ ".tmp") = Some "p"%char.
Proof. apply (last_char_app t ".tm" "p"%char). Qed.

Lemma last_char_yml t : last_char (t +:+ ".yml") = Some "l"%char.
Proof. apply (last_char_app t ".ym" "l"%char). Qed.

(** The temporary file is never the file it will replace. *)
Lemma with_suffix_tmp_neq (d : path) nm :
  last_char nm = Some "l"%char -> with_suffix (d ++ [nm]) ".tmp" <> d ++ [nm].
Proof.
  intros Hl. unfold with_suffix. rewrite name_snoc, List.removelast_last.
  intros H. apply app_inv_head in H. injection H as H.
  rewrite <- H, last_char_tmp in Hl. discriminate.
Qed.

Section Store.
Variable cfg : settings.

Lemma main_temp_neq :
  with_suffix (main_config_path cfg) ".tmp" <> main_config_path cfg.
Proof. apply with_suffix_tmp_neq. reflexivity. Qed.

Lemma module_temp_neq m :
  with_suffix (module_config_path cfg m) ".tmp" <> module_config_path cfg m.
Proof.
  unfold module_config_path.
  change (CONF_D_DIR cfg ++ [m; "conf.yml"])
    with (CONF_D_DIR cfg ++ [m] ++ ["conf.yml"]).
  rewrite app_assoc. apply with_suffix_tmp_neq. reflexivity.
Qed.

Lemma submodule_temp_neq m sub :
  with_suffix (submodule_config_path cfg m sub) ".tmp"
  <> submodule_config_path cfg m sub.
Proof.
  unfold submodule_config_path.
  change (CONF_D_DIR cfg ++ [m; sub +:+ ".yml"])
    with (CONF_D_DIR cfg ++ [m] ++ [sub +:+ ".yml"]).
  rewrite app_assoc. apply with_suffix_tmp_neq. apply last_char_yml.
Qed.

(** *** The steps of a write *)

Lemma checksum_of_file p b (w : world) :
  files w !! p = Some b ->
  _calculate_checksum cfg p w = (Ok (md5_hexdigest cfg b), record (EvRead p) w).
Proof. intros H. unfold _calculate_checksum, read_file. run. now rewrite H. Qed.

Lemma backup_of_file p b (w : world) :
  files w !! p = Some b -> copy_fails (env w) = false ->
  _create_backup cfg p w
  = (Ok (backup_of cfg p w),
     record (EvCopy p (backup_of cfg p w))
       (set_files w (<[backup_of cfg p w := b]> (files w)))).
Proof.
  intros H Hc. unfold _create_backup, copy2, backup_of. run.
  now rewrite Hc, H.
Qed.

(** A stale checksum: the write raises after having read the file to
    hash it, and that is all it does. *)
Lemma write_stale p data original_checksum b (w : world) :
  files w !! p = Some b ->
  md5_hexdigest cfg b <> original_checksum ->
  write_config_at cfg p data original_checksum w
  = (Raise ConcurrentModification, record (EvRead p) w).
Proof.
  intros H Hne. unfold write_config_at. run.
  rewrite (checksum_of_file _ _ _ H).
  apply String.eqb_neq in Hne. now rewrite Hne.
Qed.

(** A failure while the temporary file is opened, written or renamed:
    the write raises, the file is as before and no temporary file is
    left. *)
Lemma write_failure p data original_checksum b (w : world) :
  files w !! p = Some b ->
  md5_hexdigest cfg b = original_checksum ->
  copy_fails (env w) = false ->
  with_suffix p ".tmp" <> p ->
  open_write_fails (env w) = true
  \/ dump_fails (env w) <> None
  \/ replace_fails (env w) = true ->
  exists e w',
    write_config_at cfg p data original_checksum w = (Raise e, w')
    /\ files w' !! p = Some b
    /\ files w' !! with_suffix p ".tmp" = None.
Proof.
  intros H Hcs Hcopy Hneq Hfault.
  apply String.eqb_eq in Hcs.
  set (bp := backup_of cfg p (record (EvRead p) w)).
  set (tp := with_suffix p ".tmp") in *.
  assert (Hp1 : <[bp := b]> (files w) !! p = Some b).
  { destruct (decide (bp = p)) as [->|Hn];
      [apply lookup_insert_eq | now rewrite lookup_insert_ne]. }
  unfold write_config_at. run.
  rewrite (checksum_of_file _ _ _ H). rewrite Hcs. cbn [negb]. cbv beta iota.
  rewrite (backup_of_file p b (record (EvRead p) w) H Hcopy). fold bp tp.
  unfold open_write, write_dump, replace, unlink, exists_, is_file.
  destruct (open_write_fails (env w)) eqn:Eo;
    [|destruct (dump_fails (env w)) as [part|] eqn:Ed;
      [|destruct (replace_fails (env w)) eqn:Er;
        [|destruct Hfault as [? | [? | ?]]; congruence]]].
  - (* open(temp_path, 'w') raises *)
    destruct (<[bp := b]> (files w) !! tp) as [old|] eqn:Et;
      [|destruct (is_dir (<[bp := b]> (files w)) tp) eqn:Edir];
      do 2 eexists;
      (split; [weval; rewrite ?Eo; weval; rewrite ?Et, ?Edir; cbn [orb];
               weval; rewrite ?Et; reflexivity|]);
      weval; auto.
    split; [now rewrite lookup_delete_ne | apply lookup_delete_eq].
  - (* yaml.dump raises *)
    do 2 eexists.
    split; [weval; rewrite ?Eo; weval; rewrite ?Ed; weval;
            rewrite ?lookup_insert_eq; cbn [orb]; weval;
            rewrite ?lookup_insert_eq; reflexivity|].
    weval. split.
    + rewrite lookup_delete_ne, !lookup_insert_ne by assumption. exact Hp1.
    + apply lookup_delete_eq.
  - (* the rename raises *)
    do 2 eexists.
    split; [weval; rewrite ?Eo; weval; rewrite ?Ed; weval; rewrite ?Er; weval;
            rewrite ?lookup_insert_eq; cbn [orb]; weval;
            rewrite ?lookup_insert_eq; reflexivity|].
    weval. split.
    + rewrite lookup_delete_ne, !lookup_insert_ne by assumption. exact Hp1.
    + apply lookup_delete_eq.
Qed.

End Store.

(** *** What a function can raise *)

Lemma raises_only_ret {A} P (a : A) : raises_only P (ret a).
Proof. intros w e w'. unfold ret. discriminate. Qed.

Lemma raises_only_raise {A} (P : exn -> Prop) e : P e -> raises_only P (@raise A e).
Proof. intros H w e' w'. unfold raise. now intros [= <- _]. Qed.

Lemma raises_only_lift {A} (P : exn -> Prop) (r : result A) :
  (forall e, r = Raise e -> P e) -> raises_only P (lift r).
Proof. intros H w e w'. unfold lift. intros [= -> _]. now apply H. Qed.

Lemma raises_only_bind {A B} P (m : M A) (k : A -> M B) :
  raises_only P m -> (forall a, raises_only P (k a)) ->
  raises_only P (bindM m k).
Proof.
  intros Hm Hk w e w'. unfold bindM.
  destruct (m w) as [[a|e0] w0] eqn:E.
  - apply Hk.
  - intros [= <- _]. eapply Hm, E.
Qed.

Lemma raises_only_try {A} P (m : M A) (h : exn -> M A) :
  raises_only P m -> (forall e, P e -> raises_only P (h e)) ->
  raises_only P (try_except m h).
Proof.
  intros Hm Hh w e w'. unfold try_except.
  destruct (m w) as [[a|e0] w0] eqn:E; [discriminate|].
  apply Hh. eapply Hm, E.
Qed.

Lemma read_file_raises p : raises_only not_out_of_range (read_file p).
Proof.
  intros w e w'. unfold read_file. destruct (files w !! p); [discriminate|].
  intros [= <- _]. now destruct (is_dir (files w) p).
Qed.

Lemma copy2_raises p q : raises_only not_out_of_range (copy2 p q).
Proof.
  intros w e w'. unfold copy2. destruct (copy_fails (env w)); [now intros [= <- _]|].
  destruct (files w !! p); [discriminate|]. now intros [= <- _].
Qed.

Lemma open_write_raises p : raises_only not_out_of_range (open_write p).
Proof.
  intros w e w'. unfold open_write.
  destruct (open_write_fails (env w)); [now intros [= <- _]|discriminate].
Qed.

Lemma write_dump_raises p t : raises_only not_out_of_range (write_dump p t).
Proof.
  intros w e w'. unfold write_dump.
  destruct (dump_fails (env w)); [now intros [= <- _]|discriminate].
Qed.

Lemma replace_raises p q : raises_only not_out_of_range (replace p q).
Proof.
  intros w e w'. unfold replace. destruct (replace_fails (env w)); [now intros [= <- _]|].
  destruct (files w !! p); [discriminate|]. now intros [= <- _].
Qed.

Lemma unlink_raises p : raises_only not_out_of_range (unlink p).
Proof.
  intros w e w'. unfold unlink. destruct (files w !! p); [discriminate|].
  now intros [= <- _].
Qed.

Lemma path_exists_raises p : raises_only not_out_of_range (path_exists p).
Proof. intros w e w'. unfold path_exists. discriminate. Qed.

Lemma bind_raises {A B} (P : exn -> Prop) (r : result A) (k : A -> result B) :
  (forall e, r = Raise e -> P e) ->
  (forall a e, k a = Raise e -> P e) ->
  forall e, bind r k = Raise e -> P e.
Proof. intros Hr Hk e. destruct r as [a|e0]; simpl; [apply Hk|]. intros [= <-]. now apply Hr. Qed.

Lemma contains_raises v k e : contains v k = Raise e -> not_out_of_range e.
Proof. destruct v; simpl; try discriminate; now intros [= <-]. Qed.

Lemma getitem_raises v k e : getitem v k = Raise e -> not_out_of_range e.
Proof.
  destruct v; simpl; try (now intros [= <-]).
  destruct (assoc_get d k); [discriminate|now intros [= <-]].
Qed.

Lemma setitem_raises v k x e : setitem v k x = Raise e -> not_out_of_range e.
Proof. destruct v; simpl; try discriminate; now intros [= <-]. Qed.

Lemma set_num_uniq_key_raises data v e :
  set_num_uniq_key data v = Raise e -> not_out_of_range e.
Proof.
  unfold set_num_uniq_key.
  apply bind_raises; [apply contains_raises|]. intros has.
  apply bind_raises; [destruct has; cbn [negb]; [discriminate|apply setitem_raises]|].
  intros data'. apply bind_raises; [apply getitem_raises|]. intros section.
  apply bind_raises; [apply setitem_raises|]. intros section'.
  apply setitem_raises.
Qed.

Section Bounds.
Variable cfg : settings.

Create HintDb raises.
Local Hint Resolve raises_only_ret raises_only_bind raises_only_try
  read_file_raises copy2_raises open_write_raises write_dump_raises
  replace_raises unlink_raises path_exists_raises : raises.

Lemma checksum_raises p :
  raises_only not_out_of_range (_calculate_checksum cfg p).
Proof. unfold _calculate_checksum. auto with raises. Qed.

Lemma read_config_raises p :
  raises_only not_out_of_range (read_config_at cfg p).
Proof.
  unfold read_config_at. apply raises_only_bind; [auto with raises|].
  intros present. destruct present; cbn [negb].
  - apply raises_only_bind; [auto with raises|]. intros content.
    destruct (yaml_load cfg content).
    + apply raises_only_bind; [apply checksum_raises|]. auto with raises.
    + now apply raises_only_raise.
  - now apply raises_only_raise.
Qed.

Lemma write_config_raises p data original_checksum :
  raises_only not_out_of_range (write_config_at cfg p data original_checksum).
Proof.
  unfold write_config_at. apply raises_only_bind; [apply checksum_raises|].
  intros cur. destruct (negb (cur =? original_checksum)%string).
  - now apply raises_only_raise.
  - apply raises_only_bind.
    + unfold _create_backup. intros w e w'.
      apply (raises_only_bind not_out_of_range
               (copy2 p (backup_of cfg p w)) (fun _ => ret (backup_of cfg p w)));
        auto with raises.
    + intros bp. apply raises_only_try.
      * repeat (apply raises_only_bind; [auto using checksum_raises with raises|intros ?]).
        auto with raises.
      * intros e He. apply raises_only_bind; [auto with raises|]. intros present.
        apply raises_only_bind; [destruct present; auto with raises|].
        intros _. now apply raises_only_raise.
Qed.

Lemma update_at_raises p v original_checksum :
  raises_only not_out_of_range (update_at cfg p v original_checksum).
Proof.
  unfold update_at. apply raises_only_bind; [apply read_config_raises|].
  intros [data cur]. destruct (negb (cur =? original_checksum)%string).
  - now apply raises_only_raise.
  - apply raises_only_bind.
    + apply raises_only_lift. apply set_num_uniq_key_raises.
    + intros data'. apply write_config_raises.
Qed.

Lemma update_module_unfold m v original_checksum :
  update_module_uniquekey cfg m v original_checksum
  = if key_out_of_bounds cfg v then raise (ValueError NumUniqKeyBounds)
    else update_at cfg (module_config_path cfg m) v original_checksum.
Proof. reflexivity. Qed.

Lemma update_submodule_unfold m sub v original_checksum :
  update_submodule_uniquekey cfg m sub v original_checksum
  = if key_out_of_bounds cfg v then raise (ValueError NumUniqKeyBounds)
    else update_at cfg (submodule_config_path cfg m sub) v original_checksum.
Proof. reflexivity. Qed.

Lemma key_out_of_bounds_spec v :
  key_out_of_bounds cfg v = true
  <-> ~ exists z, as_int v = Some z /\ 1 <= z <= MAX_UNIQUE_KEY cfg.
Proof.
  unfold key_out_of_bounds. destruct (as_int v) as [z|].
  - rewrite orb_true_iff, !Z.ltb_lt. split.
    + intros H (z' & [= <-] & Hz). lia.
    + intros H. destruct (Z.lt_ge_cases z 1); [auto|].
      destruct (Z.lt_ge_cases (MAX_UNIQUE_KEY cfg) z); [auto|].
      exfalso. apply H. exists z. split; [reflexivity|lia].
  - split; [|reflexivity]. intros _ (z & [=] & _).
Qed.

(** *** A key within the bounds is written *)

Lemma assoc_get_set_eq d k x : assoc_get (assoc_set d k x) k = Some x.
Proof.
  induction d as [|[k' v'] d IH]; simpl.
  - now rewrite String.eqb_refl.
  - destruct (String.eqb k' k) eqn:E; simpl; rewrite E; auto.
Qed.

Lemma set_num_uniq_key_ok d v :
  assoc_get d "uniquekey" = None
  \/ (exists u, assoc_get d "uniquekey" = Some (PDict u)) ->
  exists data',
    set_num_uniq_key (PDict d) v = Ok data'
    /\ (let* section := getitem data' "uniquekey" in
        getitem section "NumUniqKey") = Ok v.
Proof.
  intros [H | [u H]]; unfold set_num_uniq_key; cbn [contains bind]; rewrite H;
    cbn [negb setitem getitem bind]; rewrite ?assoc_get_set_eq, ?H;
    cbn [setitem bind]; eexists; (split; [reflexivity|]);
    cbn [getitem]; rewrite assoc_get_set_eq; cbn [bind getitem];
    rewrite ?assoc_get_set_eq; reflexivity.
Qed.

Lemma update_at_ok p v original_checksum b data data' (w : world) :
  files w !! p = Some b ->
  yaml_load cfg b = Some data ->
  set_num_uniq_key data v = Ok data' ->
  md5_hexdigest cfg b = original_checksum ->
  env w = no_faults ->
  exists r w',
    update_at cfg p v original_checksum w = (Ok r, w')
    /\ success r = true
    /\ new_checksum r = md5_hexdigest cfg (yaml_dump cfg data')
    /\ files w' !! p = Some (yaml_dump cfg data').
Proof.
  intros H Hload Hset Hcs Henv.
  apply String.eqb_eq in Hcs.
  assert (Ec : copy_fails (env w) = false) by now rewrite Henv.
  assert (Eo : open_write_fails (env w) = false) by now rewrite Henv.
  assert (Ed : dump_fails (env w) = None) by now rewrite Henv.
  assert (Er : replace_fails (env w) = false) by now rewrite Henv.
  do 2 eexists. split.
  - unfold update_at, read_config_at. run.
    unfold exists_, is_file. rewrite H. cbn [orb negb]. weval.
    unfold read_file at 1. rewrite H. weval. rewrite Hload. weval.
    rewrite (checksum_of_file cfg p b) by (weval; exact H). weval.
    rewrite Hcs. cbn [negb]. weval. rewrite Hset. weval.
    unfold write_config_at. run.
    rewrite (checksum_of_file cfg p b) by (weval; exact H). weval.
    rewrite Hcs. cbn [negb]. weval.
    rewrite (backup_of_file cfg p b) by (weval; assumption). weval.
    unfold open_write, write_dump, replace. weval. rewrite Eo. weval.
    rewrite Ed. weval. rewrite Er. weval. rewrite lookup_insert_eq. weval.
    rewrite (checksum_of_file cfg p (yaml_dump cfg data'))
      by (weval; apply lookup_insert_eq).
    weval. reflexivity.
  - cbn [success new_checksum]. split; [reflexivity|]. split; [reflexivity|].
    weval. apply lookup_insert_eq.
Qed.

End Bounds.

(** C1. A write with a stale checksum, through any of the three write
    functions, fails with ConcurrentModification; the world after it is
    the world before it with one more read of the file in the log, so no
    backup and no temporary file were made and the file has the bytes
    it had. And when opening, writing or renaming the temporary file
    fails, the write raises, the file has the bytes it had and the
    temporary file is gone. *)
Theorem stale_or_failed_write_keeps_file (cfg : settings)
    (module_name submodule_name : string) (data : pyobj)
    (original_checksum : string) (w : world) :
  (forall b, files w !! main_config_path cfg = Some b ->
     md5_hexdigest cfg b <> original_checksum ->
     write_main_config cfg data original_checksum w
     = (Raise ConcurrentModification,
        record (EvRead (main_config_path cfg)) w))
  /\ (forall b, files w !! module_config_path cfg module_name = Some b ->
     md5_hexdigest cfg b <> original_checksum ->
     write_module_config cfg module_name data original_checksum w
     = (Raise ConcurrentModification,
        record (EvRead (module_config_path cfg module_name)) w))
  /\ (forall b,
     files w !! submodule_config_path cfg module_name submodule_name = Some b ->
     md5_hexdigest cfg b <> original_checksum ->
     write_submodule_config cfg module_name submodule_name data
       original_checksum w
     = (Raise ConcurrentModification,
        record (EvRead (submodule_config_path cfg module_name submodule_name)) w))
  /\ (forall p b,
     p = main_config_path cfg \/ p = module_config_path cfg module_name
     \/ p = submodule_config_path cfg module_name submodule_name ->
     files w !! p = Some b ->
     md5_hexdigest cfg b = original_checksum ->
     copy_fails (env w) = false ->
     open_write_fails (env w) = true \/ dump_fails (env w) <> None
     \/ replace_fails (env w) = true ->
     exists e w',
       write_config_at cfg p data original_checksum w = (Raise e, w')
       /\ files w' !! p = Some b
       /\ files w' !! with_suffix p ".tmp" = None).
Proof.
  split; [intros b; apply write_stale|].
  split; [intros b; apply write_stale|].
  split; [intros b; apply write_stale|].
  intros p b Hp H Hcs Hcopy Hfault.
  apply write_failure; try assumption.
  destruct Hp as [-> | [-> | ->]];
    auto using main_temp_neq, module_temp_neq, submodule_temp_neq.
Qed.

Lemma stale_or_failed_write_keeps_file_witness :
  let cfg := Examples.cfg in
  let w := Examples.apache_world "1s" in
  let b := Examples.flow_dump (Examples.module_doc 5 "1s") in
  files w !! module_config_path cfg "Apache" = Some b
  /\ md5_hexdigest cfg b <> "0000"
  /\ write_module_config cfg "Apache" (PDict []) "0000" w
     = (Raise ConcurrentModification,
        record (EvRead (module_config_path cfg "Apache")) w)
  /\ dump_fails (env Examples.torn_dump_world) <> None
  /\ exists e w',
       write_config_at cfg (module_config_path cfg "Apache") (PDict []) b
         Examples.torn_dump_world = (Raise e, w')
       /\ files w' !! module_config_path cfg "Apache" = Some b
       /\ files w' !! with_suffix (module_config_path cfg "Apache") ".tmp"
          = None.
Proof.
  intros cfg w b.
  assert (H1 : files w !! module_config_path cfg "Apache" = Some b)
    by (vm_compute; reflexivity).
  assert (H2 : md5_hexdigest cfg b <> "0000") by (vm_compute; discriminate).
  assert (H3 : dump_fails (env Examples.torn_dump_world) <> None)
    by (vm_compute; discriminate).
  split; [exact H1|]. split; [exact H2|].
  split; [exact (proj1 (proj2 (stale_or_failed_write_keeps_file cfg "Apache"
                                 "status" (PDict []) "0000" w)) b H1 H2)|].
  split; [exact H3|].
  refine (proj2 (proj2 (proj2 (stale_or_failed_write_keeps_file cfg "Apache"
                                 "status" (PDict []) b
                                 Examples.torn_dump_world)))
            (module_config_path cfg "Apache") b _ _ _ _ _).
  - right. left. reflexivity.
  - vm_compute. reflexivity.
  - reflexivity.
  - reflexivity.
  - right. left. exact H3.
Defined.

(** C7. The two mutators of the unique key reject a value exactly
    when it is not an integer from 1 to [MAX_UNIQUE_KEY]: then they raise
    OutOfRange and leave the world as it is, so nothing was read, copied
    or written; for any other value, whatever they raise is not
    OutOfRange. 0 and [MAX_UNIQUE_KEY + 1] are rejected. With
    [1 <= MAX_UNIQUE_KEY], the value [MAX_UNIQUE_KEY] passes, and on a
    file that loads to a mapping, read with the current checksum and
    written without faults, the mutator succeeds and the file holds the
    document with that key. *)
Theorem unique_key_bound_enforced (cfg : settings)
    (module_name submodule_name : string) (num_uniquekey : pyobj)
    (original_checksum : string) (w : world) :
  (key_out_of_bounds cfg num_uniquekey = true
   <-> ~ exists z, as_int num_uniquekey = Some z
                   /\ 1 <= z <= MAX_UNIQUE_KEY cfg)
  /\ (key_out_of_bounds cfg num_uniquekey = true ->
      update_module_uniquekey cfg module_name num_uniquekey
        original_checksum w = (Raise OutOfRange, w)
      /\ update_submodule_uniquekey cfg module_name submodule_name
           num_uniquekey original_checksum w = (Raise OutOfRange, w))
  /\ (key_out_of_bounds cfg num_uniquekey = false ->
      fst (update_module_uniquekey cfg module_name num_uniquekey
             original_checksum w) <> Raise OutOfRange
      /\ fst (update_submodule_uniquekey cfg module_name submodule_name
                num_uniquekey original_checksum w) <> Raise OutOfRange)
  /\ key_out_of_bounds cfg (PInt 0) = true
  /\ key_out_of_bounds cfg (PInt (MAX_UNIQUE_KEY cfg + 1)) = true
  /\ (1 <= MAX_UNIQUE_KEY cfg ->
      key_out_of_bounds cfg (PInt (MAX_UNIQUE_KEY cfg)) = false)
  /\ (1 <= MAX_UNIQUE_KEY cfg ->
      forall b d,
        files w !! module_config_path cfg module_name = Some b ->
        yaml_load cfg b = Some (PDict d) ->
        assoc_get d "uniquekey" = None
        \/ (exists u, assoc_get d "uniquekey" = Some (PDict u)) ->
        md5_hexdigest cfg b = original_checksum ->
        env w = no_faults ->
        exists r w' data',
          update_module_uniquekey cfg module_name
            (PInt (MAX_UNIQUE_KEY cfg)) original_checksum w = (Ok r, w')
          /\ success r = true
          /\ files w' !! module_config_path cfg module_name
             = Some (yaml_dump cfg data')
          /\ (let* section := getitem data' "uniquekey" in
              getitem section "NumUniqKey")
             = Ok (PInt (MAX_UNIQUE_KEY cfg)))
  /\ (1 <= MAX_UNIQUE_KEY cfg ->
      forall b d,
        files w !! submodule_config_path cfg module_name submodule_name
        = Some b ->
        yaml_load cfg b = Some (PDict d) ->
        assoc_get d "uniquekey" = None
        \/ (exists u, assoc_get d "uniquekey" = Some (PDict u)) ->
        md5_hexdigest cfg b = original_checksum ->
        env w = no_faults ->
        exists r w' data',
          update_submodule_uniquekey cfg module_name submodule_name
            (PInt (MAX_UNIQUE_KEY cfg)) original_checksum w = (Ok r, w')
          /\ success r = true
          /\ files w' !! submodule_config_path cfg module_name submodule_name
             = Some (yaml_dump cfg data')
          /\ (let* section := getitem data' "uniquekey" in
              getitem section "NumUniqKey")
             = Ok (PInt (MAX_UNIQUE_KEY cfg))).
Proof.
  assert (Hmax : 1 <= MAX_UNIQUE_KEY cfg ->
                 key_out_of_bounds cfg (PInt (MAX_UNIQUE_KEY cfg)) = false).
  { intros H. unfold key_out_of_bounds. cbn [as_int].
    apply orb_false_iff. split; apply Z.ltb_ge; lia. }
  split; [apply key_out_of_bounds_spec|].
  split.
  { intros H. rewrite update_module_unfold, update_submodule_unfold, H. auto. }
  split.
  { intros H. rewrite update_module_unfold, update_submodule_unfold, H.
    split; intros E.
    - destruct (update_at cfg (module_config_path cfg module_name)
                  num_uniquekey original_checksum w) as [r w'] eqn:Eu.
      cbn [fst] in E. subst r. now apply update_at_raises in Eu.
    - destruct (update_at cfg (submodule_config_path cfg module_name submodule_name)
                  num_uniquekey original_checksum w) as [r w'] eqn:Eu.
      cbn [fst] in E. subst r. now apply update_at_raises in Eu. }
  split; [reflexivity|].
  split.
  { unfold key_out_of_bounds. cbn [as_int]. apply orb_true_iff. right.
    apply Z.ltb_lt. lia. }
  split; [exact Hmax|].
  split; intros H1 b d Hf Hl Hd Hcs Henv;
    destruct (set_num_uniq_key_ok d (PInt (MAX_UNIQUE_KEY cfg)) Hd)
      as (data' & Hset & Hget);
    [rewrite update_module_unfold | rewrite update_submodule_unfold];
    rewrite (Hmax H1);
    destruct (update_at_ok cfg _ _ _ _ _ _ _ Hf Hl Hset Hcs Henv)
      as (r & w' & Hu & Hs & _ & Hfile);
    exists r, w', data'; auto.
Qed.

Lemma unique_key_bound_enforced_witness :
  let cfg := Examples.cfg in
  let w := Examples.apache_world "1s" in
  let b := Examples.flow_dump (Examples.module_doc 5 "1s") in
  1 <= MAX_UNIQUE_KEY cfg
  /\ key_out_of_bounds cfg (PInt (MAX_UNIQUE_KEY cfg + 1)) = true
  /\ update_module_uniquekey cfg "Apache" (PInt (MAX_UNIQUE_KEY cfg + 1)) b w
     = (Raise OutOfRange, w)
  /\ exists r w' data',
       update_module_uniquekey cfg "Apache" (PInt (MAX_UNIQUE_KEY cfg)) b w
       = (Ok r, w')
       /\ success r = true
       /\ files w' !! module_config_path cfg "Apache"
          = Some (yaml_dump cfg data')
       /\ (let* section := getitem data' "uniquekey" in
           getitem section "NumUniqKey")
          = Ok (PInt (MAX_UNIQUE_KEY cfg)).
Proof.
  intros cfg w b.
  assert (H1 : 1 <= MAX_UNIQUE_KEY cfg) by (vm_compute; discriminate).
  assert (H2 : key_out_of_bounds cfg (PInt (MAX_UNIQUE_KEY cfg + 1)) = true)
    by (vm_compute; reflexivity).
  pose proof (unique_key_bound_enforced cfg "Apache" "status"
                (PInt (MAX_UNIQUE_KEY cfg + 1)) b w) as T.
  split; [exact H1|]. split; [exact H2|].
  split; [exact (proj1 (proj1 (proj2 T) H2))|].
  refine (proj1 (proj2 (proj2 (proj2 (proj2 (proj2 (proj2 T)))))) H1 b _ _ _ _ _ _).
  - vm_compute; reflexivity.
  - vm_compute; reflexivity.
  - right. eexists. vm_compute. reflexivity.
  - reflexivity.
  - reflexivity.
Defined.

End YamlEditorFacts.

(** ** The EPS engine *)

Module EpsFacts.
Import PyFloat PyObj PyStr FS Duration YamlEditor EpsCalculator.
Import YamlEditorFacts.

Section Engine.
Variable cfg : settings.

(** *** Reads leave the files as they are *)

Lemma exists_file fs p b : fs !! p = Some b -> exists_ fs p = true.
Proof. intros H. unfold exists_, is_file. now rewrite H. Qed.

Lemma read_config_at_result p (w : world) :
  exists w',
    read_config_at cfg p w = (read_result cfg (files w) p, w')
    /\ files w' = files w.
Proof.
  unfold read_config_at, read_result, _calculate_checksum, read_file. run.
  destruct (exists_ (files w) p) eqn:Ex; cbn [negb]; [|eauto].
  destruct (files w !! p) as [content|] eqn:Ef.
  - destruct (yaml_load cfg content) as [data|]; weval; rewrite ?Ef; weval; eauto.
  - unfold exists_, is_file in Ex. rewrite Ef in Ex. cbn [orb] in Ex.
    rewrite Ex. eauto.
Qed.

Lemma read_result_document p fs :
  match read_result cfg fs p with
  | Ok (data, _) => document cfg fs p = Some data
  | Raise _ => document cfg fs p = None
  end.
Proof.
  unfold read_result, document. destruct (fs !! p) as [content|] eqn:Ef.
  - rewrite (exists_file _ _ _ Ef). cbn [negb].
    now destruct (yaml_load cfg content).
  - now destruct (negb (exists_ fs p)).
Qed.

Lemma get_module_config_result m (w : world) :
  exists w',
    get_module_config cfg m w = (Ok (module_config_of cfg (files w) m), w')
    /\ files w' = files w.
Proof.
  unfold get_module_config, module_config_of, read_module_config. run.
  destruct (read_config_at_result (module_config_path cfg m) w) as (w' & -> & Hf).
  destruct (read_result cfg (files w) (module_config_path cfg m)) as [[data cs]|e];
    [|eauto].
  destruct (parse_module_config cfg data); eauto.
Qed.

Lemma get_submodule_config_result m sub (w : world) :
  exists w',
    get_submodule_config cfg m sub w
    = (Ok (submodule_config_of cfg (files w) m sub), w')
    /\ files w' = files w.
Proof.
  unfold get_submodule_config, submodule_config_of, read_submodule_config. run.
  destruct (read_config_at_result (submodule_config_path cfg m sub) w)
    as (w' & -> & Hf).
  destruct (read_result cfg (files w) (submodule_config_path cfg m sub))
    as [[data cs]|e]; [|eauto].
  destruct (parse_submodule_config cfg data); eauto.
Qed.

(** *** The key of a file *)

(** Looking the key up with [in] and indexing, and falling back to the
    default on any exception, is looking it up in a mapping of
    mappings. *)
Lemma extract_uniquekey_num_uniq_key data :
  match extract_uniquekey cfg data with
  | Ok v => v
  | Raise _ => PInt (DEFAULT_UNIQUE_KEY cfg)
  end
  = match num_uniq_key data with
    | Some v => v
    | None => PInt (DEFAULT_UNIQUE_KEY cfg)
    end.
Proof.
  unfold extract_uniquekey, num_uniq_key.
  destruct data as [| | | s | l | d]; cbn [contains bind]; try reflexivity.
  - destruct (is_substring "uniquekey" s); reflexivity.
  - destruct (existsb _ l); reflexivity.
  - destruct (assoc_get d "uniquekey") as [section|] eqn:E; cbn [negb getitem bind];
      rewrite ?E; cbn [bind]; [|reflexivity].
    destruct section as [| | | s | l | u]; cbn [contains bind]; try reflexivity.
    + destruct (is_substring "NumUniqKey" s); reflexivity.
    + destruct (existsb _ l); reflexivity.
    + destruct (assoc_get u "NumUniqKey") as [v|] eqn:Eu; cbn [negb getitem];
        rewrite ?Eu; reflexivity.
Qed.

Lemma submodule_key_of fs m sub :
  sc_uniquekey (submodule_config_of cfg fs m sub)
  = key_or_default cfg (document cfg fs (submodule_config_path cfg m sub)).
Proof.
  unfold submodule_config_of, key_or_default.
  pose proof (read_result_document (submodule_config_path cfg m sub) fs) as H.
  destruct (read_result cfg fs (submodule_config_path cfg m sub)) as [[data cs]|e];
    rewrite H; [|reflexivity].
  rewrite <- extract_uniquekey_num_uniq_key. unfold parse_submodule_config.
  destruct (extract_uniquekey cfg data); reflexivity.
Qed.

(** *** The loop over the submodules *)

Lemma submodule_contribution_result m nm (w : world) :
  exists w',
    submodule_contribution cfg m None nm w
    = (match contribution_of_key cfg
               (key_or_default cfg
                  (document cfg (files w) (submodule_config_path cfg m nm)))
       with
       | Some c => Ok (detail_of nm c)
       | None => Raise TypeError
       end, w')
    /\ files w' = files w.
Proof.
  unfold submodule_contribution. run.
  destruct (get_submodule_config_result m nm w) as (w' & -> & Hf).
  rewrite submodule_key_of. unfold contribution_of_key, lt_int.
  destruct (as_int (key_or_default cfg _)) as [z|]; [|eauto].
  destruct (z <? 1)%Z; unfold detail_of; rewrite Z.mul_1_l; eauto.
Qed.

Lemma submodule_contributions_result m names :
  forall details total cs (w : world),
    contributions_of cfg (files w) m names = Some cs ->
    exists ds w',
      submodule_contributions cfg m None names details total w
      = (Ok (details ++ ds, total + sum_Z cs), w')
      /\ files w' = files w
      /\ List.map sd_name ds = names
      /\ List.map sd_contribution ds = cs
      /\ Forall (fun d => sd_multiplier d = 1
                          /\ sd_contribution d = sd_uniquekey d) ds.
Proof.
  induction names as [|nm names IH]; intros details total cs w H.
  - injection H as <-. exists [], w. cbn [submodule_contributions sum_Z fold_right].
    unfold ret. rewrite app_nil_r, Z.add_0_r. auto.
  - cbn [contributions_of] in H.
    destruct (contribution_of_key cfg _) as [c|] eqn:Ec; [|discriminate].
    destruct (contributions_of cfg (files w) m names) as [cs'|] eqn:Ecs;
      [|discriminate].
    injection H as <-.
    cbn [submodule_contributions]. run.
    destruct (submodule_contribution_result m nm w) as (w1 & -> & Hf1).
    rewrite Ec. rewrite <- Hf1 in Ecs.
    destruct (IH (details ++ [detail_of nm c]) (total + sd_contribution (detail_of nm c))
                 cs' w1 Ecs) as (ds & w' & -> & Hf & Hn & Hc & Hall).
    exists (detail_of nm c :: ds), w'. split.
    + rewrite <- app_assoc. cbn [sum_Z fold_right detail_of sd_contribution app].
      do 3 f_equal. unfold sum_Z. lia.
    + split; [congruence|]. cbn [List.map]. rewrite Hn, Hc.
      split; [reflexivity|]. split; [reflexivity|]. constructor; auto.
Qed.

(** *** The quotient *)

Lemma guarded_period_nonzero s :
  eqb (guarded_period s) (S754_zero false) = false.
Proof.
  unfold guarded_period. destruct (leb s (S754_zero false)) eqn:E;
    [vm_compute; reflexivity|].
  unfold leb, eqb, SFleb, SFeqb in *.
  destruct (SFcompare s (S754_zero false)) as [[]|]; congruence.
Qed.

Lemma document_read_result fs p data :
  document cfg fs p = Some data ->
  exists cs, read_result cfg fs p = Ok (data, cs).
Proof.
  intros H. pose proof (read_result_document p fs) as R.
  destruct (read_result cfg fs p) as [[data' cs]|e]; [|congruence].
  exists cs. congruence.
Qed.

(** A module file that is a mapping with a [uniquekey] mapping, a
    [NumUniqKey] in it and a period that parses: these are the key and
    the period of the module. *)
Lemma module_config_of_contract fs m d u v p sec :
  document cfg fs (module_config_path cfg m) = Some (PDict d) ->
  assoc_get d "uniquekey" = Some (PDict u) ->
  assoc_get u "NumUniqKey" = Some v ->
  assoc_get d "period" = Some (PStr p) ->
  _parse_duration (PStr p) = Ok sec ->
  mc_uniquekey (module_config_of cfg fs m) = v
  /\ mc_period_seconds (module_config_of cfg fs m) = sec.
Proof.
  intros Hd Hu Hv Hp Hs. unfold module_config_of.
  destruct (document_read_result _ _ _ Hd) as [cs ->].
  unfold parse_module_config, extract_uniquekey, _parse_duration_to_seconds.
  cbn [contains getitem bind negb]. rewrite ?Hu. cbn [bind contains negb getitem].
  rewrite ?Hu. cbn [bind contains getitem]. rewrite ?Hv. cbn [negb bind].
  rewrite ?Hp. cbn [bind]. rewrite Hs. cbn [bind mc_uniquekey mc_period_seconds]. auto.
Qed.

Lemma calculate_eps_result m (w : world) K cs f :
  as_int (mc_uniquekey (module_config_of cfg (files w) m)) = Some K ->
  contributions_of cfg (files w) m (submodule_names cfg (files w) m) = Some cs ->
  float_of_int (K * sum_Z cs) = Ok f ->
  exists r w',
    calculate_eps cfg m None None None w = (Ok r, w')
    /\ files w' = files w
    /\ eps r
       = div f (guarded_period
                  (mc_period_seconds (module_config_of cfg (files w) m)))
    /\ total_submodule_contribution r = sum_Z cs
    /\ List.map sd_name (submodules r) = submodule_names cfg (files w) m
    /\ List.map sd_contribution (submodules r) = cs
    /\ Forall (fun d => sd_multiplier d = 1
                        /\ sd_contribution d = sd_uniquekey d) (submodules r)
    /\ module_uniquekey r = mc_uniquekey (module_config_of cfg (files w) m)
    /\ module_period_seconds r
       = guarded_period
           (mc_period_seconds (module_config_of cfg (files w) m)).
Proof.
  intros HK Hcs Hf. unfold calculate_eps. run.
  destruct (get_module_config_result m w) as (w1 & -> & Hf1).
  unfold get_submodules. rewrite Hf1. rewrite <- Hf1 in Hcs at 1.
  destruct (submodule_contributions_result m _ [] 0 cs w1 Hcs)
    as (ds & w' & -> & Hf2 & Hn & Hc & Hall).
  rewrite HK. cbn [app]. rewrite Z.add_0_l.
  unfold truediv_int_float. rewrite Hf. cbn [bind].
  fold (guarded_period (mc_period_seconds (module_config_of cfg (files w) m))).
  rewrite guarded_period_nonzero.
  do 2 eexists. split; [reflexivity|].
  cbn [eps total_submodule_contribution submodules module_uniquekey
         module_period_seconds].
  repeat split; auto. congruence.
Qed.

(** *** The inverse *)

Lemma truediv_ok a b r : truediv a b = Ok r -> r = div a b.
Proof. unfold truediv. destruct (eqb b (S754_zero false)); congruence. Qed.

Lemma truediv_int_float_ok n d r :
  truediv_int_float n d = Ok r ->
  exists nf, float_of_int n = Ok nf /\ r = div nf d.
Proof.
  unfold truediv_int_float. destruct (float_of_int n) as [nf|]; [|discriminate].
  cbn [bind]. destruct (eqb d (S754_zero false)); [discriminate|].
  intros [= <-]. eauto.
Qed.

Lemma positive_nonzero t :
  ltb (S754_zero false) t = true -> eqb t (S754_zero false) = false.
Proof. destruct t as [s|s| |s m e]; try destruct s; vm_compute; congruence. Qed.

Lemma suggest_no_submodules m target period tolerance (w : world) cs sec :
  contributions_of cfg (files w) m (submodule_names cfg (files w) m) = Some cs ->
  _parse_duration
    (match period with
     | None => mc_period (module_config_of cfg (files w) m)
     | Some p => p
     end) = Ok sec ->
  sum_Z cs <= 0 ->
  exists w',
    suggest_uniquekey_for_target_eps cfg m target period tolerance w
    = (Ok NoUsableSubmodules, w')
    /\ files w' = files w.
Proof.
  intros Hcs Hp HT. unfold suggest_uniquekey_for_target_eps. run.
  destruct (get_module_config_result m w) as (w1 & -> & Hf1).
  unfold get_submodules, _parse_duration_to_seconds. rewrite Hf1, Hp.
  rewrite <- Hf1 in Hcs at 1.
  destruct (submodule_contributions_result m _ [] 0 cs w1 Hcs)
    as (ds & w' & -> & Hf2 & _).
  rewrite Z.add_0_l. apply Z.leb_le in HT. rewrite HT.
  exists w'. split; [reflexivity|congruence].
Qed.

Lemma suggest_result m target period tolerance (w : world)
    cs sec tf req k ef :
  contributions_of cfg (files w) m (submodule_names cfg (files w) m) = Some cs ->
  _parse_duration
    (match period with
     | None => mc_period (module_config_of cfg (files w) m)
     | Some p => p
     end) = Ok sec ->
  0 < sum_Z cs ->
  ltb (S754_zero false) target = true ->
  float_of_int (sum_Z cs) = Ok tf ->
  truediv (mul target sec) tf = Ok req ->
  round req = Ok k ->
  truediv_int_float (Z.max 1 k * sum_Z cs) sec = Ok ef ->
  exists s w',
    suggest_uniquekey_for_target_eps cfg m target period tolerance w
    = (Ok (Suggested s), w')
    /\ files w' = files w
    /\ sg_total_submodule_contribution s = sum_Z cs
    /\ period_seconds s = sec
    /\ required_module_uniquekey s = div (mul target sec) tf
    /\ suggested_module_uniquekey s = Z.max 1 k
    /\ (exists nf, float_of_int (Z.max 1 k * sum_Z cs) = Ok nf
                   /\ expected_eps s = div nf sec)
    /\ tolerance_used s
       = div (abs (sub (expected_eps s) target)) target
    /\ within_tolerance s
       = leb (div (abs (sub (expected_eps s) target)) target) tolerance.
Proof.
  intros Hcs Hp HT Htarget Htf Hreq Hk Hef.
  unfold suggest_uniquekey_for_target_eps. run.
  destruct (get_module_config_result m w) as (w1 & -> & Hf1).
  unfold get_submodules, _parse_duration_to_seconds. rewrite Hf1, Hp.
  rewrite <- Hf1 in Hcs at 1.
  destruct (submodule_contributions_result m _ [] 0 cs w1 Hcs)
    as (ds & w' & -> & Hf2 & _).
  rewrite Z.add_0_l.
  destruct (Z.leb_spec (sum_Z cs) 0) as [|_]; [lia|].
  rewrite Htf. cbn [bind]. rewrite Hreq. cbn [bind]. rewrite Hk. cbn [bind].
  rewrite Hef. cbn [bind]. rewrite Htarget.
  unfold truediv at 1. rewrite (positive_nonzero _ Htarget). cbn [bind].
  do 2 eexists. split; [reflexivity|].
  cbn [sg_total_submodule_contribution period_seconds required_module_uniquekey
         suggested_module_uniquekey expected_eps tolerance_used within_tolerance].
  split; [congruence|]. split; [reflexivity|]. split; [reflexivity|].
  split; [now apply truediv_ok|]. split; [reflexivity|].
  split; [now apply truediv_int_float_ok|]. auto.
Qed.

(** *** Failures of a read *)

Lemma get_module_config_swallows m (w w' : world) e :
  read_module_config cfg m w = (Raise e, w') ->
  get_module_config cfg m w = (Ok (default_module_config cfg e), w').
Proof. intros H. unfold get_module_config. run. now rewrite H. Qed.

Lemma get_submodule_config_swallows m sub (w w' : world) e :
  read_submodule_config cfg m sub w = (Raise e, w') ->
  get_submodule_config cfg m sub w = (Ok (default_submodule_config cfg e), w').
Proof. intros H. unfold get_submodule_config. run. now rewrite H. Qed.

Lemma editor_checksum_propagates p (w : world) :
  files w !! p = None ->
  exists e, YamlEditor._calculate_checksum cfg p w = (Raise e, w).
Proof.
  intros H. unfold YamlEditor._calculate_checksum, read_file. run.
  rewrite H. eauto.
Qed.

End Engine.

(** C2. [calculate_eps] returns, and its [eps] is the product of the
    key of the module and the total contribution of the submodules,
    converted to a float and divided by the period in seconds. The total
    is the sum over the enumerated submodule files of the
    [uniquekey.NumUniqKey] of each file, replaced by the configured default
    when the key is missing or below 1, each with the multiplier 1; a
    period of zero or less is replaced by 1.0. On the module with the key
    5, submodule keys 10, 20 and 30 and the period "1s" the result is
    300.0, with the period "10s" it is 30.0. *)
Theorem calculate_eps_formula (cfg : settings) (module_name : string)
    (w : world) (K : Z) (cs : list Z) (f : float) :
  (as_int (mc_uniquekey (module_config_of cfg (files w) module_name)) = Some K ->
   contributions_of cfg (files w) module_name
     (submodule_names cfg (files w) module_name) = Some cs ->
   float_of_int (K * sum_Z cs) = Ok f ->
   exists r w',
     calculate_eps cfg module_name None None None w = (Ok r, w')
     /\ files w' = files w
     /\ eps r
        = div f (guarded_period
                   (mc_period_seconds
                      (module_config_of cfg (files w) module_name)))
     /\ total_submodule_contribution r = sum_Z cs
     /\ List.map sd_name (submodules r)
        = submodule_names cfg (files w) module_name
     /\ List.map sd_contribution (submodules r) = cs
     /\ Forall (fun d => sd_multiplier d = 1
                         /\ sd_contribution d = sd_uniquekey d)
          (submodules r)
     /\ module_uniquekey r
        = mc_uniquekey (module_config_of cfg (files w) module_name)
     /\ module_period_seconds r
        = guarded_period
            (mc_period_seconds
               (module_config_of cfg (files w) module_name)))
  /\ (forall d u v p sec,
        document cfg (files w) (module_config_path cfg module_name)
        = Some (PDict d) ->
        assoc_get d "uniquekey" = Some (PDict u) ->
        assoc_get u "NumUniqKey" = Some v ->
        assoc_get d "period" = Some (PStr p) ->
        _parse_duration (PStr p) = Ok sec ->
        mc_uniquekey (module_config_of cfg (files w) module_name) = v
        /\ mc_period_seconds (module_config_of cfg (files w) module_name)
           = sec)
  /\ (exists r,
        fst (calculate_eps Examples.cfg "Apache" None None None
               (Examples.apache_world "1s")) = Ok r
        /\ module_uniquekey r = PInt 5
        /\ List.map sd_contribution (submodules r) = [20; 30; 10]
        /\ total_submodule_contribution r = 60
        /\ module_period_seconds r = of_Z 1
        /\ eps r = of_Z 300)
  /\ (exists r,
        fst (calculate_eps Examples.cfg "Apache" None None None
               (Examples.apache_world "10s")) = Ok r
        /\ module_uniquekey r = PInt 5
        /\ total_submodule_contribution r = 60
        /\ module_period_seconds r = of_Z 10
        /\ eps r = of_Z 30).
Proof.
  split; [apply calculate_eps_result|].
  split; [apply module_config_of_contract|].
  split; eexists; (split; [vm_compute; reflexivity|]);
    repeat split; vm_compute; reflexivity.
Qed.

Lemma calculate_eps_formula_witness :
  let cfg := Examples.cfg in
  let w := Examples.apache_world "1s" in
  as_int (mc_uniquekey (module_config_of cfg (files w) "Apache")) = Some 5
  /\ contributions_of cfg (files w) "Apache"
       (submodule_names cfg (files w) "Apache") = Some [20; 30; 10]
  /\ float_of_int (5 * sum_Z [20; 30; 10]) = Ok (of_Z 300)
  /\ exists r w',
       calculate_eps cfg "Apache" None None None w = (Ok r, w')
       /\ files w' = files w
       /\ eps r
          = div (of_Z 300)
              (guarded_period
                 (mc_period_seconds (module_config_of cfg (files w) "Apache")))
       /\ total_submodule_contribution r = sum_Z [20; 30; 10]
       /\ List.map sd_name (submodules r) = submodule_names cfg (files w) "Apache"
       /\ List.map sd_contribution (submodules r) = [20; 30; 10]
       /\ Forall (fun d => sd_multiplier d = 1
                           /\ sd_contribution d = sd_uniquekey d)
            (submodules r)
       /\ module_uniquekey r
          = mc_uniquekey (module_config_of cfg (files w) "Apache")
       /\ module_period_seconds r
          = guarded_period
              (mc_period_seconds (module_config_of cfg (files w) "Apache")).
Proof.
  intros cfg w.
  assert (H1 : as_int (mc_uniquekey (module_config_of cfg (files w) "Apache"))
               = Some 5) by (vm_compute; reflexivity).
  assert (H2 : contributions_of cfg (files w) "Apache"
                 (submodule_names cfg (files w) "Apache") = Some [20; 30; 10])
    by (vm_compute; reflexivity).
  assert (H3 : float_of_int (5 * sum_Z [20; 30; 10]) = Ok (of_Z 300))
    by (vm_compute; reflexivity).
  split; [exact H1|]. split; [exact H2|]. split; [exact H3|].
  exact (proj1 (calculate_eps_formula cfg "Apache" w 5 [20; 30; 10] (of_Z 300))
           H1 H2 H3).
Defined.

Section Suggestion.
Variable cfg : settings.

(** A quotient by zero is an infinity or no number, which [round]
    refuses: when the rounding of a quotient returns, the divisor is
    not zero. *)
Lemma round_div_nonzero a b k :
  round (div a b) = Ok k -> eqb b (S754_zero false) = false.
Proof.
  destruct b as [sb|sb| |sb mb eb];
    [|destruct sb; reflexivity|reflexivity|destruct sb; reflexivity].
  intros H. exfalso.
  destruct a as [sa|sa| |sa ma ea]; vm_compute in H; discriminate H.
Qed.

(** The arithmetic of the suggestion, once the total is positive. *)
Lemma suggest_positive_total m target period tolerance (w : world) cs sec :
  contributions_of cfg (files w) m (submodule_names cfg (files w) m) = Some cs ->
  _parse_duration
    (match period with
     | None => mc_period (module_config_of cfg (files w) m)
     | Some p => p
     end) = Ok sec ->
  0 < sum_Z cs ->
  forall tf k nf,
    float_of_int (sum_Z cs) = Ok tf ->
    round (div (mul target sec) tf) = Ok k ->
    float_of_int (Z.max 1 k * sum_Z cs) = Ok nf ->
    exists w',
      files w' = files w
      /\ suggest_uniquekey_for_target_eps cfg m target period tolerance w
         = (if eqb sec (S754_zero false) then Raise ZeroDivisionError
            else
              let actual_tolerance :=
                if ltb (S754_zero false) target
                then div (abs (sub (div nf sec) target)) target
                else S754_zero false in
              Ok (Suggested
                    {| target_eps := target;
                       suggested_module_uniquekey := Z.max 1 k;
                       current_module_uniquekey :=
                         mc_uniquekey (module_config_of cfg (files w) m);
                       sg_module_period :=
                         match period with
                         | None => mc_period (module_config_of cfg (files w) m)
                         | Some p => p
                         end;
                       period_seconds := sec;
                       sg_total_submodule_contribution := sum_Z cs;
                       expected_eps := div nf sec;
                       tolerance_used := actual_tolerance;
                       within_tolerance := leb actual_tolerance tolerance;
                       required_module_uniquekey := div (mul target sec) tf |}),
            w').
Proof.
  intros Hcs Hp HT tf k nf Htf Hk Hnf.
  unfold suggest_uniquekey_for_target_eps. run.
  destruct (get_module_config_result cfg m w) as (w1 & -> & Hf1).
  unfold get_submodules, _parse_duration_to_seconds. rewrite Hf1, Hp.
  rewrite <- Hf1 in Hcs at 1.
  destruct (submodule_contributions_result cfg m _ [] 0 cs w1 Hcs)
    as (ds & w' & -> & Hf2 & _).
  rewrite Z.add_0_l.
  destruct (Z.leb_spec (sum_Z cs) 0) as [|_]; [lia|].
  exists w'. split; [congruence|].
  rewrite Htf. cbn [bind]. unfold truediv at 1.
  rewrite (round_div_nonzero _ _ _ Hk). cbn [bind]. rewrite Hk. cbn [bind].
  unfold truediv_int_float. rewrite Hnf. cbn [bind].
  destruct (eqb sec (S754_zero false)); [reflexivity|]. cbn [bind].
  destruct (ltb (S754_zero false) target) eqn:Ht; [|reflexivity].
  unfold truediv. rewrite (positive_nonzero _ Ht). reflexivity.
Qed.

End Suggestion.

(** C4 (as amended). With a period that parses and submodule keys that
    are integers: when the total contribution is zero or less, the
    function returns the NoUsableSubmodules answer. When the total is
    positive and the numbers stay in range (the total and
    [suggested * total] convert to floats, and the required key is
    finite, so that [round] returns): with [period_seconds] not zero
    the function returns a suggestion whose required key is
    [(target_eps * period_seconds) / total], whose suggested key is
    that, rounded to the nearest integer (ties to even) and raised to 1
    at least, and whose expected EPS is
    [(suggested * total) / period_seconds]; for [target_eps > 0] it is
    within tolerance exactly when
    [|expected - target| / target <= tolerance]; for a target that is
    not above 0 the quotient is not computed, [tolerance_used] is 0 and
    the suggestion is within tolerance for every tolerance of 0 or
    more; with a period of zero seconds the function raises
    ZeroDivisionError. For the target 300, the period 1s and the total
    60 the suggested key is 5, within tolerance. *)
Theorem suggest_uniquekey_formula (cfg : settings) (module_name : string)
    (target : float) (period : option pyobj) (tolerance : float)
    (w : world) (cs : list Z) (sec : float) :
  contributions_of cfg (files w) module_name
    (submodule_names cfg (files w) module_name) = Some cs ->
  _parse_duration
    (match period with
     | None => mc_period (module_config_of cfg (files w) module_name)
     | Some p => p
     end) = Ok sec ->
  (sum_Z cs <= 0 ->
   exists w',
     suggest_uniquekey_for_target_eps cfg module_name target period
       tolerance w = (Ok NoUsableSubmodules, w')
     /\ files w' = files w)
  /\ (0 < sum_Z cs ->
      forall tf k nf,
        float_of_int (sum_Z cs) = Ok tf ->
        round (div (mul target sec) tf) = Ok k ->
        float_of_int (Z.max 1 k * sum_Z cs) = Ok nf ->
        (eqb sec (S754_zero false) = false ->
         exists s w',
           suggest_uniquekey_for_target_eps cfg module_name target period
             tolerance w = (Ok (Suggested s), w')
           /\ files w' = files w
           /\ sg_total_submodule_contribution s = sum_Z cs
           /\ period_seconds s = sec
           /\ required_module_uniquekey s = div (mul target sec) tf
           /\ suggested_module_uniquekey s = Z.max 1 k
           /\ expected_eps s = div nf sec
           /\ (ltb (S754_zero false) target = true ->
               tolerance_used s
               = div (abs (sub (expected_eps s) target)) target
               /\ within_tolerance s
                  = leb (div (abs (sub (expected_eps s) target)) target)
                      tolerance)
           /\ (ltb (S754_zero false) target = false ->
               tolerance_used s = S754_zero false
               /\ within_tolerance s = leb (S754_zero false) tolerance
               /\ (leb (S754_zero false) tolerance = true ->
                   within_tolerance s = true)))
        /\ (eqb sec (S754_zero false) = true ->
            exists w',
              suggest_uniquekey_for_target_eps cfg module_name target period
                tolerance w = (Raise ZeroDivisionError, w')
              /\ files w' = files w))
  /\ (exists s,
        fst (suggest_uniquekey_for_target_eps Examples.cfg "Apache"
               (of_Z 300) (Some (PStr "1s")) (literal 5 100)
               (Examples.apache_world "1s")) = Ok (Suggested s)
        /\ sg_total_submodule_contribution s = 60
        /\ suggested_module_uniquekey s = 5
        /\ expected_eps s = of_Z 300
        /\ within_tolerance s = true).
Proof.
  intros Hcs Hp.
  split; [intros HT; eapply suggest_no_submodules; eassumption|].
  split.
  - intros HT tf k nf Htf Hk Hnf.
    destruct (suggest_positive_total cfg module_name target period tolerance w
                cs sec Hcs Hp HT tf k nf Htf Hk Hnf) as (w' & Hf & Hrun).
    split; intros Hsec; rewrite Hsec in Hrun.
    + cbv zeta in Hrun. eexists. exists w'. split; [exact Hrun|].
      cbn [sg_total_submodule_contribution period_seconds
             required_module_uniquekey suggested_module_uniquekey
             expected_eps tolerance_used within_tolerance].
      repeat (split; [first [exact Hf | reflexivity]|]).
      split; intros Ht; rewrite Ht.
      * split; reflexivity.
      * split; [reflexivity|]. split; [reflexivity|]. intros H; exact H.
    + exists w'. split; [exact Hrun | exact Hf].
  - eexists. split; [vm_compute; reflexivity|]. repeat split.
Qed.

Lemma suggest_uniquekey_formula_witness :
  let cfg := Examples.cfg in
  let w := Examples.apache_world "1s" in
  contributions_of cfg (files w) "Apache"
    (submodule_names cfg (files w) "Apache") = Some [20; 30; 10]
  /\ _parse_duration (PStr "1s") = Ok (of_Z 1)
  /\ 0 < sum_Z [20; 30; 10]
  /\ float_of_int (sum_Z [20; 30; 10]) = Ok (of_Z 60)
  /\ round (div (mul (of_Z 300) (of_Z 1)) (of_Z 60)) = Ok 5
  /\ float_of_int (Z.max 1 5 * sum_Z [20; 30; 10]) = Ok (of_Z 300)
  /\ eqb (of_Z 1) (S754_zero false) = false
  /\ ltb (S754_zero false) (of_Z 300) = true
  /\ exists s w',
       suggest_uniquekey_for_target_eps cfg "Apache" (of_Z 300)
         (Some (PStr "1s")) (literal 5 100) w = (Ok (Suggested s), w')
       /\ suggested_module_uniquekey s = Z.max 1 5
       /\ within_tolerance s
          = leb (div (abs (sub (expected_eps s) (of_Z 300))) (of_Z 300))
              (literal 5 100).
Proof.
  intros cfg w.
  assert (H1 : contributions_of cfg (files w) "Apache"
                 (submodule_names cfg (files w) "Apache") = Some [20; 30; 10])
    by (vm_compute; reflexivity).
  assert (H2 : _parse_duration (PStr "1s") = Ok (of_Z 1))
    by (vm_compute; reflexivity).
  assert (H3 : 0 < sum_Z [20; 30; 10]) by (vm_compute; reflexivity).
  assert (H4 : float_of_int (sum_Z [20; 30; 10]) = Ok (of_Z 60))
    by (vm_compute; reflexivity).
  assert (H5 : round (div (mul (of_Z 300) (of_Z 1)) (of_Z 60)) = Ok 5)
    by (vm_compute; reflexivity).
  assert (H6 : float_of_int (Z.max 1 5 * sum_Z [20; 30; 10]) = Ok (of_Z 300))
    by (vm_compute; reflexivity).
  assert (H7 : eqb (of_Z 1) (S754_zero false) = false)
    by (vm_compute; reflexivity).
  assert (H8 : ltb (S754_zero false) (of_Z 300) = true)
    by (vm_compute; reflexivity).
  repeat (split; [assumption|]).
  destruct (proj1 (proj1 (proj2 (suggest_uniquekey_formula cfg "Apache"
                                   (of_Z 300) (Some (PStr "1s"))
                                   (literal 5 100) w [20; 30; 10] (of_Z 1)
                                   H1 H2))
                     H3 _ _ _ H4 H5 H6) H7)
    as (s & w' & Hs & _ & _ & _ & _ & Hk & _ & Hpos & _).
  exists s, w'. split; [exact Hs|]. split; [exact Hk|].
  exact (proj2 (Hpos H8)).
Defined.

(** C4 as stated fails at the target 0: the code reports the suggestion
    as within tolerance, while the quotient [|expected - target| / target]
    is a division by zero, which Python refuses and which IEEE arithmetic
    makes infinite, not at most the tolerance. *)
Lemma suggest_zero_target_within_tolerance :
  exists s,
    fst (suggest_uniquekey_for_target_eps Examples.cfg "Apache"
           (S754_zero false) None (literal 5 100)
           (Examples.apache_world "1s")) = Ok (Suggested s)
    /\ within_tolerance s = true
    /\ expected_eps s = of_Z 60
    /\ leb (div (abs (sub (expected_eps s) (target_eps s))) (target_eps s))
         (literal 5 100) = false
    /\ truediv (abs (sub (expected_eps s) (target_eps s))) (target_eps s)
       = Raise ZeroDivisionError.
Proof.
  eexists. split; [vm_compute; reflexivity|]. repeat split.
Qed.

(** C9 (as amended). A failure of the read of a module or submodule
    file does not leave [get_module_config] or [get_submodule_config]:
    they return the configuration of defaults, with the exception under
    ["error"], and they never raise. [ClusterManager._calculate_checksum]
    returns the empty string for a file that cannot be read. The file store
    itself propagates: the reads raise, and so does
    [SafeYAMLEditor._calculate_checksum] on a missing file. *)
Theorem read_failures_become_defaults (cfg : settings)
    (cs : ClusterManager.cluster_settings)
    (module_name submodule_name : string) (w : world) :
  (forall e w',
     read_module_config cfg module_name w = (Raise e, w') ->
     get_module_config cfg module_name w
     = (Ok (default_module_config cfg e), w'))
  /\ (forall e w',
       read_submodule_config cfg module_name submodule_name w = (Raise e, w') ->
       get_submodule_config cfg module_name submodule_name w
       = (Ok (default_submodule_config cfg e), w'))
  /\ (exists c w', get_module_config cfg module_name w = (Ok c, w'))
  /\ (exists c w',
       get_submodule_config cfg module_name submodule_name w = (Ok c, w'))
  /\ (forall p, files w !! p = None ->
       ClusterManager._calculate_checksum cs (files w) p = EmptyString)
  /\ (forall p, files w !! p = None ->
       exists e, YamlEditor._calculate_checksum cfg p w = (Raise e, w)).
Proof.
  split; [intros e w'; apply get_module_config_swallows|].
  split; [intros e w'; apply get_submodule_config_swallows|].
  split; [destruct (get_module_config_result cfg module_name w) as (w' & H & _);
          eauto|].
  split; [destruct (get_submodule_config_result cfg module_name submodule_name w)
            as (w' & H & _); eauto|].
  split; [intros p H; unfold ClusterManager._calculate_checksum; now rewrite H|].
  intros p. apply editor_checksum_propagates.
Qed.

Lemma read_failures_become_defaults_witness :
  let cfg := Examples.cfg in
  let w := Examples.empty_world in
  read_module_config cfg "Apache" w = (Raise FileNotFoundError, w)
  /\ get_module_config cfg "Apache" w
     = (Ok (default_module_config cfg FileNotFoundError), w).
Proof.
  intros cfg w.
  assert (H : read_module_config cfg "Apache" w = (Raise FileNotFoundError, w))
    by (vm_compute; reflexivity).
  split; [exact H|].
  exact (proj1 (read_failures_become_defaults cfg Examples.cluster_cfg
                  "Apache" "status" w) _ _ H).
Defined.

(** C9 as stated fails: with no file on disk the read of the module
    raises NotFound, and the EPS calculation returns all the same, from
    the default key and period; the checksum of the cluster manager is
    the empty string. *)
Lemma missing_file_becomes_default :
  fst (read_module_config Examples.cfg "Apache" Examples.empty_world)
  = Raise NotFound
  /\ fst (get_module_config Examples.cfg "Apache" Examples.empty_world)
     = Ok {| mc_uniquekey := PInt 1; mc_period := PStr "1s";
             mc_period_seconds := of_Z 1; mc_full_config := PDict [];
             mc_error := Some NotFound |}
  /\ (exists r,
       fst (calculate_eps Examples.cfg "Apache" None None None
              Examples.empty_world) = Ok r
       /\ module_uniquekey r = PInt 1
       /\ eps r = S754_zero false)
  /\ ClusterManager._calculate_checksum Examples.cluster_cfg
       (files Examples.empty_world) ["conf_snapshots"; "n1"; "conf.d"; "conf.yml"]
     = EmptyString.
Proof.
  split; [vm_compute; reflexivity|]. split; [vm_compute; reflexivity|].
  split; [|vm_compute; reflexivity].
  eexists. split; [vm_compute; reflexivity|]. repeat split.
Qed.

End EpsFacts.

(** ** The cluster manager: discovery and bulk edit *)

Module ClusterFacts.
Import PyObj PyStr FS ClusterManager.




Section Discovery.
Variable cs : cluster_settings.
Variable fs : files_t.





(** *** Every entry comes from a file of the snapshot *)





(** *** An entry, once made, stays *)







End Discovery.

Section NamedFiles.
Variable cs : cluster_settings.
Variable fs : files_t.




End NamedFiles.




(** *** Bulk edit *)

Lemma set_remote_key_ok d nv :
  exists d',
    set_remote_key (PDict d) nv = Ok (PDict d')
    /\ exists u, assoc_get d' "uniquekey" = Some (PDict u)
                 /\ assoc_get u "NumUniqKey" = Some nv.
Proof.
  unfold set_remote_key. cbn [contains bind].
  destruct (assoc_get d "uniquekey") as [x|] eqn:Hx; cbn [negb bind].
  - cbn [getitem]. rewrite Hx. cbn [bind].
    destruct (is_dict x) eqn:Hdict; cbn [negb setitem bind getitem].
    + rewrite Hx. cbn [bind]. destruct x; try discriminate Hdict.
      cbn [setitem bind]. eexists. split; [reflexivity|].
      eexists. split; [apply YamlEditorFacts.assoc_get_set_eq|].
      apply YamlEditorFacts.assoc_get_set_eq.
    + rewrite YamlEditorFacts.assoc_get_set_eq. cbn [bind setitem].
      eexists. split; [reflexivity|].
      eexists. split; [apply YamlEditorFacts.assoc_get_set_eq|].
      reflexivity.
  - cbn [setitem bind getitem].
    rewrite YamlEditorFacts.assoc_get_set_eq. cbn [bind is_dict negb getitem].
    rewrite YamlEditorFacts.assoc_get_set_eq. cbn [bind setitem].
    eexists. split; [reflexivity|].
    eexists. split; [apply YamlEditorFacts.assoc_get_set_eq|]. reflexivity.
Qed.

Section BulkEdit.
Variable cs : cluster_settings.
Variable nodes : list (string * node_config).

Lemma bulk_edit_with_backup node_name updates (w : cworld) :
  bulk_edit_submodule_unique_keys cs nodes node_name updates true w
  = (all_false updates, w).
Proof.
  unfold bulk_edit_submodule_unique_keys.
  destruct (lookup_node nodes node_name) as [node|]; [|reflexivity].
  destruct (negb (default true (enabled node))); reflexivity.
Qed.

Lemma scratch_restored (n : nat) (a b c : string) (m : gmap nat string) :
  n ∉ dom m ->
  delete n (<[n := a]> m) = m
  /\ delete n (<[n := b]> (<[n := a]> m)) = m
  /\ delete n (<[n := c]> (<[n := b]> (<[n := a]> m))) = m.
Proof.
  intros Hn. apply not_elem_of_dom in Hn.
  rewrite !insert_insert_eq. rewrite !delete_insert_eq.
  rewrite delete_id by exact Hn. auto.
Qed.

Lemma edit_one_ok node path m s v content loaded d results (w : cworld) :
  split_slash_once path = Some (m, s) ->
  let remote_file_path :=
    conf_dir node +:+ "/" +:+ m +:+ "/" +:+ s +:+ ".yml" in
  get_fails (net w) remote_file_path = false ->
  remote w !! remote_file_path = Some content ->
  safe_load cs content = Some loaded ->
  or_empty_dict loaded = PDict d ->
  put_fails (net w) remote_file_path = None ->
  exists d' w',
    edit_one cs node path v results w = (Ok (<[path := true]> results), w')
    /\ set_remote_key (PDict d) v = Ok (PDict d')
    /\ remote w' = <[remote_file_path := safe_dump cs (PDict d')]> (remote w)
    /\ scratch w' = scratch w
    /\ net w' = net w.
Proof.
  intros Hsplit rp Hget Hfile Hload Hdict Hput.
  destruct (set_remote_key_ok d v) as (d' & Hset & _).
  exists d'. eexists. split.
  - unfold edit_one. rewrite Hsplit. fold rp.
    unfold cbind at 1. unfold named_temporary_file.
    unfold edit_remote_file, cbind, sftp_get. cbn [net remote scratch].
    rewrite Hget, Hfile. unfold read_scratch. cbn [net remote scratch].
    rewrite lookup_insert_eq, Hload, Hdict, Hset.
    unfold write_scratch, sftp_put. cbn [net remote scratch].
    rewrite lookup_insert_eq, Hput. unfold unlink_scratch.
    cbn [net remote scratch]. reflexivity.
  - split; [exact Hset|]. cbn [net remote scratch].
    split; [reflexivity|]. split; [|reflexivity].
    apply scratch_restored. apply is_fresh.
Qed.

Lemma edit_remote_file_scratch rp n v (w : cworld) :
  net (snd (edit_remote_file cs rp n v w)) = net w
  /\ delete n (scratch (snd (edit_remote_file cs rp n v w)))
     = delete n (scratch w).
Proof.
  unfold edit_remote_file, cbind, sftp_get, read_scratch, write_scratch,
    sftp_put, craise.
  destruct (get_fails (net w) rp); [auto|].
  destruct (remote w !! rp) as [b|]; [|auto]. cbn [net remote scratch].
  rewrite lookup_insert_eq.
  destruct (safe_load cs b) as [loaded|];
    [|cbn [snd net scratch]; now rewrite delete_insert_eq].
  destruct (set_remote_key (or_empty_dict loaded) v) as [config_data|e];
    [|cbn [snd net scratch]; now rewrite delete_insert_eq].
  cbn [net remote scratch]. rewrite lookup_insert_eq.
  destruct (put_fails (net w) rp) as [[part|]|]; cbn [snd net scratch];
    now rewrite !delete_insert_eq.
Qed.

Lemma edit_one_total node path v results (w : cworld) :
  exists b w',
    edit_one cs node path v results w = (Ok (<[path := b]> results), w')
    /\ scratch w' = scratch w
    /\ net w' = net w.
Proof.
  unfold edit_one.
  destruct (split_slash_once path) as [[m s]|];
    [|exists false, w; repeat split].
  unfold cbind at 1, named_temporary_file.
  set (n := fresh (dom (scratch w))).
  set (w1 := {| remote := remote w; scratch := <[n:=EmptyString]> (scratch w);
                net := net w |}).
  set (rp := conf_dir node +:+ "/" +:+ m +:+ "/" +:+ s +:+ ".yml").
  destruct (edit_remote_file_scratch rp n v w1) as [Hnet Hscratch].
  destruct (edit_remote_file cs rp n v w1) as [r w2] eqn:Hrun.
  cbn [snd] in Hnet, Hscratch. unfold unlink_scratch.
  exists (match r with Ok _ => true | Raise _ => false end). eexists.
  split; [destruct r; reflexivity|]. cbn [scratch net].
  split; [|exact Hnet].
  rewrite Hscratch. subst w1. cbn [scratch]. rewrite delete_insert_eq.
  apply delete_id. apply not_elem_of_dom. apply is_fresh.
Qed.

Lemma edit_all_total node updates results (w : cworld) :
  exists results' w',
    edit_all cs node updates results w = (Ok results', w')
    /\ scratch w' = scratch w
    /\ net w' = net w
    /\ (forall path, is_Some (results !! path) -> is_Some (results' !! path))
    /\ (forall path, path ∈ updates.*1 -> is_Some (results' !! path)).
Proof.
  revert results w.
  induction updates as [|[path v] updates IH]; intros results w.
  - exists results, w. repeat split; auto.
    intros path H. now apply elem_of_nil in H.
  - destruct (edit_one_total node path v results w) as (b & w1 & H1 & Hs1 & Hn1).
    destruct (IH (<[path := b]> results) w1)
      as (results' & w' & H2 & Hs2 & Hn2 & Hkeep & Hall).
    exists results', w'. cbn [edit_all]. unfold cbind. rewrite H1, H2.
    split; [reflexivity|]. split; [congruence|]. split; [congruence|].
    split.
    + intros p Hp. apply Hkeep. apply lookup_insert_is_Some'. now right.
    + intros p Hp. cbn in Hp. apply elem_of_cons in Hp as [->|Hp].
      * apply Hkeep. apply lookup_insert_is_Some'. now left.
      * now apply Hall.
Qed.

Lemma bulk_edit_without_backup node_name node updates (w : cworld) :
  lookup_node nodes node_name = Some node ->
  default true (enabled node) = true ->
  connect_fails (net w) = false ->
  exists results w',
    bulk_edit_submodule_unique_keys cs nodes node_name updates false w
    = (results, w')
    /\ edit_all cs node updates ∅ w = (Ok results, w')
    /\ scratch w' = scratch w
    /\ (forall path, path ∈ updates.*1 -> is_Some (results !! path)).
Proof.
  intros Hnode Hen Hconn.
  destruct (edit_all_total node updates ∅ w)
    as (results & w' & Hrun & Hs & _ & _ & Hall).
  exists results, w'. split; [|auto].
  unfold bulk_edit_submodule_unique_keys. rewrite Hnode, Hen. cbn [negb].
  unfold cbind, cret, _create_ssh_connection. rewrite Hconn, Hrun.
  reflexivity.
Qed.

End BulkEdit.

(** C3. The call with its default [create_backup=True] evaluates
    [self.create_node_backup], a method that the class does not define:
    the AttributeError reaches the outer handler, which answers False
    for every path and leaves the node as it was, whatever the transport
    does. With three updates and a transport that fails on the second,
    the answer holds three False entries and no file is edited, where
    the claim has one False and two True; the same call with
    [create_backup=False] gives True, False, True and leaves no scratch
    file. *)
Theorem bulk_edit_default_fails_every_item :
  (forall cs nodes node_name updates (w : cworld),
     bulk_edit_submodule_unique_keys cs nodes node_name updates true w
     = (all_false updates, w))
  /\ (let r := bulk_edit_submodule_unique_keys Examples.cluster_cfg
                 Examples.nodes "node1" Examples.three_updates true
                 (Examples.cluster_world Examples.transport_second_fails) in
      fst r !! "Apache/status" = Some false
      /\ fst r !! "Apache/access" = Some false
      /\ fst r !! "Apache/error" = Some false
      /\ remote (snd r) = Examples.remote_files)
  /\ (let r := bulk_edit_submodule_unique_keys Examples.cluster_cfg
                 Examples.nodes "node1" Examples.three_updates false
                 (Examples.cluster_world Examples.transport_second_fails) in
      fst r !! "Apache/status" = Some true
      /\ fst r !! "Apache/access" = Some false
      /\ fst r !! "Apache/error" = Some true
      /\ remote (snd r) !! "/opt/vudatasim/conf.d/Apache/status.yml"
         = Some "{uniquekey: {NumUniqKey: 100}}"
      /\ scratch (snd r) = ∅).
Proof.
  split; [intros; apply bulk_edit_with_backup|]. split.
  - cbv zeta. rewrite bulk_edit_with_backup. cbn [fst snd].
    repeat split; vm_compute; reflexivity.
  - cbv zeta. repeat split; vm_compute; reflexivity.
Qed.

End ClusterFacts.

(** ** The write protocol of the editor and its mutators *)

Module WriteProtocol.
Import PyObj PyStr FS YamlEditor PyStrFacts YamlEditorFacts.

Lemma length_append (a b : string) :
  String.length (a +:+ b) = (String.length a + String.length b)%nat.
Proof. induction a as [|c a IH]; sapp; cbn; [reflexivity|now rewrite IH]. Qed.

Section Protocol.
Variable cfg : settings.

(** The backup of a file never has the path of the file. *)
Lemma backup_neq (d : path) nm (w : world) :
  backup_of cfg (d ++ [nm]) w <> d ++ [nm].
Proof.
  unfold backup_of. rewrite name_snoc. intros H.
  apply (f_equal (fun l => List.last l EmptyString)) in H.
  rewrite !List.last_last in H.
  apply (f_equal String.length) in H. rewrite !length_append in H.
  cbn in H. lia.
Qed.

Lemma write_success p data original_checksum b (w : world) :
  files w !! p = Some b ->
  md5_hexdigest cfg b = original_checksum ->
  env w = no_faults ->
  with_suffix p ".tmp" <> p ->
  exists r w',
    write_config_at cfg p data original_checksum w = (Ok r, w')
    /\ success r = true
    /\ backup_path r = backup_of cfg p w
    /\ new_checksum r = md5_hexdigest cfg (yaml_dump cfg data)
    /\ files w'
       = <[p := yaml_dump cfg data]>
           (delete (with_suffix p ".tmp") (<[backup_of cfg p w := b]> (files w)))
    /\ env w' = env w
    /\ clock w' = clock w.
Proof.
  intros H Hcs Henv Hneq.
  apply String.eqb_eq in Hcs.
  assert (Ec : copy_fails (env w) = false) by now rewrite Henv.
  assert (Eo : open_write_fails (env w) = false) by now rewrite Henv.
  assert (Ed : dump_fails (env w) = None) by now rewrite Henv.
  assert (Er : replace_fails (env w) = false) by now rewrite Henv.
  do 2 eexists. split.
  - unfold write_config_at. run.
    rewrite (checksum_of_file cfg p b) by exact H. weval.
    rewrite Hcs. cbn [negb]. weval.
    rewrite (backup_of_file cfg p b (record (EvRead p) w)) by (weval; assumption).
    weval. unfold open_write. weval. rewrite Eo. weval.
    unfold write_dump. weval. rewrite Ed. weval.
    unfold replace. weval. rewrite Er. weval. rewrite lookup_insert_eq. weval.
    rewrite (checksum_of_file cfg p (yaml_dump cfg data))
      by (weval; apply lookup_insert_eq).
    weval. reflexivity.
  - cbn [success new_checksum backup_path].
    split; [reflexivity|]. split; [reflexivity|]. split; [reflexivity|].
    weval. split; [|split; reflexivity].
    now rewrite !delete_insert_eq.
Qed.

Lemma write_backup_fails p data original_checksum b (w : world) :
  files w !! p = Some b ->
  md5_hexdigest cfg b = original_checksum ->
  copy_fails (env w) = true ->
  write_config_at cfg p data original_checksum w
  = (Raise OSError, record (EvRead p) w).
Proof.
  intros H Hcs Hc. apply String.eqb_eq in Hcs.
  unfold write_config_at. run.
  rewrite (checksum_of_file cfg p b) by exact H. weval.
  rewrite Hcs. cbn [negb]. weval.
  unfold _create_backup, copy2. run. weval. now rewrite Hc.
Qed.

Lemma read_config_at_ok p data checksum (w w1 : world) :
  read_config_at cfg p w = (Ok (data, checksum), w1) ->
  exists b,
    files w !! p = Some b
    /\ yaml_load cfg b = Some data
    /\ checksum = md5_hexdigest cfg b
    /\ files w1 = files w /\ env w1 = env w /\ clock w1 = clock w.
Proof.
  unfold read_config_at. run.
  destruct (negb (exists_ (files w) p)); [discriminate|].
  unfold read_file at 1.
  destruct (files w !! p) as [b|] eqn:Hb; [|discriminate].
  destruct (yaml_load cfg b) as [d|] eqn:Hl; [|discriminate].
  rewrite (checksum_of_file cfg p b) by (weval; exact Hb).
  intros [= <- <- <-]. exists b. repeat split; auto.
Qed.

Lemma read_config_at_file p b data (w : world) :
  files w !! p = Some b ->
  yaml_load cfg b = Some data ->
  read_config_at cfg p w
  = (Ok (data, md5_hexdigest cfg b), record (EvRead p) (record (EvRead p) w)).
Proof.
  intros Hb Hl. unfold read_config_at. run.
  unfold exists_, is_file. rewrite Hb. cbn [orb negb].
  unfold read_file at 1. rewrite Hb, Hl.
  rewrite (checksum_of_file cfg p b) by (weval; exact Hb). reflexivity.
Qed.

Lemma config_path_cases module_name submodule_name p :
  p = main_config_path cfg \/ p = module_config_path cfg module_name
  \/ p = submodule_config_path cfg module_name submodule_name ->
  exists d nm, p = d ++ [nm] /\ with_suffix p ".tmp" <> p.
Proof.
  intros [-> | [-> | ->]].
  - exists (CONF_D_DIR cfg), "conf.yml". split; [reflexivity|apply main_temp_neq].
  - exists (CONF_D_DIR cfg ++ [module_name]), "conf.yml".
    split; [now rewrite <- app_assoc|apply module_temp_neq].
  - exists (CONF_D_DIR cfg ++ [module_name]), (submodule_name +:+ ".yml").
    split; [now rewrite <- app_assoc|apply submodule_temp_neq].
Qed.

End Protocol.

(** X1. A write through [write_main_config], [write_module_config] or
    [write_submodule_config] with the checksum of the file on disk and
    no failure of the environment succeeds: the file holds the dumped
    document, the returned checksum is the digest of that text, the
    backup [BACKUPS_DIR/<name>.bak.<timestamp>] holds the bytes that the
    file had, the temporary file is gone, and no other file has
    changed. *)
Theorem guarded_write_replaces_file (cfg : settings)
    (module_name submodule_name : string) (data : pyobj) (p : path)
    (b : string) (w : world) :
  p = main_config_path cfg \/ p = module_config_path cfg module_name
  \/ p = submodule_config_path cfg module_name submodule_name ->
  files w !! p = Some b ->
  env w = no_faults ->
  exists r w',
    write_config_at cfg p data (md5_hexdigest cfg b) w = (Ok r, w')
    /\ success r = true
    /\ new_checksum r = md5_hexdigest cfg (yaml_dump cfg data)
    /\ backup_path r = BACKUPS_DIR cfg ++ [name p +:+ ".bak." +:+ clock w]
    /\ files w' !! p = Some (yaml_dump cfg data)
    /\ files w' !! with_suffix p ".tmp" = None
    /\ (backup_path r <> with_suffix p ".tmp" ->
        files w' !! backup_path r = Some b)
    /\ (forall q, q <> p -> q <> with_suffix p ".tmp" -> q <> backup_path r ->
        files w' !! q = files w !! q).
Proof.
  intros Hp Hb Henv.
  destruct (config_path_cases cfg module_name submodule_name p Hp)
    as (d & nm & Hd & Hneq).
  destruct (write_success cfg p data _ b w Hb eq_refl Henv Hneq)
    as (r & w' & Hrun & Hs & Hbp & Hcs & Hfiles & _).
  exists r, w'. split; [exact Hrun|]. split; [exact Hs|]. split; [exact Hcs|].
  split; [exact Hbp|]. rewrite Hfiles, Hbp.
  assert (Hbk : backup_of cfg p w <> p) by (rewrite Hd; apply backup_neq).
  split; [apply lookup_insert_eq|].
  split; [rewrite lookup_insert_ne by (intros E; now apply Hneq);
          apply lookup_delete_eq|].
  split.
  - intros Hbt. rewrite lookup_insert_ne by (intros E; now apply Hbk).
    rewrite lookup_delete_ne by (intros E; now apply Hbt).
    apply lookup_insert_eq.
  - intros q Hq1 Hq2 Hq3.
    rewrite lookup_insert_ne by congruence.
    rewrite lookup_delete_ne by congruence.
    now rewrite lookup_insert_ne by congruence.
Qed.

Lemma guarded_write_replaces_file_witness :
  let cfg := Examples.cfg in
  let w := Examples.apache_world "1s" in
  let p := module_config_path cfg "Apache" in
  let b := Examples.flow_dump (Examples.module_doc 5 "1s") in
  files w !! p = Some b
  /\ exists r w',
       write_module_config cfg "Apache" (Examples.module_doc 5 "10s")
         (md5_hexdigest cfg b) w = (Ok r, w')
       /\ files w' !! p = Some (Examples.flow_dump (Examples.module_doc 5 "10s"))
       /\ files w' !! ["backups"; "conf.yml.bak.20240101_120000"] = Some b
       /\ files w' !! ["conf.d"; "Apache"; "conf.tmp"] = None.
Proof.
  intros cfg w p b.
  assert (Hb : files w !! p = Some b) by (vm_compute; reflexivity).
  split; [exact Hb|].
  destruct (guarded_write_replaces_file cfg "Apache" "status"
              (Examples.module_doc 5 "10s") p b w
              (or_intror (or_introl eq_refl)) Hb eq_refl)
    as (r & w' & Hrun & _ & _ & Hbp & Hp & Ht & Hbk & _).
  exists r, w'. split; [exact Hrun|]. split; [exact Hp|].
  split; [|exact Ht].
  rewrite Hbp in Hbk. apply Hbk. vm_compute. discriminate.
Defined.

(** X2. When the backup copy fails, a write with the right checksum
    raises the error of the copy and has done nothing but read the file
    to hash it: no temporary file is opened and no file changes. *)
Theorem failed_backup_stops_write (cfg : settings)
    (module_name submodule_name : string) (data : pyobj) (w : world) :
  copy_fails (env w) = true ->
  (forall b, files w !! main_config_path cfg = Some b ->
     write_main_config cfg data (md5_hexdigest cfg b) w
     = (Raise OSError, record (EvRead (main_config_path cfg)) w))
  /\ (forall b, files w !! module_config_path cfg module_name = Some b ->
      write_module_config cfg module_name data (md5_hexdigest cfg b) w
      = (Raise OSError, record (EvRead (module_config_path cfg module_name)) w))
  /\ (forall b,
      files w !! submodule_config_path cfg module_name submodule_name = Some b ->
      write_submodule_config cfg module_name submodule_name data
        (md5_hexdigest cfg b) w
      = (Raise OSError,
         record (EvRead (submodule_config_path cfg module_name submodule_name))
           w)).
Proof.
  intros Hc.
  repeat split; intros b Hb; now apply (write_backup_fails cfg _ data _ b).
Qed.

Lemma failed_backup_stops_write_witness :
  let cfg := Examples.cfg in
  let w := Examples.failing_copy_world in
  let b := Examples.flow_dump (Examples.module_doc 5 "1s") in
  copy_fails (env w) = true
  /\ files w !! module_config_path cfg "Apache" = Some b
  /\ write_module_config cfg "Apache" (PDict []) (md5_hexdigest cfg b) w
     = (Raise OSError, record (EvRead (module_config_path cfg "Apache")) w).
Proof.
  intros cfg w b.
  assert (Hb : files w !! module_config_path cfg "Apache" = Some b)
    by (vm_compute; reflexivity).
  split; [reflexivity|]. split; [exact Hb|].
  exact (proj1 (proj2 (failed_backup_stops_write cfg "Apache" "status"
                         (PDict []) w eq_refl)) b Hb).
Defined.

(** X3. The checksum that a read returns admits one write. After
    [read_*_config] has returned [(data, checksum)], a write with that
    checksum succeeds; when it has changed the digest of the file, a
    second write with the same checksum fails with
    ConcurrentModification and changes no file, while a write with the
    checksum that the first write returned succeeds. *)
Theorem checksum_admits_one_write (cfg : settings)
    (module_name submodule_name : string) (p : path)
    (data data1 data2 : pyobj) (checksum : string) (w w1 : world) :
  p = main_config_path cfg \/ p = module_config_path cfg module_name
  \/ p = submodule_config_path cfg module_name submodule_name ->
  env w = no_faults ->
  read_config_at cfg p w = (Ok (data, checksum), w1) ->
  md5_hexdigest cfg (yaml_dump cfg data1) <> checksum ->
  exists r w2,
    write_config_at cfg p data1 checksum w1 = (Ok r, w2)
    /\ files w2 !! p = Some (yaml_dump cfg data1)
    /\ write_config_at cfg p data2 checksum w2
       = (Raise ConcurrentModification, record (EvRead p) w2)
    /\ exists r' w3,
         write_config_at cfg p data2 (new_checksum r) w2 = (Ok r', w3)
         /\ files w3 !! p = Some (yaml_dump cfg data2).
Proof.
  intros Hp Henv Hread Hne.
  destruct (config_path_cases cfg module_name submodule_name p Hp)
    as (d & nm & Hd & Hneq).
  destruct (read_config_at_ok cfg p data checksum w w1 Hread)
    as (b & Hb & _ & -> & Hf1 & He1 & _).
  assert (Hb1 : files w1 !! p = Some b) by now rewrite Hf1.
  assert (Henv1 : env w1 = no_faults) by now rewrite He1.
  destruct (write_success cfg p data1 _ b w1 Hb1 eq_refl Henv1 Hneq)
    as (r & w2 & Hrun & _ & _ & Hcs & Hfiles & He2 & _).
  assert (Hb2 : files w2 !! p = Some (yaml_dump cfg data1))
    by (rewrite Hfiles; apply lookup_insert_eq).
  exists r, w2. split; [exact Hrun|]. split; [exact Hb2|].
  split; [now apply (write_stale cfg p data2 _ (yaml_dump cfg data1))|].
  assert (Henv2 : env w2 = no_faults) by now rewrite He2.
  destruct (write_success cfg p data2 (new_checksum r) _ w2 Hb2
              (eq_sym Hcs) Henv2 Hneq)
    as (r' & w3 & Hrun' & _ & _ & _ & Hfiles' & _).
  exists r', w3. split; [exact Hrun'|].
  rewrite Hfiles'. apply lookup_insert_eq.
Qed.

Lemma checksum_admits_one_write_witness :
  let cfg := Examples.cfg in
  let w := Examples.apache_world "1s" in
  let p := module_config_path cfg "Apache" in
  let b := Examples.flow_dump (Examples.module_doc 5 "1s") in
  let w1 := record (EvRead p) (record (EvRead p) w) in
  read_module_config cfg "Apache" w = (Ok (Examples.module_doc 5 "1s", b), w1)
  /\ exists r w2,
       write_module_config cfg "Apache" (Examples.module_doc 5 "10s") b w1
       = (Ok r, w2)
       /\ write_module_config cfg "Apache" (Examples.module_doc 5 "1s") b w2
          = (Raise ConcurrentModification, record (EvRead p) w2).
Proof.
  intros cfg w p b w1.
  assert (Hread : read_config_at cfg p w
                  = (Ok (Examples.module_doc 5 "1s", b), w1))
    by (vm_compute; reflexivity).
  split; [exact Hread|].
  destruct (checksum_admits_one_write cfg "Apache" "status" p
              (Examples.module_doc 5 "1s") (Examples.module_doc 5 "10s")
              (Examples.module_doc 5 "1s") b w w1
              (or_intror (or_introl eq_refl)) eq_refl Hread)
    as (r & w2 & Hrun & _ & Hstale & _).
  - vm_compute. discriminate.
  - exists r, w2. split; [exact Hrun | exact Hstale].
Defined.

(** X4. A write to a file that does not exist raises NotFound whatever
    checksum it is given, and creates nothing: no file, no backup and
    no temporary file; the read of such a file raises NotFound as well.
    The store cannot be used to create a configuration file. *)
Theorem missing_file_is_not_created (cfg : settings)
    (module_name submodule_name : string) (data : pyobj)
    (original_checksum : string) (w : world) :
  (exists_ (files w) (main_config_path cfg) = false ->
   write_main_config cfg data original_checksum w = (Raise NotFound, w)
   /\ read_main_config cfg w = (Raise NotFound, w))
  /\ (exists_ (files w) (module_config_path cfg module_name) = false ->
      write_module_config cfg module_name data original_checksum w
      = (Raise NotFound, w)
      /\ read_module_config cfg module_name w = (Raise NotFound, w))
  /\ (exists_ (files w) (submodule_config_path cfg module_name submodule_name)
      = false ->
      write_submodule_config cfg module_name submodule_name data
        original_checksum w = (Raise NotFound, w)
      /\ read_submodule_config cfg module_name submodule_name w
         = (Raise NotFound, w)).
Proof.
  assert (H : forall p, exists_ (files w) p = false ->
              write_config_at cfg p data original_checksum w
              = (Raise NotFound, w)
              /\ read_config_at cfg p w = (Raise NotFound, w)).
  { intros p He. unfold exists_, is_file in He.
    destruct (files w !! p) eqn:Hp; [discriminate|]. cbn [orb] in He.
    split.
    - unfold write_config_at, _calculate_checksum, read_file. run.
      now rewrite Hp, He.
    - unfold read_config_at. run. unfold exists_, is_file.
      now rewrite Hp, He. }
  split; [|split]; intros He; apply H; exact He.
Qed.

Lemma missing_file_is_not_created_witness :
  let cfg := Examples.cfg in
  let w := Examples.apache_world "1s" in
  exists_ (files w) (submodule_config_path cfg "Apache" "slow") = false
  /\ write_submodule_config cfg "Apache" "slow" (Examples.with_key 10)
       "0000" w = (Raise NotFound, w).
Proof.
  intros cfg w.
  assert (He : exists_ (files w) (submodule_config_path cfg "Apache" "slow")
               = false) by (vm_compute; reflexivity).
  split; [exact He|].
  exact (proj1 (proj2 (proj2 (missing_file_is_not_created cfg "Apache" "slow"
                                (Examples.with_key 10) "0000" w)) He)).
Defined.

(** *** The mutators *)

Lemma assoc_get_set_ne d k k' x :
  k' <> k -> assoc_get (assoc_set d k x) k' = assoc_get d k'.
Proof.
  intros Hne. induction d as [|[k0 v0] d IH]; simpl.
  - apply String.eqb_neq in Hne. rewrite String.eqb_sym in Hne.
    now rewrite Hne.
  - destruct (String.eqb k0 k) eqn:E; simpl.
    + apply String.eqb_eq in E. subst k0.
      apply String.eqb_neq in Hne. rewrite String.eqb_sym in Hne.
      now rewrite Hne.
    + now rewrite IH.
Qed.

Lemma assoc_set_keys_present d k x v :
  assoc_get d k = Some v -> List.map fst (assoc_set d k x) = List.map fst d.
Proof.
  induction d as [|[k0 v0] d IH]; simpl; [discriminate|].
  destruct (String.eqb k0 k) eqn:E; simpl; [reflexivity|].
  intros H. now rewrite IH.
Qed.

Lemma assoc_set_keys_absent d k x :
  assoc_get d k = None -> List.map fst (assoc_set d k x) = List.map fst d ++ [k].
Proof.
  induction d as [|[k0 v0] d IH]; simpl; [reflexivity|].
  destruct (String.eqb k0 k) eqn:E; simpl; [discriminate|].
  intros H. now rewrite IH.
Qed.

Lemma set_num_uniq_key_cases d v :
  set_num_uniq_key (PDict d) v
  = match assoc_get d "uniquekey" with
    | None =>
        Ok (PDict (assoc_set (assoc_set d "uniquekey" (PDict [])) "uniquekey"
                     (PDict [("NumUniqKey", v)])))
    | Some (PDict u) =>
        Ok (PDict (assoc_set d "uniquekey" (PDict (assoc_set u "NumUniqKey" v))))
    | Some _ => Raise TypeError
    end.
Proof.
  unfold set_num_uniq_key. cbn [contains bind].
  destruct (assoc_get d "uniquekey") as [x|] eqn:Hx; cbn [negb bind].
  - cbn [getitem]. rewrite Hx. cbn [bind]. destruct x; reflexivity.
  - cbn [setitem bind getitem]. rewrite assoc_get_set_eq. reflexivity.
Qed.

Section Mutators.
Variable cfg : settings.

(** A mutator of a file that loads and has the checksum: the document
    is changed and written. *)
Lemma mutate_ok p (change : pyobj -> result pyobj) original_checksum b
    data data' (w : world) :
  files w !! p = Some b ->
  yaml_load cfg b = Some data ->
  md5_hexdigest cfg b = original_checksum ->
  change data = Ok data' ->
  env w = no_faults ->
  with_suffix p ".tmp" <> p ->
  exists r w',
    (do* (data, current_checksum) <- read_config_at cfg p;
     if negb (String.eqb current_checksum original_checksum)
     then raise (ValueError ModifiedSinceRead)
     else do* data <- lift (change data);
          write_config_at cfg p data original_checksum) w = (Ok r, w')
    /\ success r = true
    /\ new_checksum r = md5_hexdigest cfg (yaml_dump cfg data')
    /\ files w' !! p = Some (yaml_dump cfg data').
Proof.
  intros Hb Hl Hcs Hch Henv Hneq.
  set (w1 := record (EvRead p) (record (EvRead p) w)).
  destruct (write_success cfg p data' original_checksum b w1)
    as (r & w' & Hrun & Hs & _ & Hn & Hfiles & _); try assumption.
  exists r, w'. split.
  - run. rewrite (read_config_at_file cfg p b data w Hb Hl). fold w1.
    apply String.eqb_eq in Hcs. rewrite Hcs. cbn [negb]. rewrite Hch.
    exact Hrun.
  - split; [exact Hs|]. split; [exact Hn|]. rewrite Hfiles.
    apply lookup_insert_eq.
Qed.

(** A mutator whose change raises: the file has only been read. *)
Lemma mutate_raises p (change : pyobj -> result pyobj) original_checksum b
    data e (w : world) :
  files w !! p = Some b ->
  yaml_load cfg b = Some data ->
  md5_hexdigest cfg b = original_checksum ->
  change data = Raise e ->
  (do* (data, current_checksum) <- read_config_at cfg p;
   if negb (String.eqb current_checksum original_checksum)
   then raise (ValueError ModifiedSinceRead)
   else do* data <- lift (change data);
        write_config_at cfg p data original_checksum) w
  = (Raise e, record (EvRead p) (record (EvRead p) w)).
Proof.
  intros Hb Hl Hcs Hch.
  run. rewrite (read_config_at_file cfg p b data w Hb Hl).
  apply String.eqb_eq in Hcs. rewrite Hcs. cbn [negb]. now rewrite Hch.
Qed.

End Mutators.

(** X5. [update_module_period] validates the period by parsing it: a
    non-empty string that, stripped of white space, is not
    <integer><unit> is refused with the ValueError of the period and
    nothing is read or written. A period that parses is put into the
    document as it was given, every other key staying as it is, and the
    document is written. The empty string, [None] and a padded string
    parse, so they pass the validation too. *)
Theorem period_update_validates_by_parsing (cfg : settings)
    (module_name : string) (original_checksum : string) (w : world) :
  (forall s, s <> EmptyString ->
     (forall d u, ~ Duration.integer_unit (strip s) d u) ->
     update_module_period cfg module_name (PStr s) original_checksum w
     = (Raise (ValueError InvalidPeriodFormat), w))
  /\ (forall period sec b d,
      Duration._parse_duration period = Ok sec ->
      files w !! module_config_path cfg module_name = Some b ->
      yaml_load cfg b = Some (PDict d) ->
      md5_hexdigest cfg b = original_checksum ->
      env w = no_faults ->
      exists r w',
        update_module_period cfg module_name period original_checksum w
        = (Ok r, w')
        /\ success r = true
        /\ files w' !! module_config_path cfg module_name
           = Some (yaml_dump cfg (PDict (assoc_set d "period" period)))
        /\ assoc_get (assoc_set d "period" period) "period" = Some period
        /\ (forall k, k <> "period" ->
            assoc_get (assoc_set d "period" period) k = assoc_get d k))
  /\ (exists sec, Duration._parse_duration (PStr EmptyString) = Ok sec)
  /\ (exists sec, Duration._parse_duration PNone = Ok sec)
  /\ (exists sec, Duration._parse_duration (PStr " 5m ") = Ok sec).
Proof.
  split.
  { intros s Hs Hshape. unfold update_module_period.
    now rewrite (DurationFacts.parse_duration_unshaped s Hs Hshape). }
  split.
  { intros period sec b d Hparse Hb Hl Hcs Henv.
    destruct (mutate_ok cfg (module_config_path cfg module_name)
                (fun data => setitem data "period" period) original_checksum
                b (PDict d) (PDict (assoc_set d "period" period)) w
                Hb Hl Hcs eq_refl Henv (module_temp_neq cfg module_name))
      as (r & w' & Hrun & Hs & _ & Hfile).
    exists r, w'. unfold update_module_period. rewrite Hparse.
    split; [exact Hrun|]. split; [exact Hs|]. split; [exact Hfile|].
    split; [apply assoc_get_set_eq|].
    intros k Hk. now apply assoc_get_set_ne. }
  repeat split; eexists; vm_compute; reflexivity.
Qed.

Lemma period_update_validates_by_parsing_witness :
  let cfg := Examples.cfg in
  let w := Examples.apache_world "1s" in
  let b := Examples.flow_dump (Examples.module_doc 5 "1s") in
  update_module_period cfg "Apache" (PStr "1.5s") b w
  = (Raise (ValueError InvalidPeriodFormat), w)
  /\ exists r w',
       update_module_period cfg "Apache" (PStr "10s") b w = (Ok r, w')
       /\ files w' !! module_config_path cfg "Apache"
          = Some (Examples.flow_dump (Examples.module_doc 5 "10s")).
Proof.
  intros cfg w b.
  pose proof (period_update_validates_by_parsing cfg "Apache" b w)
    as (Hbad & Hgood & _).
  split.
  - apply Hbad; [discriminate|].
    intros d u H.
    pose proof (DurationFacts.re_match_shape _ _ _ H) as Hm.
    vm_compute in Hm. discriminate Hm.
  - destruct (Hgood (PStr "10s") (PyFloat.of_Z 10) b
                [("enabled", PBool true);
                 ("uniquekey", PDict [("NumUniqKey", PInt 5)]);
                 ("period", PStr "1s");
                 ("Include_sub_modules", PList [PStr "status"; PStr "access"])])
      as (r & w' & Hrun & _ & Hfile & _).
    + vm_compute. reflexivity.
    + vm_compute. reflexivity.
    + vm_compute. reflexivity.
    + reflexivity.
    + reflexivity.
    + exists r, w'. split; [exact Hrun | exact Hfile].
Defined.

(** X6. [update_module_uniquekey] and [update_submodule_uniquekey]
    with a value within the bounds, on a file that loads to a mapping
    and has the checksum: when the [uniquekey] section is absent or a
    mapping, the file is rewritten with [NumUniqKey] set in that
    section, and every other key of the document and of the section
    keeps its value; when [uniquekey] holds something else (a number,
    a string, a list), the mutator raises TypeError and no file
    changes. *)
Theorem key_update_keeps_the_rest (cfg : settings)
    (module_name submodule_name : string) (num_uniquekey : pyobj)
    (original_checksum : string) (w : world)
    (p : path) (run : M write_result) (b : string)
    (d : list (string * pyobj)) :
  (p = module_config_path cfg module_name
   /\ run = update_module_uniquekey cfg module_name num_uniquekey
              original_checksum)
  \/ (p = submodule_config_path cfg module_name submodule_name
      /\ run = update_submodule_uniquekey cfg module_name submodule_name
                 num_uniquekey original_checksum) ->
  key_out_of_bounds cfg num_uniquekey = false ->
  files w !! p = Some b ->
  yaml_load cfg b = Some (PDict d) ->
  md5_hexdigest cfg b = original_checksum ->
  env w = no_faults ->
  (assoc_get d "uniquekey" = None
   \/ (exists u, assoc_get d "uniquekey" = Some (PDict u)) ->
   exists r w' d' u',
     run w = (Ok r, w')
     /\ files w' !! p = Some (yaml_dump cfg (PDict d'))
     /\ assoc_get d' "uniquekey" = Some (PDict u')
     /\ assoc_get u' "NumUniqKey" = Some num_uniquekey
     /\ (forall k, k <> "uniquekey" -> assoc_get d' k = assoc_get d k)
     /\ (forall u k, assoc_get d "uniquekey" = Some (PDict u) ->
         k <> "NumUniqKey" -> assoc_get u' k = assoc_get u k))
  /\ (forall x, assoc_get d "uniquekey" = Some x -> is_dict x = false ->
      exists w', run w = (Raise TypeError, w') /\ files w' = files w).
Proof.
  intros Hrun Hin Hb Hl Hcs Henv.
  assert (Hneq : with_suffix p ".tmp" <> p).
  { destruct Hrun as [[-> _] | [-> _]];
      [apply module_temp_neq | apply submodule_temp_neq]. }
  assert (Hunfold : run
                    = (do* (data, current_checksum) <- read_config_at cfg p;
                       if negb (String.eqb current_checksum original_checksum)
                       then raise (ValueError ModifiedSinceRead)
                       else do* data <- lift (set_num_uniq_key data num_uniquekey);
                            write_config_at cfg p data original_checksum)).
  { destruct Hrun as [[-> ->] | [-> ->]];
      [unfold update_module_uniquekey | unfold update_submodule_uniquekey];
      now rewrite Hin. }
  rewrite Hunfold. split.
  - intros Hsec. pose proof (set_num_uniq_key_cases d num_uniquekey) as Hset.
    destruct Hsec as [Hnone | [u Hu]].
    + rewrite Hnone in Hset.
      destruct (mutate_ok cfg p (fun data => set_num_uniq_key data num_uniquekey)
                  original_checksum b (PDict d) _ w Hb Hl Hcs Hset Henv Hneq)
        as (r & w' & Hgo & _ & _ & Hfile).
      exists r, w'. do 2 eexists. split; [exact Hgo|]. split; [exact Hfile|].
      split; [apply assoc_get_set_eq|]. split; [reflexivity|]. split.
      * intros k Hk. now rewrite !assoc_get_set_ne by exact Hk.
      * intros u k Hu. congruence.
    + rewrite Hu in Hset.
      destruct (mutate_ok cfg p (fun data => set_num_uniq_key data num_uniquekey)
                  original_checksum b (PDict d) _ w Hb Hl Hcs Hset Henv Hneq)
        as (r & w' & Hgo & _ & _ & Hfile).
      exists r, w'. do 2 eexists. split; [exact Hgo|]. split; [exact Hfile|].
      split; [apply assoc_get_set_eq|]. split; [apply assoc_get_set_eq|].
      split.
      * intros k Hk. now apply assoc_get_set_ne.
      * intros u0 k Hu0 Hk. rewrite Hu in Hu0. injection Hu0 as <-.
        now apply assoc_get_set_ne.
  - intros x Hx Hdict.
    pose proof (set_num_uniq_key_cases d num_uniquekey) as Hset.
    rewrite Hx in Hset.
    assert (Hraise : set_num_uniq_key (PDict d) num_uniquekey = Raise TypeError)
      by (destruct x; try exact Hset; discriminate Hdict).
    eexists. split.
    + exact (mutate_raises cfg p (fun data => set_num_uniq_key data num_uniquekey)
               original_checksum b (PDict d) TypeError w Hb Hl Hcs Hraise).
    + reflexivity.
Qed.

Lemma key_update_keeps_the_rest_witness :
  let cfg := Examples.cfg in
  let w := Examples.apache_world "1s" in
  let p := module_config_path cfg "Apache" in
  let b := Examples.flow_dump (Examples.module_doc 5 "1s") in
  key_out_of_bounds cfg (PInt 7) = false
  /\ files w !! p = Some b
  /\ exists r w' d',
       update_module_uniquekey cfg "Apache" (PInt 7) b w = (Ok r, w')
       /\ files w' !! p = Some (yaml_dump cfg (PDict d'))
       /\ assoc_get d' "period" = Some (PStr "1s")
       /\ assoc_get d' "enabled" = Some (PBool true).
Proof.
  intros cfg w p b.
  assert (Hb : files w !! p = Some b) by (vm_compute; reflexivity).
  split; [reflexivity|]. split; [exact Hb|].
  destruct (proj1 (key_update_keeps_the_rest cfg "Apache" "status" (PInt 7) b w
                     p _ b
                     [("enabled", PBool true);
                      ("uniquekey", PDict [("NumUniqKey", PInt 5)]);
                      ("period", PStr "1s");
                      ("Include_sub_modules",
                       PList [PStr "status"; PStr "access"])]
                     (or_introl (conj eq_refl eq_refl)) eq_refl Hb
                     ltac:(vm_compute; reflexivity) eq_refl eq_refl))
    as (r & w' & d' & u' & Hrun & Hfile & _ & _ & Hframe & _).
  - right. eexists. reflexivity.
  - exists r, w', d'. split; [exact Hrun|]. split; [exact Hfile|].
    split; rewrite Hframe by discriminate; reflexivity.
Defined.

End WriteProtocol.

(** ** The range of the duration parser *)

Module DurationRange.
Import PyFloat PyStr PyObj Duration PyFloatFacts PyStrFacts DurationFacts.

Lemma digit_value_range c : is_digit c = true -> 0 <= digit_value c <= 9.
Proof.
  unfold is_digit, digit_value. intros [H1 H2]%andb_prop.
  apply N.leb_le in H1, H2. lia.
Qed.

Lemma int_of_digits_acc_nonneg d :
  all_digits d = true -> forall acc, 0 <= acc -> 0 <= int_of_digits_acc acc d.
Proof.
  induction d as [|c d IH]; simpl; intros Hd acc Hacc; [exact Hacc|].
  apply andb_prop in Hd as [Hc Hd]. apply IH; [exact Hd|].
  pose proof (digit_value_range c Hc). lia.
Qed.

Lemma mul_zero_unit k : 0 < k < 2 ^ 53 -> mul (S754_zero false) (of_Z k) = S754_zero false.
Proof.
  intros [H0 H]. destruct k as [|p|p]; try lia.
  rewrite of_Z_pos by (apply digits_le_53; assumption). reflexivity.
Qed.

Lemma strip_minus r : exists t, strip (String "-" r) = String "-" t.
Proof.
  unfold strip. cbn [lstrip]. change (is_space "-") with false. cbv iota.
  cbn [rstrip]. destruct (rstrip r); eexists; reflexivity.
Qed.

(** X7. The text that [_format_duration] prints for a negative whole
    number of seconds is not a duration: [_parse_duration] refuses it
    with InvalidFormat. *)
Theorem negative_seconds_do_not_round_trip (x : Z) :
  x < 0 ->
  exists t,
    _format_duration (NumInt x) = Ok t
    /\ t = str_of_int (x * 1000) +:+ "ms"
    /\ _parse_duration (PStr t) = Raise InvalidFormat.
Proof.
  intros Hx. exists (str_of_int (x * 1000) +:+ "ms").
  split; [|split; [reflexivity|]].
  - unfold _format_duration. now rewrite (proj2 (Z.ltb_lt x 1)) by lia.
  - destruct (x * 1000) as [|p|p] eqn:E; try lia.
    unfold str_of_int. cbn [Z.to_int NilZero.string_of_int]. sapp.
    unfold _parse_duration. cbn [truthy String.eqb negb].
    destruct (strip_minus (NilZero.string_of_uint (Pos.to_uint p) +:+ "ms"))
      as [t ->].
    reflexivity.
Qed.

Lemma negative_seconds_do_not_round_trip_witness :
  -5 < 0
  /\ _format_duration (NumInt (-5)) = Ok "-5000ms"
  /\ _parse_duration (PStr "-5000ms") = Raise InvalidFormat.
Proof.
  assert (H : -5 < 0) by lia.
  split; [exact H|].
  destruct (negative_seconds_do_not_round_trip (-5) H) as (t & Hf & Ht & Hp).
  vm_compute in Ht. subst t. split; [exact Hf | exact Hp].
Defined.

(** X8. Seconds, minutes and hours parse exactly: for a run of digits
    [d] (leading zeros allowed) whose number, times the 1, 60 or 3600 of
    the unit, is below 2^53, [_parse_duration] of [d] and the unit
    returns the float whose value is that product. *)
Theorem whole_units_parse_exactly (d : string) (u : duration_unit) (k : Z) :
  (u = UnitS /\ k = 1) \/ (u = UnitM /\ k = 60) \/ (u = UnitH /\ k = 3600) ->
  d <> EmptyString ->
  all_digits d = true ->
  int_of_digits d * k < 2 ^ 53 ->
  exists f,
    _parse_duration (PStr (d +:+ unit_text u)) = Ok f
    /\ (to_Q f == inject_Z (int_of_digits d * k))%Q.
Proof.
  intros Hu Hne Hd Hlt.
  assert (Hk : 0 < k < 2 ^ 53 /\ multipliers u = of_Z k).
  { destruct Hu as [[-> ->] | [[-> ->] | [-> ->]]]; (split; [lia|reflexivity]). }
  destruct Hk as [Hk Hm].
  assert (Hn : 0 <= int_of_digits d)
    by (apply int_of_digits_acc_nonneg; [exact Hd | lia]).
  assert (Hs : no_space (d +:+ unit_text u) = true)
    by auto using no_space_app, all_digits_no_space, unit_text_no_space.
  assert (Hnonempty : d +:+ unit_text u <> EmptyString).
  { destruct d; [congruence|]. sapp. discriminate. }
  rewrite (parse_duration_shaped _ d u Hnonempty)
    by (rewrite strip_no_space by exact Hs; repeat split; assumption).
  rewrite Hm.
  destruct (Z.eq_dec (int_of_digits d) 0) as [E|E].
  - rewrite E. exists (S754_zero false). split; [|reflexivity].
    change (float_of_int 0) with (Ok (S754_zero false)). cbn [bind].
    now rewrite mul_zero_unit.
  - apply float_times_unit; lia.
Qed.

Lemma whole_units_parse_exactly_witness :
  exists f,
    _parse_duration (PStr "0090m") = Ok f
    /\ (to_Q f == inject_Z 5400)%Q.
Proof.
  destruct (whole_units_parse_exactly "0090" UnitM 60) as (f & Hf & Hq).
  - right. left. split; reflexivity.
  - discriminate.
  - reflexivity.
  - vm_compute. reflexivity.
  - exists f. split; [exact Hf | exact Hq].
Defined.

(** *** Signs *)

Lemma round_aux_not_negative mx ex lx :
  ltb (binary_round_aux prec emax false mx ex lx) (S754_zero false) = false.
Proof.
  unfold binary_round_aux.
  destruct (shr_fexp prec emax mx ex lx) as [mrs' e'].
  destruct (shr_fexp prec emax _ e' loc_Exact) as [mrs'' e''].
  destruct (shr_m mrs''); [reflexivity| |reflexivity].
  destruct (Z.leb e'' (emax - prec)); reflexivity.
Qed.

Lemma of_Z_not_negative n : 0 <= n -> ltb (of_Z n) (S754_zero false) = false.
Proof.
  intros Hn. destruct n as [|p|p]; [reflexivity| |lia].
  unfold of_Z, binary_normalize, binary_round.
  destruct (shl_align p 0 _) as [mz ez]. apply round_aux_not_negative.
Qed.

Lemma mul_not_negative x y :
  ltb x (S754_zero false) = false -> ltb y (S754_zero false) = false ->
  ltb (mul x y) (S754_zero false) = false.
Proof.
  destruct x as [sx|sx| |sx mx ex], y as [sy|sy| |sy my ey];
    try reflexivity;
    try (destruct sx; (discriminate || (destruct sy; (discriminate || reflexivity)))).
  destruct sx; [discriminate|]. destruct sy; [discriminate|].
  intros _ _. apply round_aux_not_negative.
Qed.

Lemma multipliers_not_negative u :
  ltb (multipliers u) (S754_zero false) = false.
Proof. destruct u; vm_compute; reflexivity. Qed.

Lemma float_of_int_then n (k : float -> float) sec :
  (let* v := float_of_int n in Ok (k v)) = Ok sec -> sec = k (of_Z n).
Proof.
  unfold float_of_int, bind. destruct (of_Z n); congruence.
Qed.

Lemma parse_duration_sign (duration_str : pyobj) (sec : float) :
  _parse_duration duration_str = Ok sec ->
  ltb sec (S754_zero false) = false
  /\ (leb sec (S754_zero false) = true -> eqb sec (S754_zero false) = true).
Proof.
  intros H.
  assert (Hneg : ltb sec (S754_zero false) = false).
  { unfold _parse_duration in H.
    destruct (negb (truthy duration_str)); [now injection H as <-|].
    destruct duration_str as [| | |s| |]; try discriminate.
    destruct (re_match_duration (strip s)) as [[d u]|] eqn:E; [|discriminate].
    apply re_match_strip_shape in E as (_ & _ & Hd).
    apply float_of_int_then in H. subst sec.
    apply mul_not_negative; [|apply multipliers_not_negative].
    apply of_Z_not_negative, int_of_digits_acc_nonneg; [exact Hd | lia]. }
  split; [exact Hneg|].
  unfold ltb, leb, eqb, SFltb, SFleb, SFeqb in *.
  destruct (SFcompare sec (S754_zero false)) as [[]|]; congruence.
Qed.

(** X9. A parsed duration is never negative: whatever
    [_parse_duration] returns is not below zero, so the guard
    [period_seconds <= 0] of the EPS engine can only meet a zero. *)
Theorem parsed_duration_is_not_negative (duration_str : pyobj) (sec : float) :
  _parse_duration duration_str = Ok sec ->
  ltb sec (S754_zero false) = false
  /\ (leb sec (S754_zero false) = true -> eqb sec (S754_zero false) = true).
Proof.
  exact (parse_duration_sign duration_str sec).
Qed.

Lemma parsed_duration_is_not_negative_witness :
  _parse_duration (PStr "0ms") = Ok (S754_zero false)
  /\ ltb (S754_zero false) (S754_zero false) = false.
Proof.
  assert (H : _parse_duration (PStr "0ms") = Ok (S754_zero false))
    by (vm_compute; reflexivity).
  split; [exact H|].
  exact (proj1 (parsed_duration_is_not_negative _ _ H)).
Defined.

End DurationRange.

(** ** The EPS engine at its edges *)

Module EpsEdges.
Import PyFloat PyObj PyStr FS Duration YamlEditor EpsCalculator.
Import PyFloatFacts YamlEditorFacts EpsFacts DurationRange.

Section Edges.
Variable cfg : settings.

(** *** The loop over the submodules, when a key is no integer *)

Lemma submodule_contributions_raise m names :
  forall details total (w : world),
    contributions_of cfg (files w) m names = None ->
    exists w',
      submodule_contributions cfg m None names details total w
      = (Raise TypeError, w')
      /\ files w' = files w.
Proof.
  induction names as [|nm names IH]; intros details total w; cbn; [discriminate|].
  intros H. run.
  destruct (submodule_contribution_result cfg m nm w) as (w1 & -> & Hf1).
  destruct (contribution_of_key cfg _) as [c|]; [|eauto].
  rewrite <- Hf1 in H.
  destruct (contributions_of cfg (files w1) m names) eqn:E; [discriminate|].
  destruct (IH (details ++ [detail_of nm c]) (total + sd_contribution (detail_of nm c))
              w1 E) as (w' & -> & Hf2).
  exists w'. split; [reflexivity | congruence].
Qed.

(** *** [calculate_eps] with a key and a period given by the caller *)

Lemma calculate_eps_with m given_key given_period (w : world)
    key K period sec cs f :
  key = match given_key with
        | Some k => k
        | None => mc_uniquekey (module_config_of cfg (files w) m)
        end ->
  match given_period with
  | Some p => _parse_duration p = Ok sec /\ period = p
  | None => sec = mc_period_seconds (module_config_of cfg (files w) m)
            /\ period = mc_period (module_config_of cfg (files w) m)
  end ->
  as_int key = Some K ->
  contributions_of cfg (files w) m (submodule_names cfg (files w) m) = Some cs ->
  float_of_int (K * sum_Z cs) = Ok f ->
  exists r w',
    calculate_eps cfg m given_key given_period None w = (Ok r, w')
    /\ files w' = files w
    /\ eps r = div f (guarded_period sec)
    /\ module_uniquekey r = key
    /\ module_period r = period
    /\ module_period_seconds r = guarded_period sec
    /\ total_submodule_contribution r = sum_Z cs
    /\ List.map sd_contribution (submodules r) = cs.
Proof.
  intros Hkey Hper HK Hcs Hf. unfold calculate_eps. run.
  destruct (get_module_config_result cfg m w) as (w1 & -> & Hf1).
  assert (Hlift :
    match given_period with
    | Some p => let* sec0 := _parse_duration_to_seconds p in Ok (p, sec0)
    | None => Ok (mc_period (module_config_of cfg (files w) m),
                  mc_period_seconds (module_config_of cfg (files w) m))
    end = Ok (period, sec)).
  { destruct given_period as [p|]; destruct Hper as [H1 H2].
    - unfold _parse_duration_to_seconds. rewrite H1. cbn [bind]. now subst.
    - now subst. }
  rewrite Hlift. unfold get_submodules. rewrite Hf1.
  rewrite <- Hf1 in Hcs at 1.
  destruct (submodule_contributions_result cfg m _ [] 0 cs w1 Hcs)
    as (ds & w' & -> & Hf2 & Hn & Hc & Hall).
  rewrite <- Hkey, HK. cbn [app]. rewrite Z.add_0_l.
  unfold truediv_int_float. rewrite Hf. cbn [bind].
  fold (guarded_period sec). rewrite guarded_period_nonzero.
  do 2 eexists. split; [reflexivity|].
  cbn [eps total_submodule_contribution submodules module_uniquekey
         module_period_seconds module_period].
  repeat split; auto. congruence.
Qed.

Lemma calculate_eps_bad_period m given_key p overrides e (w : world) :
  _parse_duration p = Raise e ->
  exists w',
    calculate_eps cfg m given_key (Some p) overrides w = (Raise e, w')
    /\ files w' = files w.
Proof.
  intros Hp. unfold calculate_eps. run.
  destruct (get_module_config_result cfg m w) as (w1 & -> & Hf1).
  unfold _parse_duration_to_seconds. rewrite Hp. cbn [bind]. eauto.
Qed.

Lemma calculate_eps_bad_key m given_key (w : world) :
  contributions_of cfg (files w) m (submodule_names cfg (files w) m) = None ->
  exists w',
    calculate_eps cfg m given_key None None w = (Raise TypeError, w')
    /\ files w' = files w.
Proof.
  intros Hcs. unfold calculate_eps. run.
  destruct (get_module_config_result cfg m w) as (w1 & -> & Hf1).
  unfold get_submodules. rewrite Hf1. rewrite <- Hf1 in Hcs at 1.
  destruct (submodule_contributions_raise m _ [] 0 w1 Hcs) as (w' & -> & Hf2).
  exists w'. split; [reflexivity | congruence].
Qed.

Lemma contributions_of_none fs m names nm :
  nm ∈ names ->
  contribution_of_key cfg
    (key_or_default cfg (document cfg fs (submodule_config_path cfg m nm)))
  = None ->
  contributions_of cfg fs m names = None.
Proof.
  intros Hin Hnone. induction names as [|n names IH]; [now apply elem_of_nil in Hin|].
  cbn [contributions_of]. apply elem_of_cons in Hin as [<- | Hin].
  - now rewrite Hnone.
  - rewrite (IH Hin).
    destruct (contribution_of_key cfg
                (key_or_default cfg
                   (document cfg fs (submodule_config_path cfg m n))));
      reflexivity.
Qed.

Lemma module_config_of_bad_period fs m b d v p e :
  fs !! module_config_path cfg m = Some b ->
  yaml_load cfg b = Some (PDict d) ->
  extract_uniquekey cfg (PDict d) = Ok v ->
  assoc_get d "period" = Some p ->
  _parse_duration p = Raise e ->
  module_config_of cfg fs m = default_module_config cfg e.
Proof.
  intros Hb Hl Hv Hp He. unfold module_config_of, read_result.
  rewrite (exists_file fs _ b Hb). cbn [negb]. rewrite Hb, Hl.
  unfold parse_module_config. rewrite Hv. cbn [bind contains].
  rewrite Hp. cbn [bind getitem]. rewrite Hp. cbn [bind].
  unfold _parse_duration_to_seconds. now rewrite He.
Qed.

(** *** What a returned suggestion tells *)

Lemma suggest_inv m target period tolerance (w w1 : world) res :
  suggest_uniquekey_for_target_eps cfg m target period tolerance w
  = (Ok res, w1) ->
  exists cs sec,
    contributions_of cfg (files w) m (submodule_names cfg (files w) m) = Some cs
    /\ _parse_duration
         (match period with
          | None => mc_period (module_config_of cfg (files w) m)
          | Some p => p
          end) = Ok sec
    /\ files w1 = files w
    /\ match res with
       | NoUsableSubmodules => sum_Z cs <= 0
       | Suggested s =>
           0 < sum_Z cs
           /\ sg_module_period s
              = match period with
                | None => mc_period (module_config_of cfg (files w) m)
                | Some p => p
                end
           /\ period_seconds s = sec
           /\ sg_total_submodule_contribution s = sum_Z cs
           /\ 1 <= suggested_module_uniquekey s
           /\ truediv_int_float (suggested_module_uniquekey s * sum_Z cs) sec
              = Ok (expected_eps s)
       end.
Proof.
  unfold suggest_uniquekey_for_target_eps. run.
  destruct (get_module_config_result cfg m w) as (wa & -> & Hfa).
  unfold get_submodules, _parse_duration_to_seconds. rewrite Hfa.
  destruct (_parse_duration _) as [sec|e] eqn:Hp; [|discriminate].
  destruct (contributions_of cfg (files w) m (submodule_names cfg (files w) m))
    as [cs|] eqn:Hcs.
  - rewrite <- Hfa in Hcs at 1.
    destruct (submodule_contributions_result cfg m _ [] 0 cs wa Hcs)
      as (ds & wb & -> & Hfb & _).
    rewrite Z.add_0_l.
    destruct (Z.leb (sum_Z cs) 0) eqn:Hle.
    + intros [= <- <-]. exists cs, sec. rewrite Hfa in Hcs.
      repeat split; [congruence.. | now apply Z.leb_le].
    + apply Z.leb_gt in Hle.
      destruct (float_of_int (sum_Z cs)) as [tf|]; [|discriminate].
      cbn [bind].
      destruct (truediv (mul target sec) tf) as [req|]; [|discriminate].
      cbn [bind].
      destruct (round req) as [k|]; [|discriminate]. cbn [bind].
      destruct (truediv_int_float (Z.max 1 k * sum_Z cs) sec) as [ef|] eqn:Hef;
        [|discriminate].
      cbn [bind].
      destruct (if ltb (S754_zero false) target
                then truediv (abs (sub ef target)) target
                else Ok (S754_zero false)) as [tol|]; [|discriminate].
      cbn [bind]. intros [= <- <-]. exists cs, sec. rewrite Hfa in Hcs.
      cbn [sg_module_period period_seconds sg_total_submodule_contribution
             suggested_module_uniquekey expected_eps].
      repeat split; try congruence; try lia.
  - rewrite <- Hfa in Hcs at 1.
    destruct (submodule_contributions_raise m _ [] 0 wa Hcs) as (wb & -> & _).
    discriminate.
Qed.

(** *** Contributions are at least one *)

Lemma contributions_at_least_one fs m names cs :
  1 <= DEFAULT_UNIQUE_KEY cfg ->
  contributions_of cfg fs m names = Some cs ->
  Forall (fun c => 1 <= c) cs /\ List.length cs = List.length names.
Proof.
  intros Hdef. revert cs.
  induction names as [|nm names IH]; cbn [contributions_of]; intros cs.
  - intros [= <-]. split; [constructor | reflexivity].
  - destruct (contribution_of_key cfg _) as [c|] eqn:Hc; [|discriminate].
    destruct (contributions_of cfg fs m names) as [cs'|]; [|discriminate].
    intros [= <-]. destruct (IH cs' eq_refl) as [Hall Hlen]. split.
    + constructor; [|exact Hall].
      unfold contribution_of_key in Hc.
      destruct (as_int _) as [z|]; [|discriminate]. injection Hc as <-.
      destruct (Z.ltb_spec z 1); lia.
    + cbn. now rewrite Hlen.
Qed.

Lemma sum_at_least_length cs :
  Forall (fun c => 1 <= c) cs -> Z.of_nat (List.length cs) <= sum_Z cs.
Proof.
  induction 1 as [|c cs Hc _ IH]; cbn [sum_Z fold_right List.length]; [lia|].
  fold (sum_Z cs). lia.
Qed.

(** *** The list of the modules *)

Lemma dedup_names_subset l y : In y (dedup_names l) -> In y l.
Proof.
  induction l as [|x l IH]; cbn [dedup_names]; [auto|].
  destruct (existsb (String.eqb x) l); cbn [In]; intuition.
Qed.

Lemma dedup_names_nodup l : List.NoDup (dedup_names l).
Proof.
  induction l as [|x l IH]; cbn [dedup_names]; [constructor|].
  destruct (existsb (String.eqb x) l) eqn:E; [exact IH|].
  constructor; [|exact IH]. intros Hin. apply dedup_names_subset in Hin.
  assert (existsb (String.eqb x) l = true); [|congruence].
  apply existsb_exists. exists x. split; [exact Hin | apply String.eqb_refl].
Qed.

Lemma insert_sorted_perm x l : Permutation (insert_sorted x l) (x :: l).
Proof.
  induction l as [|y l IH]; cbn [insert_sorted]; [reflexivity|].
  destruct (String.leb x y); [reflexivity|].
  rewrite IH. apply perm_swap.
Qed.

Lemma sorted_perm l : Permutation (sorted l) l.
Proof.
  induction l as [|x l IH]; cbn [sorted fold_right]; [reflexivity|].
  fold (sorted l). rewrite insert_sorted_perm. now constructor.
Qed.

Lemma module_names_nodup fs : List.NoDup (module_names cfg fs).
Proof.
  unfold module_names.
  eapply Permutation_NoDup; [symmetry; apply sorted_perm|].
  apply List.NoDup_filter. unfold iterdir. apply dedup_names_nodup.
Qed.

(** *** [calculate_eps] for every module *)

Lemma calculate_eps_keeps_files m (w : world) :
  exists res w',
    calculate_eps cfg m None None None w = (res, w') /\ files w' = files w.
Proof.
  unfold calculate_eps. run.
  destruct (get_module_config_result cfg m w) as (wa & -> & Hfa).
  unfold get_submodules. rewrite Hfa.
  destruct (contributions_of cfg (files w) m (submodule_names cfg (files w) m))
    as [cs|] eqn:Hcs; rewrite <- Hfa in Hcs at 1.
  - destruct (submodule_contributions_result cfg m _ [] 0 cs wa Hcs)
      as (ds & wb & -> & Hfb & _).
    destruct (as_int _); [|do 2 eexists; split; [reflexivity|congruence]].
    destruct (truediv_int_float _ _);
      do 2 eexists; (split; [reflexivity|congruence]).
  - destruct (submodule_contributions_raise m _ [] 0 wa Hcs) as (wb & -> & Hfb).
    do 2 eexists. split; [reflexivity|congruence].
Qed.

Lemma results_set_fresh results k x :
  ~ In k (List.map fst results) ->
  results_set results k x = results ++ [(k, x)].
Proof.
  induction results as [|[k' x'] results IH]; cbn [results_set List.map fst In app];
    [reflexivity|].
  intros H. destruct (String.eqb k' k) eqn:E.
  - apply String.eqb_eq in E. tauto.
  - rewrite IH by tauto. reflexivity.
Qed.

Lemma eps_for_module_result nm results (w : world) :
  ~ In nm (List.map fst results) ->
  exists x w',
    eps_for_module cfg nm results w = (Ok (results ++ [(nm, x)]), w')
    /\ files w' = files w
    /\ calculate_eps cfg nm None None None w
       = (match x with
          | EpsData r => Ok r
          | EpsError e => Raise e
          end, w').
Proof.
  intros Hfresh. unfold eps_for_module. run.
  destruct (calculate_eps_keeps_files nm w) as (res & wa & Hrun & Hfa).
  rewrite Hrun. destruct res as [r|e].
  - exists (EpsData r), wa. rewrite results_set_fresh by exact Hfresh. auto.
  - exists (EpsError e), wa. rewrite results_set_fresh by exact Hfresh. auto.
Qed.

Lemma eps_for_modules_result names :
  forall results (w : world),
    List.NoDup names ->
    (forall k, In k names -> ~ In k (List.map fst results)) ->
    exists added w',
      eps_for_modules cfg names results w = (Ok (results ++ added), w')
      /\ files w' = files w
      /\ List.map fst added = names
      /\ forall m x, In (m, x) added ->
           exists w1 w2,
             files w1 = files w
             /\ calculate_eps cfg m None None None w1
                = (match x with
                   | EpsData r => Ok r
                   | EpsError e => Raise e
                   end, w2).
Proof.
  induction names as [|nm names IH]; intros results w Hnd Hfresh.
  - exists [], w. cbn. rewrite app_nil_r. repeat split; auto. intros ? ? [].
  - inversion Hnd as [|? ? Hnotin Hnd']; subst.
    destruct (eps_for_module_result nm results w (Hfresh nm (in_eq _ _)))
      as (x & wa & Hone & Hfa & Hcalc).
    destruct (IH (results ++ [(nm, x)]) wa Hnd')
      as (added & w' & Hrest & Hf & Hk & Hall).
    { intros k Hk. rewrite List.map_app, in_app_iff. cbn.
      intros [H | [<- | []]]; [|contradiction].
      apply (Hfresh k); [now right | exact H]. }
    exists ((nm, x) :: added), w'. split; [|split; [congruence|split]].
    + cbn [eps_for_modules]. unfold bindM. rewrite Hone, Hrest.
      now rewrite <- app_assoc.
    + cbn. now rewrite Hk.
    + intros m y [[= <- <-] | Hin].
      * exists w, wa. split; [reflexivity | exact Hcalc].
      * destruct (Hall m y Hin) as (w1 & w2 & Hf1 & Hc).
        exists w1, w2. split; [congruence | exact Hc].
Qed.

End Edges.

(** X10. A module file whose [period] does not parse loses its key as
    well: [get_module_config] catches the error of the parser and
    returns the whole default configuration, so [calculate_eps] computes
    with [DEFAULT_UNIQUE_KEY] and one second, whatever [NumUniqKey] the
    file holds. *)
Theorem malformed_period_discards_key (cfg : settings) (module_name : string)
    (w : world) (b : string) (d : list (string * pyobj)) (v p : pyobj)
    (e : exn) :
  files w !! module_config_path cfg module_name = Some b ->
  yaml_load cfg b = Some (PDict d) ->
  extract_uniquekey cfg (PDict d) = Ok v ->
  assoc_get d "period" = Some p ->
  _parse_duration p = Raise e ->
  (exists w',
     get_module_config cfg module_name w
     = (Ok {| mc_uniquekey := PInt (DEFAULT_UNIQUE_KEY cfg);
              mc_period := PStr "1s"; mc_period_seconds := of_Z 1;
              mc_full_config := PDict []; mc_error := Some e |}, w'))
  /\ (forall cs f,
      contributions_of cfg (files w) module_name
        (submodule_names cfg (files w) module_name) = Some cs ->
      float_of_int (DEFAULT_UNIQUE_KEY cfg * sum_Z cs) = Ok f ->
      exists r w',
        calculate_eps cfg module_name None None None w = (Ok r, w')
        /\ module_uniquekey r = PInt (DEFAULT_UNIQUE_KEY cfg)
        /\ module_period_seconds r = of_Z 1
        /\ eps r = div f (of_Z 1)).
Proof.
  intros Hb Hl Hv Hp He.
  pose proof (module_config_of_bad_period cfg (files w) module_name b d v p e
                Hb Hl Hv Hp He) as Hdef.
  split.
  - destruct (get_module_config_result cfg module_name w) as (w' & Hg & _).
    exists w'. rewrite Hg, Hdef. reflexivity.
  - intros cs f Hcs Hf.
    destruct (calculate_eps_with cfg module_name None None w
                (PInt (DEFAULT_UNIQUE_KEY cfg)) (DEFAULT_UNIQUE_KEY cfg)
                (PStr "1s") (of_Z 1) cs f)
      as (r & w' & Hrun & _ & Heps & Hk & _ & Hs & _); try assumption.
    + now rewrite Hdef.
    + now rewrite Hdef.
    + reflexivity.
    + exists r, w'. auto.
Qed.

Lemma malformed_period_discards_key_witness :
  let cfg := Examples.edge_cfg in
  let w := Examples.apache_world "fast" in
  exists r,
    fst (calculate_eps cfg "Apache" None None None w) = Ok r
    /\ module_uniquekey r = PInt 1
    /\ eps r = of_Z 60.
Proof.
  intros cfg w.
  destruct (proj2 (malformed_period_discards_key cfg "Apache" w
                     (Examples.flow_dump (Examples.module_doc 5 "fast"))
                     [("enabled", PBool true);
                      ("uniquekey", PDict [("NumUniqKey", PInt 5)]);
                      ("period", PStr "fast");
                      ("Include_sub_modules",
                       PList [PStr "status"; PStr "access"])]
                     (PInt 5) (PStr "fast") InvalidFormat
                     ltac:(vm_compute; reflexivity)
                     ltac:(vm_compute; reflexivity)
                     ltac:(vm_compute; reflexivity)
                     ltac:(vm_compute; reflexivity)
                     ltac:(vm_compute; reflexivity))
              [20; 30; 10] (of_Z 60)
              ltac:(vm_compute; reflexivity) ltac:(vm_compute; reflexivity))
    as (r & w' & Hrun & Hk & _ & Heps).
  exists r. rewrite Hrun. split; [reflexivity|]. split; [exact Hk|].
  rewrite Heps. vm_compute. reflexivity.
Defined.

(** X11. A key and a period passed to [calculate_eps] replace those of
    the module file. A period override that does not parse makes
    [calculate_eps] raise the error of the parser (where a bad period
    in the file is caught); one that parses is used, with the guard
    against a period of zero. The key override is used as it is: no
    bound is applied to it. *)
Theorem overrides_replace_file_values (cfg : settings) (module_name : string)
    (K : Z) (p : pyobj) (w : world) :
  (forall e, _parse_duration p = Raise e ->
     exists w',
       calculate_eps cfg module_name (Some (PInt K)) (Some p) None w
       = (Raise e, w')
       /\ files w' = files w)
  /\ (forall sec cs f,
      _parse_duration p = Ok sec ->
      contributions_of cfg (files w) module_name
        (submodule_names cfg (files w) module_name) = Some cs ->
      float_of_int (K * sum_Z cs) = Ok f ->
      exists r w',
        calculate_eps cfg module_name (Some (PInt K)) (Some p) None w
        = (Ok r, w')
        /\ files w' = files w
        /\ module_uniquekey r = PInt K
        /\ module_period r = p
        /\ module_period_seconds r = guarded_period sec
        /\ total_submodule_contribution r = sum_Z cs
        /\ eps r = div f (guarded_period sec)).
Proof.
  split.
  - intros e He. now apply calculate_eps_bad_period.
  - intros sec cs f Hp Hcs Hf.
    destruct (calculate_eps_with cfg module_name (Some (PInt K)) (Some p) w
                (PInt K) K p sec cs f eq_refl (conj Hp eq_refl) eq_refl Hcs Hf)
      as (r & w' & Hrun & Hfiles & Heps & Hk & Hper & Hs & Ht & _).
    exists r, w'. auto 10.
Qed.

Lemma overrides_replace_file_values_witness :
  let cfg := Examples.cfg in
  let w := Examples.apache_world "1s" in
  (exists w',
     calculate_eps cfg "Apache" (Some (PInt (-3))) (Some (PStr "1.5s")) None w
     = (Raise InvalidFormat, w'))
  /\ exists r w',
       calculate_eps cfg "Apache" (Some (PInt (-3))) (Some (PStr "2m")) None w
       = (Ok r, w')
       /\ module_uniquekey r = PInt (-3)
       /\ eps r = literal (-3) 2.
Proof.
  intros cfg w. split.
  - destruct (proj1 (overrides_replace_file_values cfg "Apache" (-3)
                       (PStr "1.5s") w) InvalidFormat
                ltac:(vm_compute; reflexivity)) as (w' & Hrun & _).
    exists w'. exact Hrun.
  - destruct (proj2 (overrides_replace_file_values cfg "Apache" (-3)
                       (PStr "2m") w) (of_Z 120) [20; 30; 10] (of_Z (-180))
                ltac:(vm_compute; reflexivity) ltac:(vm_compute; reflexivity)
                ltac:(vm_compute; reflexivity))
      as (r & w' & Hrun & _ & Hk & _ & _ & _ & Heps).
    exists r, w'. split; [exact Hrun|]. split; [exact Hk|].
    rewrite Heps. vm_compute. reflexivity.
Defined.

(** X12. A submodule key that is no integer (a string, a list, a
    null) is not caught: [calculate_eps] raises TypeError from the
    comparison of the key with 1, and returns no result for the
    module. *)
Theorem non_integer_submodule_key_raises (cfg : settings)
    (module_name submodule_name : string) (given_key : option pyobj)
    (doc v : pyobj) (w : world) :
  submodule_name ∈ submodule_names cfg (files w) module_name ->
  document cfg (files w) (submodule_config_path cfg module_name submodule_name)
  = Some doc ->
  num_uniq_key doc = Some v ->
  as_int v = None ->
  exists w',
    calculate_eps cfg module_name given_key None None w = (Raise TypeError, w')
    /\ files w' = files w.
Proof.
  intros Hin Hdoc Hv Hint. apply calculate_eps_bad_key.
  apply (contributions_of_none cfg _ _ _ submodule_name Hin).
  rewrite Hdoc. unfold key_or_default. rewrite Hv.
  unfold contribution_of_key. now rewrite Hint.
Qed.

Lemma non_integer_submodule_key_raises_witness :
  let cfg := Examples.edge_cfg in
  let w := Examples.text_key_world in
  num_uniq_key Examples.text_key = Some (PStr "ten")
  /\ exists w',
       calculate_eps cfg "Apache" None None None w = (Raise TypeError, w').
Proof.
  intros cfg w. split; [reflexivity|].
  destruct (non_integer_submodule_key_raises cfg "Apache" "status" None
              Examples.text_key (PStr "ten") w) as (w' & Hrun & _).
  - apply list_elem_of_In. vm_compute. auto.
  - vm_compute. reflexivity.
  - reflexivity.
  - reflexivity.
  - exists w'. exact Hrun.
Defined.

(** X13. The suggestion and the calculation agree: when
    [suggest_uniquekey_for_target_eps] returns a suggestion, then
    [calculate_eps] with the suggested key and the period of the
    suggestion returns, and its [eps] is the [expected_eps] of the
    suggestion. *)
Theorem suggestion_is_reproduced_by_calculate (cfg : settings)
    (module_name : string) (target : float) (period : option pyobj)
    (tolerance : float) (w w1 : world) (s : suggestion) :
  suggest_uniquekey_for_target_eps cfg module_name target period tolerance w
  = (Ok (Suggested s), w1) ->
  exists r w2,
    calculate_eps cfg module_name
      (Some (PInt (suggested_module_uniquekey s)))
      (Some (sg_module_period s)) None w1 = (Ok r, w2)
    /\ eps r = expected_eps s
    /\ total_submodule_contribution r = sg_total_submodule_contribution s
    /\ module_period_seconds r = period_seconds s.
Proof.
  intros Hs.
  destruct (suggest_inv cfg module_name target period tolerance w w1 _ Hs)
    as (cs & sec & Hcs & Hp & Hf & Hpos & Hper & Hsec & Htot & Hk & Hef).
  destruct (truediv_int_float_ok _ _ _ Hef) as (nf & Hnf & Heq).
  assert (Hnz : eqb sec (S754_zero false) = false).
  { unfold truediv_int_float in Hef. rewrite Hnf in Hef. cbn [bind] in Hef.
    destruct (eqb sec (S754_zero false)); [discriminate | reflexivity]. }
  assert (Hguard : guarded_period sec = sec).
  { unfold guarded_period. destruct (leb sec (S754_zero false)) eqn:Hle;
      [|reflexivity].
    apply (proj2 (parse_duration_sign _ _ Hp)) in Hle. congruence. }
  rewrite <- Hper in Hp. rewrite <- Hf in Hcs.
  destruct (calculate_eps_with cfg module_name
              (Some (PInt (suggested_module_uniquekey s)))
              (Some (sg_module_period s)) w1 _ _ _ sec cs nf
              eq_refl (conj Hp eq_refl) eq_refl Hcs Hnf)
    as (r & w2 & Hrun & _ & Heps & _ & _ & Hsecs & Ht & _).
  exists r, w2. rewrite Hguard in Heps, Hsecs.
  split; [exact Hrun|]. repeat split; congruence.
Qed.

Lemma suggestion_is_reproduced_by_calculate_witness :
  let cfg := Examples.cfg in
  let w := Examples.apache_world "10s" in
  exists s w1 r w2,
    suggest_uniquekey_for_target_eps cfg "Apache" (of_Z 100) None
      (literal 5 100) w = (Ok (Suggested s), w1)
    /\ suggested_module_uniquekey s = 17
    /\ calculate_eps cfg "Apache" (Some (PInt 17)) (Some (PStr "10s")) None w1
       = (Ok r, w2)
    /\ eps r = expected_eps s
    /\ expected_eps s = of_Z 102.
Proof.
  intros cfg w.
  destruct (suggest_uniquekey_for_target_eps cfg "Apache" (of_Z 100) None
              (literal 5 100) w) as [res w1] eqn:Hs.
  assert (Hres : exists s, res = Ok (Suggested s)
                           /\ suggested_module_uniquekey s = 17
                           /\ sg_module_period s = PStr "10s"
                           /\ expected_eps s = of_Z 102).
  { apply (f_equal fst) in Hs. cbn [fst] in Hs. subst res.
    eexists. split; [vm_compute; reflexivity|]. repeat split. }
  destruct Hres as (s & -> & Hk & Hper & Hexp).
  destruct (suggestion_is_reproduced_by_calculate cfg "Apache" _ _ _ w w1 s Hs)
    as (r & w2 & Hrun & Heps & _).
  rewrite Hk, Hper in Hrun.
  exists s, w1, r, w2. auto.
Defined.

(** X14. A period of zero stops the suggestion and not the
    calculation: with a positive total, a finite target and a period
    that parses to zero ("0s", "0ms"), [suggest_uniquekey_for_target_eps]
    raises ZeroDivisionError, while [calculate_eps] with the same
    period divides by 1.0. *)
Theorem zero_period_stops_the_suggestion (cfg : settings)
    (module_name : string) (target : float) (p : pyobj) (tolerance : float)
    (w : world) (cs : list Z) (sec : float) :
  contributions_of cfg (files w) module_name
    (submodule_names cfg (files w) module_name) = Some cs ->
  0 < sum_Z cs < 2 ^ 53 ->
  _parse_duration p = Ok sec ->
  eqb sec (S754_zero false) = true ->
  match target with
  | S754_zero _ | S754_finite _ _ _ => True
  | _ => False
  end ->
  (exists w',
     suggest_uniquekey_for_target_eps cfg module_name target (Some p)
       tolerance w = (Raise ZeroDivisionError, w'))
  /\ (forall K f,
      float_of_int (K * sum_Z cs) = Ok f ->
      exists r w',
        calculate_eps cfg module_name (Some (PInt K)) (Some p) None w
        = (Ok r, w')
        /\ module_period_seconds r = of_Z 1
        /\ eps r = div f (of_Z 1)).
Proof.
  intros Hcs Hsum Hp Hz Hfin.
  assert (Hsec : exists sgn, sec = S754_zero sgn).
  { destruct sec as [sgn|sgn| |sgn mm ee]; try (destruct sgn; discriminate Hz);
      [eauto | discriminate Hz]. }
  destruct Hsec as [sgn ->]. split.
  - unfold suggest_uniquekey_for_target_eps. run.
    destruct (get_module_config_result cfg module_name w) as (wa & -> & Hfa).
    unfold get_submodules, _parse_duration_to_seconds. rewrite Hfa, Hp.
    rewrite <- Hfa in Hcs at 1.
    destruct (submodule_contributions_result cfg module_name _ [] 0 cs wa Hcs)
      as (ds & wb & -> & _).
    rewrite Z.add_0_l.
    rewrite (proj2 (Z.leb_gt (sum_Z cs) 0)) by lia.
    rewrite (of_Z_finite (sum_Z cs)) by lia. cbn [bind].
    destruct (sum_Z cs) as [|q|q] eqn:Eq; try lia.
    assert (Hd : Z.pos (digits2_pos q) <= 53) by (apply digits_le_53; lia).
    rewrite (of_Z_pos q Hd).
    assert (Hreq : exists sg, div (mul target (S754_zero sgn))
                                (S754_finite false (norm_m q) (norm_e q))
                              = S754_zero sg).
    { destruct target as [st|st| |st tm te]; try contradiction;
        eexists; reflexivity. }
    destruct Hreq as [sg Hreq].
    unfold truediv at 1.
    change (eqb (S754_finite false (norm_m q) (norm_e q)) (S754_zero false))
      with false.
    cbv iota. cbn [bind]. rewrite Hreq. cbn [round bind].
    change (Z.max 1 0) with 1. rewrite Z.mul_1_l.
    unfold truediv_int_float.
    rewrite (of_Z_finite (Z.pos q)) by lia. cbn [bind].
    change (eqb (S754_zero sgn) (S754_zero false)) with true. cbv iota.
    cbn [bind]. eauto.
  - intros K f Hf.
    destruct (calculate_eps_with cfg module_name (Some (PInt K)) (Some p) w
                (PInt K) K p (S754_zero sgn) cs f eq_refl (conj Hp eq_refl)
                eq_refl Hcs Hf)
      as (r & w' & Hrun & _ & Heps & _ & _ & Hs & _).
    exists r, w'. split; [exact Hrun|]. split; [exact Hs | exact Heps].
Qed.

Lemma zero_period_stops_the_suggestion_witness :
  let cfg := Examples.cfg in
  let w := Examples.apache_world "1s" in
  (exists w',
     suggest_uniquekey_for_target_eps cfg "Apache" (of_Z 300) (Some (PStr "0s"))
       (literal 5 100) w = (Raise ZeroDivisionError, w'))
  /\ exists r w',
       calculate_eps cfg "Apache" (Some (PInt 5)) (Some (PStr "0s")) None w
       = (Ok r, w')
       /\ eps r = div (of_Z 300) (of_Z 1).
Proof.
  intros cfg w.
  destruct (zero_period_stops_the_suggestion cfg "Apache" (of_Z 300)
              (PStr "0s") (literal 5 100) w [20; 30; 10] (S754_zero false))
    as [Hs Hc].
  - vm_compute. reflexivity.
  - vm_compute. split; reflexivity.
  - vm_compute. reflexivity.
  - reflexivity.
  - vm_compute. exact I.
  - split; [exact Hs|].
    destruct (Hc 5 (of_Z 300) ltac:(vm_compute; reflexivity))
      as (r & w' & Hrun & _ & Heps).
    exists r, w'. split; [exact Hrun | exact Heps].
Defined.

(** X15. With a default key of at least 1, every submodule file
    contributes at least 1, so the answer NoUsableSubmodules is given
    exactly for a module that has no submodule file: a submodule whose
    key is 0, negative or missing counts with the default. *)
Theorem no_usable_submodules_means_no_files (cfg : settings)
    (module_name : string) (target : float) (period : option pyobj)
    (tolerance : float) (w : world) (cs : list Z) (sec : float) :
  1 <= DEFAULT_UNIQUE_KEY cfg ->
  contributions_of cfg (files w) module_name
    (submodule_names cfg (files w) module_name) = Some cs ->
  _parse_duration
    (match period with
     | None => mc_period (module_config_of cfg (files w) module_name)
     | Some p => p
     end) = Ok sec ->
  Forall (fun c => 1 <= c) cs
  /\ ((exists w',
         suggest_uniquekey_for_target_eps cfg module_name target period
           tolerance w = (Ok NoUsableSubmodules, w'))
      <-> submodule_names cfg (files w) module_name = []).
Proof.
  intros Hdef Hcs Hp.
  destruct (contributions_at_least_one cfg _ _ _ _ Hdef Hcs) as [Hall Hlen].
  split; [exact Hall|]. split.
  - intros [w' Hs].
    destruct (suggest_inv cfg _ _ _ _ _ _ _ Hs) as (cs' & _ & Hcs' & _ & _ & Hle).
    rewrite Hcs in Hcs'. injection Hcs' as <-.
    pose proof (sum_at_least_length cs Hall) as Hsum.
    destruct (submodule_names cfg (files w) module_name); [reflexivity|].
    cbn [List.length] in Hlen. lia.
  - intros Hnil. rewrite Hnil in Hcs. cbn in Hcs. injection Hcs as <-.
    destruct (suggest_no_submodules cfg module_name target period tolerance w
                [] sec) as (w' & Hs & _); [now rewrite Hnil | exact Hp | cbn; lia|].
    eauto.
Qed.

Lemma no_usable_submodules_means_no_files_witness :
  let cfg := Examples.cfg in
  let w := Examples.apache_world "1s" in
  1 <= DEFAULT_UNIQUE_KEY cfg
  /\ submodule_names cfg (files w) "Apache" = ["access"; "error"; "status"]
  /\ ~ exists w',
         suggest_uniquekey_for_target_eps cfg "Apache" (of_Z 300) None
           (literal 5 100) w = (Ok NoUsableSubmodules, w').
Proof.
  intros cfg w.
  assert (Hd : 1 <= DEFAULT_UNIQUE_KEY cfg) by (vm_compute; discriminate).
  assert (Hn : submodule_names cfg (files w) "Apache"
               = ["access"; "error"; "status"]) by (vm_compute; reflexivity).
  split; [exact Hd|]. split; [exact Hn|].
  intros H.
  apply (proj2 (no_usable_submodules_means_no_files cfg "Apache" (of_Z 300)
                  None (literal 5 100) w [20; 30; 10] (of_Z 1) Hd
                  ltac:(vm_compute; reflexivity)
                  ltac:(vm_compute; reflexivity))) in H.
  rewrite Hn in H. discriminate H.
Defined.

(** X16. [calculate_eps_for_all_modules] never raises and changes no
    file: its result has one entry for each module of
    [get_module_list], in that order, and the entry of a module is the
    result of [calculate_eps] for it or, when that raises, the error
    entry (whose [eps] is 0), the other modules being computed all the
    same. *)
Theorem all_modules_are_reported (cfg : settings) (w : world) :
  exists results w',
    calculate_eps_for_all_modules cfg w = (Ok results, w')
    /\ files w' = files w
    /\ List.map fst results = module_names cfg (files w)
    /\ forall m x, In (m, x) results ->
         exists w1 w2,
           files w1 = files w
           /\ calculate_eps cfg m None None None w1
              = (match x with
                 | EpsData r => Ok r
                 | EpsError e => Raise e
                 end, w2).
Proof.
  unfold calculate_eps_for_all_modules, get_module_list. run.
  destruct (eps_for_modules_result cfg (module_names cfg (files w)) [] w)
    as (added & w' & Hrun & Hf & Hk & Hall).
  - apply module_names_nodup.
  - intros k _ [].
  - exists added, w'. cbn [app] in Hrun. auto.
Qed.

(** X17. What a mutator writes is what the engine reads: after
    [update_submodule_uniquekey] has succeeded with the value [v], on a
    YAML library that loads what it has dumped, [get_submodule_config]
    returns the key [v] for that submodule, and the submodule
    contributes [v] to the EPS. *)
Theorem updated_key_is_read_back (cfg : settings)
    (module_name submodule_name : string) (v : Z)
    (original_checksum : string) (w : world) (b : string)
    (d : list (string * pyobj)) :
  key_out_of_bounds cfg (PInt v) = false ->
  files w !! submodule_config_path cfg module_name submodule_name = Some b ->
  yaml_load cfg b = Some (PDict d) ->
  md5_hexdigest cfg b = original_checksum ->
  env w = no_faults ->
  assoc_get d "uniquekey" = None
  \/ (exists u, assoc_get d "uniquekey" = Some (PDict u)) ->
  (forall data', set_num_uniq_key (PDict d) (PInt v) = Ok data' ->
     yaml_load cfg (yaml_dump cfg data') = Some data') ->
  exists r w',
    update_submodule_uniquekey cfg module_name submodule_name (PInt v)
      original_checksum w = (Ok r, w')
    /\ sc_uniquekey (submodule_config_of cfg (files w') module_name submodule_name)
       = PInt v
    /\ contribution_of_key cfg (PInt v) = Some v
    /\ exists c w'',
         get_submodule_config cfg module_name submodule_name w' = (Ok c, w'')
         /\ sc_uniquekey c = PInt v.
Proof.
  intros Hin Hb Hl Hcs Henv Hsec Hrt.
  pose proof (WriteProtocol.set_num_uniq_key_cases d (PInt v)) as Hset.
  assert (Hd' : exists d' u', set_num_uniq_key (PDict d) (PInt v) = Ok (PDict d')
                              /\ assoc_get d' "uniquekey" = Some (PDict u')
                              /\ assoc_get u' "NumUniqKey" = Some (PInt v)).
  { destruct Hsec as [Hn | [u Hu]].
    - rewrite Hn in Hset. do 2 eexists. split; [exact Hset|].
      split; [apply assoc_get_set_eq | reflexivity].
    - rewrite Hu in Hset. do 2 eexists. split; [exact Hset|].
      split; apply assoc_get_set_eq. }
  destruct Hd' as (d' & u' & Hok & Hu' & Hv').
  destruct (WriteProtocol.mutate_ok cfg
              (submodule_config_path cfg module_name submodule_name)
              (fun data => set_num_uniq_key data (PInt v)) original_checksum
              b (PDict d) (PDict d') w Hb Hl Hcs Hok Henv
              (submodule_temp_neq cfg module_name submodule_name))
    as (r & w' & Hrun & _ & _ & Hfile).
  assert (Hkey : sc_uniquekey
                   (submodule_config_of cfg (files w') module_name submodule_name)
                 = PInt v).
  { rewrite submodule_key_of. unfold document. rewrite Hfile, (Hrt _ Hok).
    unfold key_or_default, num_uniq_key. now rewrite Hu', Hv'. }
  exists r, w'. split.
  { unfold update_submodule_uniquekey. rewrite Hin. exact Hrun. }
  split; [exact Hkey|]. split.
  { unfold contribution_of_key. cbn [as_int].
    unfold key_out_of_bounds in Hin. cbn [as_int] in Hin.
    apply orb_false_iff in Hin as [H1 _]. now rewrite H1. }
  destruct (get_submodule_config_result cfg module_name submodule_name w')
    as (w'' & Hg & _).
  eauto.
Qed.

Lemma updated_key_is_read_back_witness :
  let cfg := Examples.edge_cfg in
  let w := Examples.apache_world "1s" in
  let b := Examples.flow_dump (Examples.with_key 10) in
  key_out_of_bounds cfg (PInt 7) = false
  /\ files w !! submodule_config_path cfg "Apache" "status" = Some b
  /\ exists r w',
       update_submodule_uniquekey cfg "Apache" "status" (PInt 7) b w
       = (Ok r, w')
       /\ sc_uniquekey (submodule_config_of cfg (files w') "Apache" "status")
          = PInt 7.
Proof.
  intros cfg w b.
  assert (Hb : files w !! submodule_config_path cfg "Apache" "status" = Some b)
    by (vm_compute; reflexivity).
  split; [reflexivity|]. split; [exact Hb|].
  destruct (updated_key_is_read_back cfg "Apache" "status" 7 b w b
              [("uniquekey", PDict [("NumUniqKey", PInt 10)])]
              eq_refl Hb ltac:(vm_compute; reflexivity) eq_refl eq_refl)
    as (r & w' & Hrun & Hkey & _).
  - right. eexists. reflexivity.
  - intros data' H. vm_compute in H. injection H as <-.
    vm_compute. reflexivity.
  - exists r, w'. split; [exact Hrun | exact Hkey].
Defined.

End EpsEdges.

(** ** The cluster manager: bulk edits, discovery and the files of a node *)

Module ClusterEdits.
Import PyObj PyStr FS ClusterManager.
Import YamlEditorFacts ClusterFacts WriteProtocol.

Lemma all_false_lookup updates path :
  all_false updates !! path
  = if existsb (String.eqb path) (List.map fst updates) then Some false
    else None.
Proof.
  unfold all_false. induction updates as [|[k v] updates IH]; cbn; [reflexivity|].
  destruct (String.eqb path k) eqn:E; cbn [orb].
  - apply String.eqb_eq in E. subst. apply lookup_insert_eq.
  - apply String.eqb_neq in E. rewrite lookup_insert_ne by congruence. exact IH.
Qed.

Lemma set_remote_key_cases d v :
  set_remote_key (PDict d) v
  = Ok (PDict
          match assoc_get d "uniquekey" with
          | Some (PDict u) =>
              assoc_set d "uniquekey" (PDict (assoc_set u "NumUniqKey" v))
          | _ =>
              assoc_set (assoc_set d "uniquekey" (PDict [])) "uniquekey"
                (PDict [("NumUniqKey", v)])
          end).
Proof.
  unfold set_remote_key. cbn [contains bind].
  destruct (assoc_get d "uniquekey") as [x|] eqn:Hx; cbn [negb bind].
  - cbn [getitem]. rewrite Hx. cbn [bind].
    destruct (is_dict x) eqn:Hdict; cbn [negb setitem bind getitem].
    + rewrite Hx. cbn [bind]. destruct x; try discriminate Hdict. reflexivity.
    + rewrite assoc_get_set_eq. cbn [bind setitem].
      destruct x; try reflexivity. discriminate Hdict.
  - cbn [setitem bind getitem]. rewrite assoc_get_set_eq.
    cbn [bind is_dict negb getitem]. rewrite assoc_get_set_eq. reflexivity.
Qed.

(** A document that is no mapping cannot be edited. *)
Lemma set_remote_key_not_a_mapping doc v :
  is_dict doc = false -> set_remote_key doc v = Raise TypeError.
Proof.
  intros H. unfold set_remote_key.
  destruct doc as [| | |s|l|d]; try reflexivity; try discriminate H;
    cbn [contains bind].
  - destruct (is_substring "uniquekey" s); reflexivity.
  - destruct (existsb _ l); reflexivity.
Qed.

Section Edits.
Variable cs : cluster_settings.
Variable nodes : list (string * node_config).

(** *** The files that an edit touches *)

Lemma edit_remote_file_frame rp n v (w : cworld) q :
  q <> rp ->
  remote (snd (edit_remote_file cs rp n v w)) !! q = remote w !! q.
Proof.
  intros Hq.
  unfold edit_remote_file, cbind, sftp_get, read_scratch, write_scratch,
    sftp_put, craise.
  destruct (get_fails (net w) rp); [reflexivity|].
  destruct (remote w !! rp) as [b|]; [|reflexivity]. cbn [net remote scratch].
  rewrite lookup_insert_eq.
  destruct (safe_load cs b) as [loaded|]; [|reflexivity].
  destruct (set_remote_key (or_empty_dict loaded) v) as [config_data|e];
    [|reflexivity].
  cbn [net remote scratch]. rewrite lookup_insert_eq.
  destruct (put_fails (net w) rp) as [[part|]|]; cbn [snd remote];
    try reflexivity; now rewrite lookup_insert_ne by congruence.
Qed.

(** An item that fails before the upload leaves the node as it was. *)
Lemma edit_remote_file_early_failure rp n v (w : cworld) :
  get_fails (net w) rp = true
  \/ remote w !! rp = None
  \/ (exists b, remote w !! rp = Some b
                /\ (safe_load cs b = None
                    \/ exists loaded e,
                         safe_load cs b = Some loaded
                         /\ set_remote_key (or_empty_dict loaded) v = Raise e)) ->
  exists e w',
    edit_remote_file cs rp n v w = (Raise e, w') /\ remote w' = remote w.
Proof.
  unfold edit_remote_file, cbind, sftp_get, read_scratch, write_scratch,
    sftp_put, craise.
  intros [Hg | [Hn | (b & Hb & Hrest)]].
  - rewrite Hg. eauto.
  - destruct (get_fails (net w) rp); [eauto|]. rewrite Hn. eauto.
  - destruct (get_fails (net w) rp); [eauto|]. rewrite Hb.
    cbn [net remote scratch]. rewrite lookup_insert_eq.
    destruct Hrest as [Hl | (loaded & e & Hl & Hs)]; rewrite Hl; [eauto|].
    rewrite Hs. eauto.
Qed.

Lemma edit_one_frame node path v results (w : cworld) q :
  (forall m s, split_slash_once path = Some (m, s) ->
     q <> remote_file_path_of node m s) ->
  remote (snd (edit_one cs node path v results w)) !! q = remote w !! q.
Proof.
  intros Hq. unfold edit_one.
  destruct (split_slash_once path) as [[m s]|]; [|reflexivity].
  unfold cbind at 1, named_temporary_file.
  set (w1 := {| remote := remote w; scratch := _; net := net w |}).
  pose proof (edit_remote_file_frame (remote_file_path_of node m s)
                (fresh (dom (scratch w))) v w1 q (Hq m s eq_refl)) as H.
  unfold remote_file_path_of in H.
  destruct (edit_remote_file cs _ _ v w1) as [r w2]. cbn [snd] in *.
  unfold unlink_scratch. cbn [snd remote]. exact H.
Qed.

Lemma edit_all_frame node updates :
  forall results (w : cworld) q,
    (forall path m s, In path (List.map fst updates) ->
       split_slash_once path = Some (m, s) ->
       q <> remote_file_path_of node m s) ->
    remote (snd (edit_all cs node updates results w)) !! q = remote w !! q.
Proof.
  induction updates as [|[path v] updates IH]; intros results w q Hq;
    [reflexivity|].
  cbn [edit_all]. unfold cbind.
  pose proof (edit_one_frame node path v results w q
                (fun m s => Hq path m s (in_eq _ _))) as H1.
  destruct (edit_one_total cs node path v results w) as (b & w1 & Hone & _).
  rewrite Hone in *. cbn [snd] in H1. rewrite IH; [exact H1|].
  intros p m s Hp. apply Hq. now right.
Qed.

Lemma edit_all_dom node updates :
  forall results (w : cworld),
    exists results' w',
      edit_all cs node updates results w = (Ok results', w')
      /\ scratch w' = scratch w
      /\ net w' = net w
      /\ dom results' = dom results ∪ list_to_set (List.map fst updates).
Proof.
  induction updates as [|[path v] updates IH]; intros results w.
  - exists results, w. cbn [edit_all List.map]. unfold cret.
    repeat split; auto. now rewrite list_to_set_nil, union_empty_r_L.
  - destruct (edit_one_total cs node path v results w) as (b & w1 & H1 & Hs1 & Hn1).
    destruct (IH (<[path := b]> results) w1) as (results' & w' & H2 & Hs2 & Hn2 & Hd).
    exists results', w'. cbn [edit_all]. unfold cbind. rewrite H1, H2.
    split; [reflexivity|]. split; [congruence|]. split; [congruence|].
    rewrite Hd, dom_insert_L. cbn [List.map fst]. rewrite list_to_set_cons.
    now rewrite (union_comm_L {[path]} (dom results)), <- union_assoc_L.
Qed.

Lemma bulk_edit_frame node_name updates create_backup (w : cworld) q :
  (forall node path m s,
     lookup_node nodes node_name = Some node ->
     In path (List.map fst updates) ->
     split_slash_once path = Some (m, s) ->
     q <> remote_file_path_of node m s) ->
  remote (snd (bulk_edit_submodule_unique_keys cs nodes node_name updates
                 create_backup w)) !! q = remote w !! q
  /\ scratch (snd (bulk_edit_submodule_unique_keys cs nodes node_name updates
                     create_backup w)) = scratch w.
Proof.
  intros Hq. destruct create_backup.
  { rewrite bulk_edit_with_backup. split; reflexivity. }
  unfold bulk_edit_submodule_unique_keys.
  destruct (lookup_node nodes node_name) as [node|] eqn:Hnode;
    [|split; reflexivity].
  destruct (negb (default true (enabled node))); [split; reflexivity|].
  unfold cbind, cret, _create_ssh_connection.
  destruct (connect_fails (net w)); [split; reflexivity|].
  pose proof (edit_all_frame node updates ∅ w q
                (fun path m s => Hq node path m s eq_refl)) as Hf.
  destruct (edit_all_dom node updates ∅ w) as (results & w' & Hrun & Hs & _).
  rewrite Hrun in *. cbn [snd] in *. split; assumption.
Qed.

Lemma bulk_edit_single node_name node path v (w : cworld) :
  lookup_node nodes node_name = Some node ->
  default true (enabled node) = true ->
  connect_fails (net w) = false ->
  bulk_edit_submodule_unique_keys cs nodes node_name [(path, v)] false w
  = match edit_one cs node path v ∅ w with
    | (Ok results, w') => (results, w')
    | (Raise _, w') => (all_false [(path, v)], w')
    end.
Proof.
  intros Hnode Hen Hconn. unfold bulk_edit_submodule_unique_keys.
  rewrite Hnode, Hen. cbn [negb].
  unfold cbind at 1 2, cret, _create_ssh_connection. rewrite Hconn.
  cbn [edit_all]. unfold cbind, cret.
  destruct (edit_one cs node path v ∅ w) as [[r|e] w']; reflexivity.
Qed.

Lemma edit_one_early_failure node path m s v results (w : cworld) :
  split_slash_once path = Some (m, s) ->
  get_fails (net w) (remote_file_path_of node m s) = true
  \/ remote w !! remote_file_path_of node m s = None
  \/ (exists b, remote w !! remote_file_path_of node m s = Some b
                /\ (safe_load cs b = None
                    \/ exists loaded e,
                         safe_load cs b = Some loaded
                         /\ set_remote_key (or_empty_dict loaded) v = Raise e)) ->
  exists w',
    edit_one cs node path v results w = (Ok (<[path := false]> results), w')
    /\ remote w' = remote w
    /\ scratch w' = scratch w.
Proof.
  intros Hsplit Hfail. unfold edit_one. rewrite Hsplit.
  unfold cbind at 1, named_temporary_file.
  fold (remote_file_path_of node m s).
  set (n := fresh (dom (scratch w))).
  set (w1 := {| remote := remote w; scratch := <[n:=EmptyString]> (scratch w);
                net := net w |}).
  destruct (edit_remote_file_early_failure (remote_file_path_of node m s) n v w1
              Hfail) as (e & w2 & Hrun & Hrem).
  destruct (edit_remote_file_scratch cs (remote_file_path_of node m s) n v w1)
    as [_ Hscr].
  rewrite Hrun in *. cbn [snd] in Hscr. unfold unlink_scratch.
  eexists. split; [reflexivity|]. cbn [remote scratch].
  split; [exact Hrem|].
  rewrite Hscr. subst w1. cbn [scratch]. rewrite delete_insert_eq.
  apply delete_id. apply not_elem_of_dom. apply is_fresh.
Qed.

End Edits.
(** X18. A bulk edit that does not start changes nothing: for a node
    that is not configured, a node that is disabled, and a node that
    cannot be reached, [bulk_edit_submodule_unique_keys] answers False
    for every requested path (and holds no other path), and the files
    of the node and the scratch files are as before. *)
Theorem bulk_edit_refusal_changes_nothing (cs : cluster_settings)
    (nodes : list (string * node_config)) (node_name : string)
    (updates : list (string * pyobj)) (create_backup : bool) (w : cworld) :
  (lookup_node nodes node_name = None ->
   bulk_edit_submodule_unique_keys cs nodes node_name updates create_backup w
   = (all_false updates, w))
  /\ (forall node, lookup_node nodes node_name = Some node ->
      default true (enabled node) = false ->
      bulk_edit_submodule_unique_keys cs nodes node_name updates create_backup w
      = (all_false updates, w))
  /\ (forall node, lookup_node nodes node_name = Some node ->
      connect_fails (net w) = true ->
      bulk_edit_submodule_unique_keys cs nodes node_name updates create_backup w
      = (all_false updates, w))
  /\ (forall path,
      all_false updates !! path
      = if existsb (String.eqb path) (List.map fst updates) then Some false
        else None).
Proof.
  split; [|split; [|split]].
  - intros Hnode. unfold bulk_edit_submodule_unique_keys. now rewrite Hnode.
  - intros node Hnode Hen. unfold bulk_edit_submodule_unique_keys.
    now rewrite Hnode, Hen.
  - intros node Hnode Hconn. destruct create_backup.
    + apply bulk_edit_with_backup.
    + unfold bulk_edit_submodule_unique_keys. rewrite Hnode.
      destruct (negb (default true (enabled node))); [reflexivity|].
      unfold cbind at 1 2, cret, _create_ssh_connection. now rewrite Hconn.
  - apply all_false_lookup.
Qed.

Lemma bulk_edit_refusal_changes_nothing_witness :
  lookup_node Examples.nodes "node9" = None
  /\ bulk_edit_submodule_unique_keys Examples.cluster_cfg Examples.nodes
       "node9" Examples.three_updates false
       (Examples.cluster_world Examples.transport_ok)
     = (all_false Examples.three_updates,
        Examples.cluster_world Examples.transport_ok).
Proof.
  assert (H : lookup_node Examples.nodes "node9" = None) by reflexivity.
  split; [exact H|].
  exact (proj1 (bulk_edit_refusal_changes_nothing Examples.cluster_cfg
                  Examples.nodes "node9" Examples.three_updates false
                  (Examples.cluster_world Examples.transport_ok)) H).
Defined.

(** X19. A bulk edit that starts ([create_backup=False], a node that
    is configured, enabled and reachable) reports on exactly the
    requested paths: the keys of the answer are the requested paths, no
    more and no fewer, whatever fails on the way; the scratch files are
    as before, every temporary file having been removed. *)
Theorem bulk_edit_reports_every_path (cs : cluster_settings)
    (nodes : list (string * node_config)) (node_name : string)
    (node : node_config) (updates : list (string * pyobj)) (w : cworld) :
  lookup_node nodes node_name = Some node ->
  default true (enabled node) = true ->
  connect_fails (net w) = false ->
  exists results w',
    bulk_edit_submodule_unique_keys cs nodes node_name updates false w
    = (results, w')
    /\ dom results = list_to_set (List.map fst updates)
    /\ scratch w' = scratch w
    /\ net w' = net w.
Proof.
  intros Hnode Hen Hconn.
  destruct (edit_all_dom cs node updates ∅ w)
    as (results & w' & Hrun & Hs & Hn & Hd).
  exists results, w'. split.
  - unfold bulk_edit_submodule_unique_keys. rewrite Hnode, Hen. cbn [negb].
    unfold cbind at 1 2, cret, _create_ssh_connection. rewrite Hconn, Hrun.
    reflexivity.
  - rewrite Hd, dom_empty_L, union_empty_l_L. auto.
Qed.

Lemma bulk_edit_reports_every_path_witness :
  let w := Examples.cluster_world Examples.transport_second_fails in
  lookup_node Examples.nodes "node1" = Some Examples.node1
  /\ exists results w',
       bulk_edit_submodule_unique_keys Examples.cluster_cfg Examples.nodes
         "node1" Examples.three_updates false w = (results, w')
       /\ dom results
          = list_to_set ["Apache/status"; "Apache/access"; "Apache/error"]
       /\ scratch w' = ∅.
Proof.
  intros w. split; [reflexivity|].
  destruct (bulk_edit_reports_every_path Examples.cluster_cfg Examples.nodes
              "node1" Examples.node1 Examples.three_updates w
              eq_refl eq_refl eq_refl) as (results & w' & Hrun & Hd & Hs & _).
  exists results, w'. split; [exact Hrun|]. split; [exact Hd | exact Hs].
Defined.

(** X20. Whatever happens, a bulk edit touches only the files of the
    requested paths: a file of the node that is not
    [conf_dir/<module>/<submodule>.yml] for a requested path
    [<module>/<submodule>] is the same after the call as before it, for
    either value of [create_backup] and whatever the transport does,
    and no scratch file is left. *)
Theorem bulk_edit_touches_only_requested_files (cs : cluster_settings)
    (nodes : list (string * node_config)) (node_name : string)
    (updates : list (string * pyobj)) (create_backup : bool) (w : cworld)
    (q : string) :
  (forall node path m s,
     lookup_node nodes node_name = Some node ->
     In path (List.map fst updates) ->
     split_slash_once path = Some (m, s) ->
     q <> remote_file_path_of node m s) ->
  remote (snd (bulk_edit_submodule_unique_keys cs nodes node_name updates
                 create_backup w)) !! q = remote w !! q
  /\ scratch (snd (bulk_edit_submodule_unique_keys cs nodes node_name updates
                     create_backup w)) = scratch w.
Proof. apply bulk_edit_frame. Qed.

Lemma bulk_edit_touches_only_requested_files_witness :
  let w := Examples.cluster_world Examples.transport_ok in
  remote (snd (bulk_edit_submodule_unique_keys Examples.cluster_cfg
                 Examples.nodes "node1" [("Apache/status", PInt 100)] false w))
    !! "/opt/vudatasim/conf.d/Apache/error.yml"
  = Some "{uniquekey: {NumUniqKey: 30}}".
Proof.
  intros w.
  assert (H : forall node path m s,
            lookup_node Examples.nodes "node1" = Some node ->
            In path (List.map fst [("Apache/status", PInt 100)]) ->
            split_slash_once path = Some (m, s) ->
            "/opt/vudatasim/conf.d/Apache/error.yml"
            <> remote_file_path_of node m s).
  { intros node path m s [= <-] [<- | []] [= <- <-]. vm_compute. discriminate. }
  rewrite (proj1 (bulk_edit_touches_only_requested_files Examples.cluster_cfg
                    Examples.nodes "node1" [("Apache/status", PInt 100)] false
                    w "/opt/vudatasim/conf.d/Apache/error.yml" H)).
  vm_compute. reflexivity.
Defined.

(** X21. An item that fails before the upload leaves its file as it
    was: when the download fails, the file is not on the node, its
    text does not load, or its document is not a mapping (a list, a
    string, a number), the bulk edit answers False for the path and the
    files of the node and the scratch files are as before. *)
Theorem failed_item_leaves_its_file (cs : cluster_settings)
    (nodes : list (string * node_config)) (node_name : string)
    (node : node_config) (path m s : string) (new_value : pyobj)
    (w : cworld) :
  lookup_node nodes node_name = Some node ->
  default true (enabled node) = true ->
  connect_fails (net w) = false ->
  split_slash_once path = Some (m, s) ->
  get_fails (net w) (remote_file_path_of node m s) = true
  \/ remote w !! remote_file_path_of node m s = None
  \/ (exists b, remote w !! remote_file_path_of node m s = Some b
                /\ (safe_load cs b = None
                    \/ exists loaded,
                         safe_load cs b = Some loaded
                         /\ is_dict (or_empty_dict loaded) = false)) ->
  exists w',
    bulk_edit_submodule_unique_keys cs nodes node_name [(path, new_value)]
      false w = ({[path := false]}, w')
    /\ remote w' = remote w
    /\ scratch w' = scratch w.
Proof.
  intros Hnode Hen Hconn Hsplit Hfail.
  rewrite (bulk_edit_single cs nodes node_name node path new_value w
             Hnode Hen Hconn).
  destruct (edit_one_early_failure cs node path m s new_value ∅ w Hsplit)
    as (w' & Hrun & Hrem & Hscr).
  - destruct Hfail as [H | [H | (b & Hb & [Hl | (loaded & Hl & Hd)])]]; auto.
    + right. right. exists b. auto.
    + right. right. exists b. split; [exact Hb|]. right.
      exists loaded, TypeError. split; [exact Hl|].
      now apply set_remote_key_not_a_mapping.
  - rewrite Hrun. exists w'. auto.
Qed.

Lemma failed_item_leaves_its_file_witness :
  let w := Examples.cluster_world Examples.transport_ok in
  remote w !! remote_file_path_of Examples.node1 "Apache" "slow" = None
  /\ exists w',
       bulk_edit_submodule_unique_keys Examples.cluster_cfg Examples.nodes
         "node1" [("Apache/slow", PInt 5)] false w
       = ({["Apache/slow" := false]}, w')
       /\ remote w' = remote w.
Proof.
  intros w.
  assert (H : remote w !! remote_file_path_of Examples.node1 "Apache" "slow"
              = None) by (vm_compute; reflexivity).
  split; [exact H|].
  destruct (failed_item_leaves_its_file Examples.cluster_cfg Examples.nodes
              "node1" Examples.node1 "Apache/slow" "Apache" "slow" (PInt 5) w
              eq_refl eq_refl eq_refl eq_refl (or_intror (or_introl H)))
    as (w' & Hrun & Hrem & _).
  exists w'. split; [exact Hrun | exact Hrem].
Defined.

(** X22. A successful item changes only [uniquekey.NumUniqKey]: the
    document that the bulk edit puts back has every other key of the
    fetched document with its value, and every other key of its
    [uniquekey] mapping; a [uniquekey] that is no mapping is replaced
    by the mapping of the new key alone (where the mutators of the
    editor raise TypeError). The new value is written whatever object
    it is: neither a bound nor a type is checked. *)
Theorem bulk_edit_keeps_other_keys (cs : cluster_settings)
    (nodes : list (string * node_config)) (node_name : string)
    (node : node_config) (path m s : string) (new_value : pyobj)
    (content : string) (loaded : pyobj) (d : list (string * pyobj))
    (w : cworld) :
  lookup_node nodes node_name = Some node ->
  default true (enabled node) = true ->
  connect_fails (net w) = false ->
  split_slash_once path = Some (m, s) ->
  get_fails (net w) (remote_file_path_of node m s) = false ->
  remote w !! remote_file_path_of node m s = Some content ->
  safe_load cs content = Some loaded ->
  or_empty_dict loaded = PDict d ->
  put_fails (net w) (remote_file_path_of node m s) = None ->
  exists d' u' w',
    bulk_edit_submodule_unique_keys cs nodes node_name [(path, new_value)]
      false w = ({[path := true]}, w')
    /\ remote w' !! remote_file_path_of node m s
       = Some (safe_dump cs (PDict d'))
    /\ assoc_get d' "uniquekey" = Some (PDict u')
    /\ assoc_get u' "NumUniqKey" = Some new_value
    /\ (forall k, k <> "uniquekey" -> assoc_get d' k = assoc_get d k)
    /\ (forall u k, assoc_get d "uniquekey" = Some (PDict u) ->
        k <> "NumUniqKey" -> assoc_get u' k = assoc_get u k)
    /\ (forall x, assoc_get d "uniquekey" = Some x -> is_dict x = false ->
        u' = [("NumUniqKey", new_value)]).
Proof.
  intros Hnode Hen Hconn Hsplit Hget Hfile Hload Hdict Hput.
  destruct (edit_one_ok cs node path m s new_value content loaded d ∅ w
              Hsplit Hget Hfile Hload Hdict Hput)
    as (d' & w' & Hrun & Hset & Hremote & _ & _).
  rewrite set_remote_key_cases in Hset. injection Hset as <-.
  rewrite (bulk_edit_single cs nodes node_name node path new_value w
             Hnode Hen Hconn), Hrun.
  fold (remote_file_path_of node m s) in Hremote.
  assert (Hreplaced :
    let d' := assoc_set (assoc_set d "uniquekey" (PDict [])) "uniquekey"
                (PDict [("NumUniqKey", new_value)]) in
    assoc_get d' "uniquekey" = Some (PDict [("NumUniqKey", new_value)])
    /\ forall k, k <> "uniquekey" -> assoc_get d' k = assoc_get d k).
  { split; [apply assoc_get_set_eq|].
    intros k Hk. now rewrite !assoc_get_set_ne by exact Hk. }
  destruct Hreplaced as [Hr1 Hr2].
  destruct (assoc_get d "uniquekey") as [x|] eqn:Hx;
    [destruct x as [| | | | |u]|];
    do 2 eexists; exists w';
    (split; [reflexivity|]);
    (split; [rewrite Hremote; apply lookup_insert_eq|]);
    try (split; [exact Hr1|]; split; [reflexivity|]; split; [exact Hr2|];
         split; [intros ? ? H; discriminate H | reflexivity]).
  split; [apply assoc_get_set_eq|]. split; [apply assoc_get_set_eq|].
  split; [intros k Hk; now apply assoc_get_set_ne|]. split.
  - intros u0 k [= <-] Hk. now apply assoc_get_set_ne.
  - intros x [= <-] H. discriminate H.
Qed.

Lemma bulk_edit_keeps_other_keys_witness :
  let cs := Examples.cluster_cfg in
  let w := Examples.cluster_world Examples.transport_ok in
  remote w !! remote_file_path_of Examples.node1 "Apache" "status"
  = Some "{uniquekey: {NumUniqKey: 10}}"
  /\ exists d' u' w',
       bulk_edit_submodule_unique_keys cs Examples.nodes "node1"
         [("Apache/status", PStr "many")] false w
       = ({["Apache/status" := true]}, w')
       /\ remote w' !! "/opt/vudatasim/conf.d/Apache/status.yml"
          = Some (safe_dump cs (PDict d'))
       /\ assoc_get d' "uniquekey" = Some (PDict u')
       /\ assoc_get u' "NumUniqKey" = Some (PStr "many").
Proof.
  intros cs w.
  assert (H : remote w !! remote_file_path_of Examples.node1 "Apache" "status"
              = Some "{uniquekey: {NumUniqKey: 10}}")
    by (vm_compute; reflexivity).
  split; [exact H|].
  destruct (bulk_edit_keeps_other_keys cs Examples.nodes "node1"
              Examples.node1 "Apache/status" "Apache" "status" (PStr "many")
              "{uniquekey: {NumUniqKey: 10}}" (Examples.with_key 10)
              [("uniquekey", PDict [("NumUniqKey", PInt 10)])] w
              eq_refl eq_refl eq_refl eq_refl eq_refl H
              ltac:(vm_compute; reflexivity) eq_refl eq_refl)
    as (d' & u' & w' & Hrun & Hfile & Hu & Hv & _).
  exists d', u', w'. split; [exact Hrun|]. split; [exact Hfile|].
  split; [exact Hu | exact Hv].
Defined.

(** *** What the discovery records *)





(** *** The configuration of the nodes *)

Lemma with_sections_has_both config c :
  with_sections config = Ok c ->
  contains c "nodes" = Ok true /\ contains c "cluster_settings" = Ok true.
Proof.
  unfold with_sections.
  destruct config as [| | |s|l|d]; cbn [contains bind]; try discriminate.
  - destruct (is_substring "nodes" s) eqn:H1; cbn [negb setitem bind];
      [|discriminate].
    cbn [contains]. destruct (is_substring "cluster_settings" s) eqn:H2;
      cbn [negb setitem bind]; [|discriminate].
    intros [= <-]. cbn [contains]. now rewrite H1, H2.
  - destruct (existsb _ l) eqn:H1; cbn [negb setitem bind]; [|discriminate].
    cbn [contains]. destruct (existsb _ l) eqn:H2 in |- *;
      cbn [negb setitem bind]; [|discriminate].
    intros [= <-]. cbn [contains]. now rewrite H1, H2.
  - destruct (assoc_get d "nodes") as [x|] eqn:H1; cbn [negb setitem bind contains].
    + destruct (assoc_get d "cluster_settings") as [y|] eqn:H2;
        cbn [negb setitem bind]; intros [= <-]; cbn [contains].
      * now rewrite H1, H2.
      * rewrite assoc_get_set_eq, assoc_get_set_ne by discriminate.
        now rewrite H1.
    + rewrite assoc_get_set_ne by discriminate.
      destruct (assoc_get d "cluster_settings") as [y|] eqn:H2;
        cbn [negb setitem bind]; intros [= <-]; cbn [contains].
      * rewrite assoc_get_set_eq, assoc_get_set_ne by discriminate.
        now rewrite H2.
      * rewrite assoc_get_set_eq.
        rewrite assoc_get_set_ne by discriminate.
        now rewrite assoc_get_set_eq.
Qed.

Lemma with_sections_keeps d :
  exists d',
    with_sections (PDict d) = Ok (PDict d')
    /\ (forall k v, assoc_get d k = Some v -> assoc_get d' k = Some v)
    /\ (assoc_get d "nodes" = None -> assoc_get d' "nodes" = Some (PDict []))
    /\ (assoc_get d "cluster_settings" = None ->
        assoc_get d' "cluster_settings" = Some _get_default_cluster_settings).
Proof.
  unfold with_sections. cbn [contains bind].
  destruct (assoc_get d "nodes") as [x|] eqn:H1; cbn [negb setitem bind contains].
  - destruct (assoc_get d "cluster_settings") as [y|] eqn:H2;
      cbn [negb setitem bind]; eexists; (split; [reflexivity|]).
    + repeat split; auto; discriminate.
    + split; [|split; [discriminate | intros _; apply assoc_get_set_eq]].
      intros k v Hk. rewrite assoc_get_set_ne; [exact Hk | congruence].
  - rewrite assoc_get_set_ne by discriminate.
    destruct (assoc_get d "cluster_settings") as [y|] eqn:H2;
      cbn [negb setitem bind]; eexists; (split; [reflexivity|]).
    + split; [|split; [intros _; apply assoc_get_set_eq | discriminate]].
      intros k v Hk. rewrite assoc_get_set_ne; [exact Hk | congruence].
    + split; [|split].
      * intros k v Hk. rewrite !assoc_get_set_ne; [exact Hk | congruence..].
      * intros _. rewrite assoc_get_set_ne by discriminate.
        apply assoc_get_set_eq.
      * intros _. apply assoc_get_set_eq.
Qed.

(** X24. [_load_nodes_config] returns a configuration in which
    ["nodes"] and ["cluster_settings"] are found, whatever the file
    holds and also when it is missing, unreadable or no YAML. A file
    that loads to a mapping keeps every key it defines, with its
    value; a missing ["nodes"] becomes the empty mapping and a missing
    ["cluster_settings"] the default settings; with no file at all
    both sections are empty. *)
Theorem nodes_config_has_both_sections (cs : cluster_settings) (fs : files_t)
    (nodes_file : path) :
  contains (_load_nodes_config cs fs nodes_file) "nodes" = Ok true
  /\ contains (_load_nodes_config cs fs nodes_file) "cluster_settings" = Ok true
  /\ (exists_ fs nodes_file = false ->
      _load_nodes_config cs fs nodes_file
      = PDict [("nodes", PDict []); ("cluster_settings", PDict [])])
  /\ (forall text d,
      fs !! nodes_file = Some text ->
      safe_load cs text = Some (PDict d) ->
      exists d',
        _load_nodes_config cs fs nodes_file = PDict d'
        /\ (forall k v, assoc_get d k = Some v -> assoc_get d' k = Some v)
        /\ (assoc_get d "nodes" = None ->
            assoc_get d' "nodes" = Some (PDict []))
        /\ (assoc_get d "cluster_settings" = None ->
            assoc_get d' "cluster_settings"
            = Some _get_default_cluster_settings)).
Proof.
  assert (Hboth : contains (_load_nodes_config cs fs nodes_file) "nodes" = Ok true
                  /\ contains (_load_nodes_config cs fs nodes_file)
                       "cluster_settings" = Ok true).
  { unfold _load_nodes_config.
    destruct (negb (exists_ fs nodes_file)); [split; reflexivity|].
    destruct (fs !! nodes_file) as [text|]; [|split; reflexivity].
    destruct (safe_load cs text) as [loaded|]; [|split; reflexivity].
    destruct (with_sections (or_empty_dict loaded)) as [c|e] eqn:Hc;
      [|split; reflexivity].
    now apply with_sections_has_both in Hc. }
  destruct Hboth as [H1 H2].
  split; [exact H1|]. split; [exact H2|]. split.
  - intros He. unfold _load_nodes_config. now rewrite He.
  - intros text d Hf Hl. unfold _load_nodes_config.
    rewrite (EpsFacts.exists_file fs nodes_file text Hf). cbn [negb].
    rewrite Hf, Hl.
    assert (Hor : exists d0, or_empty_dict (PDict d) = PDict d0
                             /\ forall k, assoc_get d0 k = assoc_get d k).
    { destruct d; eexists; split; reflexivity. }
    destruct Hor as (d0 & -> & Hd0).
    destruct (with_sections_keeps d0) as (d' & -> & Hk & Hn & Hc).
    exists d'. split; [reflexivity|]. split; [|split].
    + intros k v Hv. apply Hk. now rewrite Hd0.
    + intros Hv. apply Hn. now rewrite Hd0.
    + intros Hv. apply Hc. now rewrite Hd0.
Qed.

Lemma nodes_config_has_both_sections_witness :
  exists d',
    _load_nodes_config Examples.cluster_cfg
      (<[["nodes.yaml"] := Examples.flow_dump Examples.wildcard_doc]> ∅)
      ["nodes.yaml"] = PDict d'
    /\ assoc_get d' "Include_sub_modules" = Some (PStr "*")
    /\ assoc_get d' "nodes" = Some (PDict [])
    /\ assoc_get d' "cluster_settings" = Some _get_default_cluster_settings.
Proof.
  destruct (nodes_config_has_both_sections Examples.cluster_cfg
              (<[["nodes.yaml"] := Examples.flow_dump Examples.wildcard_doc]> ∅)
              ["nodes.yaml"]) as (_ & _ & _ & H).
  destruct (H (Examples.flow_dump Examples.wildcard_doc)
              [("Include_sub_modules", PStr "*")]
              ltac:(vm_compute; reflexivity) ltac:(vm_compute; reflexivity))
    as (d' & Hd & Hk & Hn & Hc).
  exists d'. split; [exact Hd|]. split; [|split].
  - apply Hk. reflexivity.
  - apply Hn. reflexivity.
  - apply Hc. reflexivity.
Defined.

(** *** The key of a module in a snapshot *)

(** X25. For a named node, [_get_module_level_unique_key] gives
    [uniquekey.NumUniqKey] of the module's [conf.yml] in that node's
    snapshot as the file has it, whether or not it is an integer of at
    least 1; it gives 1 when the document has no such key, when the
    file does not load and when there is no file. With a default key
    of 1 this is the key that the calculator's [extract_uniquekey]
    reads from the same document. *)
Theorem module_level_key_is_the_documents (cs : cluster_settings)
    (cfg : settings) (fs : files_t) (module_name nm : string) :
  nm <> "" ->
  let p := conf_snapshots_dir cs ++ [nm; "conf.d"] ++ [module_name; "conf.yml"] in
  (forall text loaded,
      fs !! p = Some text -> safe_load cs text = Some loaded ->
      _get_module_level_unique_key cs fs module_name (Some nm)
      = match EpsCalculator.num_uniq_key loaded with
        | Some v => v
        | None => PInt 1
        end
      /\ (DEFAULT_UNIQUE_KEY cfg = 1 ->
          _get_module_level_unique_key cs fs module_name (Some nm)
          = match EpsCalculator.extract_uniquekey cfg loaded with
            | Ok v => v
            | Raise _ => PInt (DEFAULT_UNIQUE_KEY cfg)
            end))
  /\ (fs !! p = None ->
      _get_module_level_unique_key cs fs module_name (Some nm) = PInt 1)
  /\ (forall text,
      fs !! p = Some text -> safe_load cs text = None ->
      _get_module_level_unique_key cs fs module_name (Some nm) = PInt 1).
Proof.
  intros Hnm p.
  assert (Hdir : snapshot_dir_of cs fs (Some nm)
                 = Some (conf_snapshots_dir cs ++ [nm; "conf.d"])).
  { unfold snapshot_dir_of. apply String.eqb_neq in Hnm. now rewrite Hnm. }
  assert (Hp : (conf_snapshots_dir cs ++ [nm; "conf.d"])
               ++ [module_name; "conf.yml"] = p).
  { unfold p. now rewrite <- app_assoc. }
  split; [|split].
  - intros text loaded Hf Hl.
    assert (Hkey : _get_module_level_unique_key cs fs module_name (Some nm)
                   = match EpsCalculator.num_uniq_key loaded with
                     | Some v => v
                     | None => PInt 1
                     end).
    { unfold _get_module_level_unique_key. rewrite Hdir. cbv zeta.
      rewrite Hp, (EpsFacts.exists_file fs p text Hf). cbn [negb].
      rewrite Hf, Hl. unfold EpsCalculator.num_uniq_key.
      destruct loaded as [| b | z | s | l | d]; try reflexivity.
      - destruct b; reflexivity.
      - unfold or_empty_dict. destruct (truthy (PInt z)); reflexivity.
      - unfold or_empty_dict. destruct (truthy (PStr s)); reflexivity.
      - unfold or_empty_dict. destruct (truthy (PList l)); reflexivity.
      - destruct d as [|kv d]; [reflexivity|].
        change (or_empty_dict (PDict (kv :: d))) with (PDict (kv :: d)).
        cbv beta iota.
        destruct (assoc_get (kv :: d) "uniquekey") as [[| | | | |u]|];
          reflexivity. }
    split; [exact Hkey|].
    intros Hdef. rewrite Hkey, (EpsFacts.extract_uniquekey_num_uniq_key cfg).
    now rewrite Hdef.
  - intros Hf. unfold _get_module_level_unique_key. rewrite Hdir. cbv zeta.
    rewrite Hp, Hf. now destruct (negb (exists_ fs p)).
  - intros text Hf Hl. unfold _get_module_level_unique_key. rewrite Hdir.
    cbv zeta. rewrite Hp, Hf, Hl. now destruct (negb (exists_ fs p)).
Qed.

Lemma module_level_key_is_the_documents_witness :
  "node1" <> ""
  /\ _get_module_level_unique_key Examples.cluster_cfg Examples.snapshot_files
       "Apache" (Some "node1") = PInt 5
  /\ _get_module_level_unique_key Examples.cluster_cfg Examples.snapshot_files
       "Nginx" (Some "node1") = PInt 1
  /\ _get_module_level_unique_key Examples.cluster_cfg Examples.snapshot_files
       "Kafka" (Some "node1") = PInt 1.
Proof.
  assert (Hnm : "node1" <> "") by discriminate.
  split; [exact Hnm|]. split; [|split].
  - destruct (module_level_key_is_the_documents Examples.cluster_cfg
                Examples.cfg Examples.snapshot_files "Apache" "node1" Hnm)
      as (H & _ & _).
    destruct (H (Examples.flow_dump (Examples.module_doc 5 "1s"))
                (Examples.module_doc 5 "1s")
                ltac:(vm_compute; reflexivity) ltac:(vm_compute; reflexivity))
      as [Hk _].
    exact Hk.
  - destruct (module_level_key_is_the_documents Examples.cluster_cfg
                Examples.cfg Examples.snapshot_files "Nginx" "node1" Hnm)
      as (H & _ & _).
    destruct (H (Examples.flow_dump Examples.wildcard_doc)
                Examples.wildcard_doc
                ltac:(vm_compute; reflexivity) ltac:(vm_compute; reflexivity))
      as [Hk _].
    exact Hk.
  - destruct (module_level_key_is_the_documents Examples.cluster_cfg
                Examples.cfg Examples.snapshot_files "Kafka" "node1" Hnm)
      as (_ & H & _).
    apply H. vm_compute. reflexivity.
Defined.

End ClusterEdits.

(** ** The bulk edit and the bounds of the key *)

Module BulkEditKeys.
Import PyObj PyStr FS ClusterManager.
Import PyStrFacts YamlEditorFacts ClusterFacts WriteProtocol ClusterEdits.

(** *** A path names one file of the node *)





Section Batch.
Variable cs : cluster_settings.




End Batch.




End BulkEditKeys.

(** ** The summary of a module *)

Module EpsSummary.
Import PyFloat PyObj PyStr FS Duration YamlEditor EpsCalculator.
Import PyFloatFacts YamlEditorFacts EpsFacts EpsEdges.

Lemma get_module_summary_result cfg m (w : world) res w1 :
  calculate_eps cfg m None None None w = (res, w1) ->
  files w1 = files w ->
  exists w',
    get_module_summary cfg m w
    = (Ok match res with
          | Raise e => SummaryError m e
          | Ok r =>
              match dict_get (mc_full_config (module_config_of cfg (files w) m))
                      "enabled" (PBool false) with
              | Raise e => SummaryError m e
              | Ok enabled =>
                  Summary
                    {| ms_name := m;
                       ms_enabled := enabled;
                       ms_current_eps := eps r;
                       ms_module_uniquekey := module_uniquekey r;
                       ms_module_period := module_period r;
                       ms_submodule_count := Z.of_nat (length (submodules r));
                       ms_submodules := submodules r;
                       ms_config := module_config_of cfg (files w) m |}
              end
          end, w')
    /\ files w' = files w.
Proof.
  intros Hc Hf. unfold get_module_summary. run. rewrite Hc.
  destruct res as [r|e]; [|eauto].
  destruct (get_module_config_result cfg m w1) as (w2 & -> & Hf2).
  rewrite Hf.
  destruct (dict_get _ _ _); (eexists; split; [reflexivity|congruence]).
Qed.

(** X26. [get_module_summary] never raises and changes no file. When
    [calculate_eps] raises, the summary is the error entry of that
    exception (whose [current_eps] is 0). When it returns and the
    document of the module is a mapping, [current_eps] is its [eps],
    [submodule_count] the number of its submodule entries, and
    [enabled] the value of the document's [enabled] as it stands, or
    False; a document that is no mapping gives the error entry of
    AttributeError. A module whose period does not parse is summarised
    as not enabled, whatever its file says. *)
Theorem module_summary_reports_or_explains (cfg : settings)
    (module_name : string) (w : world) :
  exists s w',
    get_module_summary cfg module_name w = (Ok s, w')
    /\ files w' = files w
    /\ (forall e w1,
        calculate_eps cfg module_name None None None w = (Raise e, w1) ->
        s = SummaryError module_name e /\ current_eps_of s = NumInt 0)
    /\ (forall r w1,
        calculate_eps cfg module_name None None None w = (Ok r, w1) ->
        match mc_full_config (module_config_of cfg (files w) module_name) with
        | PDict d =>
            exists ms,
              s = Summary ms
              /\ ms_current_eps ms = eps r
              /\ ms_submodule_count ms = Z.of_nat (length (submodules r))
              /\ ms_enabled ms = match assoc_get d "enabled" with
                                 | Some v => v
                                 | None => PBool false
                                 end
        | _ => s = SummaryError module_name AttributeError
        end)
    /\ (forall b d v p e r w1,
        files w !! module_config_path cfg module_name = Some b ->
        yaml_load cfg b = Some (PDict d) ->
        extract_uniquekey cfg (PDict d) = Ok v ->
        assoc_get d "period" = Some p ->
        _parse_duration p = Raise e ->
        calculate_eps cfg module_name None None None w = (Ok r, w1) ->
        exists ms, s = Summary ms /\ ms_enabled ms = PBool false).
Proof.
  destruct (calculate_eps_keeps_files cfg module_name w) as (res & w1 & Hc & Hf).
  destruct (get_module_summary_result cfg module_name w res w1 Hc Hf)
    as (w' & Hs & Hf').
  eexists. exists w'. split; [exact Hs|]. split; [exact Hf'|].
  split; [|split].
  - intros e w0 He. rewrite He in Hc. injection Hc as <- _. split; reflexivity.
  - intros r w0 Hr. rewrite Hr in Hc. injection Hc as <- _.
    destruct (mc_full_config (module_config_of cfg (files w) module_name));
      cbn [dict_get]; try reflexivity.
    eexists. repeat split.
  - intros b d v p e r w0 Hb Hl Hv Hp He Hr.
    rewrite Hr in Hc. injection Hc as <- _.
    rewrite (module_config_of_bad_period cfg (files w) module_name b d v p e
               Hb Hl Hv Hp He).
    cbn [default_module_config mc_full_config dict_get assoc_get].
    eexists. split; reflexivity.
Qed.

Lemma module_summary_reports_or_explains_witness :
  exists ms w',
    get_module_summary Examples.edge_cfg "Apache"
      (Examples.apache_world "fast") = (Ok (Summary ms), w')
    /\ ms_enabled ms = PBool false
    /\ assoc_get [("enabled", PBool true)] "enabled" = Some (PBool true).
Proof.
  destruct (module_summary_reports_or_explains Examples.edge_cfg "Apache"
              (Examples.apache_world "fast"))
    as (s & w' & Hs & _ & _ & _ & H).
  destruct (calculate_eps Examples.edge_cfg "Apache" None None None
              (Examples.apache_world "fast")) as [res w1] eqn:Hc.
  assert (Hres : exists r, res = Ok r).
  { vm_compute in Hc. injection Hc as <- _. eexists. reflexivity. }
  destruct Hres as (r & ->).
  destruct (H (Examples.flow_dump (Examples.module_doc 5 "fast"))
              [("enabled", PBool true);
               ("uniquekey", PDict [("NumUniqKey", PInt 5)]);
               ("period", PStr "fast");
               ("Include_sub_modules", PList [PStr "status"; PStr "access"])]
              (PInt 5) (PStr "fast") InvalidFormat r w1
              ltac:(vm_compute; reflexivity) ltac:(vm_compute; reflexivity)
              ltac:(vm_compute; reflexivity) ltac:(vm_compute; reflexivity)
              ltac:(vm_compute; reflexivity) eq_refl)
    as (ms & -> & He).
  exists ms, w'. split; [exact Hs|]. split; [exact He | reflexivity].
Defined.

End EpsSummary.

(** ** The registry of the nodes *)

Module RegistryFacts.
Import PyObj PyStr FS NodeRegistry.
Import YamlEditorFacts WriteProtocol.

(** *** Deleting from a dictionary *)

Lemma assoc_del_get_eq d k : assoc_get (assoc_del d k) k = None.
Proof.
  induction d as [|[k0 v0] d IH]; simpl; [reflexivity|].
  destruct (String.eqb k0 k) eqn:E; simpl; rewrite ?E; exact IH.
Qed.

Lemma assoc_del_get_ne d k k' :
  k' <> k -> assoc_get (assoc_del d k) k' = assoc_get d k'.
Proof.
  intros Hne. induction d as [|[k0 v0] d IH]; simpl; [reflexivity|].
  destruct (String.eqb k0 k) eqn:E; simpl.
  - apply String.eqb_eq in E. subst k0.
    apply String.eqb_neq in Hne. rewrite String.eqb_sym in Hne.
    now rewrite Hne.
  - destruct (String.eqb k0 k'); [reflexivity | exact IH].
Qed.

Lemma assoc_del_set d k v :
  assoc_get d k = None -> assoc_del (assoc_set d k v) k = d.
Proof.
  induction d as [|[k0 v0] d IH]; simpl.
  - now rewrite String.eqb_refl.
  - destruct (String.eqb k0 k) eqn:E; [discriminate|].
    intros H. simpl. rewrite E. f_equal. now apply IH.
Qed.

Lemma assoc_set_set d k v v' :
  assoc_set (assoc_set d k v) k v' = assoc_set d k v'.
Proof.
  induction d as [|[k0 v0] d IH]; simpl.
  - now rewrite String.eqb_refl.
  - destruct (String.eqb k0 k) eqn:E; simpl; rewrite E; [reflexivity|].
    now rewrite IH.
Qed.

Lemma assoc_set_same d k v : assoc_get d k = Some v -> assoc_set d k v = d.
Proof.
  induction d as [|[k0 v0] d IH]; simpl; [discriminate|].
  destruct (String.eqb k0 k) eqn:E.
  - now intros [= ->].
  - intros H. f_equal. now apply IH.
Qed.

(** *** Directories *)

Lemma below_app b x y : below (b ++ x) (b ++ y) = below x y.
Proof.
  induction b as [|c b IH]; [reflexivity|].
  simpl. now rewrite String.eqb_refl.
Qed.

Lemma below_nil dir q : below dir q = Some [] -> q = dir.
Proof.
  revert q. induction dir as [|d dir IH]; intros q; simpl.
  - now intros [= ->].
  - destruct q as [|c q]; [discriminate|].
    destruct (String.eqb d c) eqn:E; [|discriminate].
    apply String.eqb_eq in E. subst c. intros H. f_equal. now apply IH.
Qed.

Lemma nothing_below_missing (fs : files_t) (dir q : path) v :
  exists_ fs dir = false -> fs !! q = Some v -> below dir q = None.
Proof.
  intros He Hq. destruct (below dir q) as [r|] eqn:E; [exfalso|reflexivity].
  apply orb_false_elim in He as [Hfile Hdir].
  destruct r as [|c r].
  - apply below_nil in E. subst q. unfold is_file in Hfile.
    now rewrite Hq in Hfile.
  - assert (Hin : In q (paths fs)).
    { apply list_elem_of_In. unfold paths. apply list_elem_of_fmap.
      exists (q, v). split; [reflexivity|].
      now apply elem_of_map_to_list. }
    assert (Ht : is_dir fs dir = true).
    { unfold is_dir. apply existsb_exists. exists q. split; [exact Hin|].
      now rewrite E. }
    congruence.
Qed.

Lemma rmtree_lookup (dir : path) (fs : files_t) (q : path) :
  filter (fun kv : path * string => below dir kv.1 = None) fs !! q
  = match below dir q with
    | None => fs !! q
    | Some _ => None
    end.
Proof.
  destruct (below dir q) as [r|] eqn:E.
  - apply map_lookup_filter_None_2. right. intros x _. simpl. congruence.
  - destruct (fs !! q) as [v|] eqn:F.
    + apply map_lookup_filter_Some_2; [exact F | exact E].
    + apply map_lookup_filter_None_2. now left.
Qed.

(** The files after [if dir.exists(): shutil.rmtree(dir)]. *)
Lemma remove_tree_result (dir : path) (w : world) :
  is_file (files w) dir = false ->
  exists w',
    (if exists_ (files w) dir then rmtree dir else ret tt) w = (Ok tt, w')
    /\ env w' = env w
    /\ forall q, files w' !! q = match below dir q with
                                 | None => files w !! q
                                 | Some _ => None
                                 end.
Proof.
  intros Hfile. unfold rmtree, ret.
  destruct (exists_ (files w) dir) eqn:He.
  - rewrite Hfile. eexists. split; [reflexivity|]. split; [reflexivity|].
    intros q. apply rmtree_lookup.
  - exists w. split; [reflexivity|]. split; [reflexivity|].
    intros q. destruct (below dir q) as [r|] eqn:E; [|reflexivity].
    destruct (files w !! q) as [v|] eqn:F; [|reflexivity].
    rewrite (nothing_below_missing _ _ _ _ He F) in E. discriminate.
Qed.

Section Registry.
Variable yaml_dump : pyobj -> string.
Variable base_dir : path.
Variable nodes_file_name : string.

Local Abbreviation nodes_file := (nodes_file base_dir nodes_file_name).
Local Abbreviation save := (save yaml_dump base_dir nodes_file_name).
Local Abbreviation add_node := (add_node yaml_dump base_dir nodes_file_name).
Local Abbreviation remove_node := (remove_node yaml_dump base_dir nodes_file_name).

Lemma nodes_file_not_below top name :
  below (base_dir ++ [top] ++ [name]) nodes_file = None.
Proof.
  unfold NodeRegistry.nodes_file. rewrite below_app. simpl.
  now destruct (String.eqb top nodes_file_name).
Qed.

Lemma save_result config (w : world) :
  exists w',
    save config w
    = (if open_write_fails (env w) then Raise OSError
       else match dump_fails (env w) with
            | Some _ => Raise YAMLError
            | None => Ok tt
            end, w')
    /\ env w' = env w
    /\ files w'
       = if open_write_fails (env w) then files w
         else match dump_fails (env w) with
              | Some part => <[nodes_file := part]> (files w)
              | None => <[nodes_file := yaml_dump config]> (files w)
              end.
Proof.
  unfold NodeRegistry.save, bindM, open_write, write_dump.
  destruct (open_write_fails (env w)) eqn:Ho.
  - exists w. auto.
  - cbn [env record set_files files].
    destruct (dump_fails (env w)) as [part|] eqn:Hd;
      (eexists; split; [reflexivity|]; split; [reflexivity|]);
      cbn [files record set_files]; apply insert_insert_eq.
Qed.

(** The configuration in memory after the first statements of
    [add_node]. *)
Lemma add_node_in_memory c ns name host user key_path conf_dir binary_dir
    description enabled :
  get_nodes (PDict c) = Ok (PDict ns) ->
  exists c2,
    (forall w : world,
       add_node (PDict c) name host user key_path conf_dir binary_dir
         description enabled w
       = try_except (do* _ <- save (PDict c2); ret (true, PDict c2))
           (fun _ => ret (false, PDict c2)) w)
    /\ assoc_get c2 "nodes"
       = Some (PDict (assoc_set ns name
                        (node_entry host user key_path conf_dir binary_dir
                           description enabled)))
    /\ (forall k, k <> "nodes" -> assoc_get c2 k = assoc_get c k)
    /\ (assoc_get c "nodes" = Some (PDict ns) ->
        c2 = assoc_set c "nodes"
               (PDict (assoc_set ns name
                         (node_entry host user key_path conf_dir binary_dir
                            description enabled)))).
Proof.
  unfold get_nodes, dict_get. intros H.
  destruct (assoc_get c "nodes") as [x|] eqn:E.
  - injection H as ->. eexists. split; [|split; [|split]].
    + intros w. unfold NodeRegistry.add_node. cbn [contains bind].
      rewrite E. cbn [negb getitem bind]. rewrite E.
      cbn [bind setitem]. reflexivity.
    + apply assoc_get_set_eq.
    + intros k Hk. now apply assoc_get_set_ne.
    + reflexivity.
  - injection H as <-. eexists. split; [|split; [|split]].
    + intros w. unfold NodeRegistry.add_node. cbn [contains bind].
      rewrite E. cbn [negb setitem bind getitem].
      rewrite assoc_get_set_eq. cbn [bind setitem]. reflexivity.
    + apply assoc_get_set_eq.
    + intros k Hk. now rewrite !assoc_get_set_ne.
    + discriminate.
Qed.

(** The configuration in memory after the first statements of
    [remove_node], for a node that is there. *)
Lemma remove_node_in_memory c ns name e :
  assoc_get c "nodes" = Some (PDict ns) ->
  assoc_get ns name = Some e ->
  forall w : world,
    remove_node (PDict c) name w
    = (let config1 := PDict (assoc_set c "nodes" (PDict (assoc_del ns name))) in
       try_except
         (do* _ <- save config1;
          do* has <- path_exists (conf_snapshots_dir base_dir ++ [name]);
          do* _ <- (if has then rmtree (conf_snapshots_dir base_dir ++ [name])
                    else ret tt);
          do* has <- path_exists (backups_dir base_dir ++ [name]);
          do* _ <- (if has then rmtree (backups_dir base_dir ++ [name])
                    else ret tt);
          ret (true, config1))
         (fun _ => ret (false, config1))) w.
Proof.
  intros Hn He w. unfold NodeRegistry.remove_node, get_nodes.
  cbn [dict_get bind]. rewrite Hn. cbn [contains]. rewrite He.
  cbn [getitem bind]. rewrite Hn. cbn [bind delitem]. rewrite He.
  cbn [bind setitem]. reflexivity.
Qed.

End Registry.

Lemma enabled_items_spec its :
  (Forall (fun kv : string * pyobj => is_dict kv.2 = true) its ->
   enabled_items its
   = Ok (List.filter
           (fun kv : string * pyobj =>
              match kv.2 with
              | PDict d => match assoc_get d "enabled" with
                           | Some v => truthy v
                           | None => true
                           end
              | _ => false
              end) its))
  /\ (Exists (fun kv : string * pyobj => is_dict kv.2 = false) its ->
      enabled_items its = Raise AttributeError).
Proof.
  induction its as [|[name config] its [IHa IHb]]; split.
  - reflexivity.
  - intros H. inversion H.
  - intros H. inversion H as [|x l Hd Hrest]; subst. cbn [snd] in Hd.
    destruct config as [| | | | |d]; try discriminate.
    cbn [enabled_items dict_get bind List.filter snd]. rewrite (IHa Hrest).
    cbn [bind]. destruct (assoc_get d "enabled") as [v|]; cbn [truthy];
      [destruct (truthy v)|]; reflexivity.
  - intros H. cbn [enabled_items].
    destruct config as [| | | | |d]; try reflexivity.
    cbn [dict_get bind]. inversion H as [x l Hd|x l Hrest]; subst.
    + discriminate.
    + now rewrite (IHb Hrest).
Qed.

(** X27. [add_node] on a configuration whose ["nodes"] is a mapping,
    or is missing, stores the entry of the node in memory: afterwards
    [get_nodes] has the given fields under the name (an entry of that
    name is replaced), every other node and every other section as
    before. The answer is True exactly when the nodes file could be
    opened and dumped, and then the file holds the dump of the new
    configuration. When the save fails the answer is False but the
    node stays in memory, the file being untouched if it could not be
    opened. A ["nodes"] that is no mapping gives False and changes
    nothing. *)
Theorem added_node_is_registered (yaml_dump : pyobj -> string)
    (base_dir : path) (nodes_file_name : string)
    (c : list (string * pyobj)) (name : string)
    (host user key_path conf_dir binary_dir description enabled : pyobj)
    (w : world) :
  (forall ns,
     get_nodes (PDict c) = Ok (PDict ns) ->
     exists answer c' ns' w',
       add_node yaml_dump base_dir nodes_file_name (PDict c) name host user
         key_path conf_dir binary_dir description enabled w
       = (Ok (answer, PDict c'), w')
       /\ get_nodes (PDict c') = Ok (PDict ns')
       /\ assoc_get ns' name
          = Some (node_entry host user key_path conf_dir binary_dir
                    description enabled)
       /\ (forall k, k <> name -> assoc_get ns' k = assoc_get ns k)
       /\ (forall k, k <> "nodes" -> assoc_get c' k = assoc_get c k)
       /\ answer = negb (open_write_fails (env w))
                   && match dump_fails (env w) with
                      | None => true
                      | Some _ => false
                      end
       /\ (answer = true ->
           files w' = <[nodes_file base_dir nodes_file_name
                        := yaml_dump (PDict c')]> (files w))
       /\ (open_write_fails (env w) = true -> files w' = files w))
  /\ (forall x,
      assoc_get c "nodes" = Some x -> is_dict x = false ->
      add_node yaml_dump base_dir nodes_file_name (PDict c) name host user
        key_path conf_dir binary_dir description enabled w
      = (Ok (false, PDict c), w)).
Proof.
  split.
  - intros ns Hns.
    destruct (add_node_in_memory yaml_dump base_dir nodes_file_name c ns name
                host user key_path conf_dir binary_dir description enabled Hns)
      as (c2 & Hrun & Hnodes & Hrest & _).
    destruct (save_result yaml_dump base_dir nodes_file_name (PDict c2) w)
      as (w1 & Hs & _ & Hf).
    assert (Hget : get_nodes (PDict c2)
                   = Ok (PDict (assoc_set ns name
                                  (node_entry host user key_path conf_dir
                                     binary_dir description enabled)))).
    { unfold get_nodes, dict_get. now rewrite Hnodes. }
    exists (negb (open_write_fails (env w))
            && match dump_fails (env w) with
               | None => true
               | Some _ => false
               end), c2.
    eexists. exists w1. split.
    { rewrite Hrun. unfold try_except, bindM, ret. rewrite Hs.
      destruct (open_write_fails (env w)); [reflexivity|].
      destruct (dump_fails (env w)); reflexivity. }
    split; [exact Hget|]. split; [apply assoc_get_set_eq|].
    split; [intros k Hk; now apply assoc_get_set_ne|].
    split; [exact Hrest|]. split; [reflexivity|].
    destruct (open_write_fails (env w)); cbn [negb andb].
    + split; [discriminate | intros _; exact Hf].
    + destruct (dump_fails (env w)).
      * split; discriminate.
      * split; [intros _; exact Hf | discriminate].
  - intros x Hx Hd. unfold add_node. cbn [contains bind]. rewrite Hx.
    cbn [negb getitem bind]. rewrite Hx. cbn [bind].
    destruct x; try reflexivity. discriminate.
Qed.

Lemma added_node_is_registered_witness :
  exists c' ns' w',
    add_node Examples.flow_dump [] "nodes.yaml" Examples.registry "node3"
      (PStr "10.0.0.3") (PStr "vunet") (PStr "key") (PStr "/conf.d")
      (PStr "/bin") (PStr "third") (PBool true) Examples.read_only_world
    = (Ok (false, PDict c'), w')
    /\ get_nodes (PDict c') = Ok (PDict ns')
    /\ assoc_get ns' "node3"
       = Some (node_entry (PStr "10.0.0.3") (PStr "vunet") (PStr "key")
                 (PStr "/conf.d") (PStr "/bin") (PStr "third") (PBool true))
    /\ assoc_get ns' "node1" = Some (Examples.entry_of "10.0.0.1" true)
    /\ files w' = Examples.registry_files.
Proof.
  destruct (added_node_is_registered Examples.flow_dump [] "nodes.yaml"
              [("nodes", PDict [("node1", Examples.entry_of "10.0.0.1" true);
                                ("node2", Examples.entry_of "10.0.0.2" false)]);
               ("cluster_settings", PDict [])]
              "node3" (PStr "10.0.0.3") (PStr "vunet") (PStr "key")
              (PStr "/conf.d") (PStr "/bin") (PStr "third") (PBool true)
              Examples.read_only_world) as [H _].
  destruct (H [("node1", Examples.entry_of "10.0.0.1" true);
               ("node2", Examples.entry_of "10.0.0.2" false)] eq_refl)
    as (answer & c' & ns' & w' & Hrun & Hget & Hnew & Hold & _ & Ha & _ & Hf).
  exists c', ns', w'. cbn in Ha. subst answer.
  split; [exact Hrun|]. split; [exact Hget|]. split; [exact Hnew|].
  split; [|exact (Hf eq_refl)].
  rewrite Hold by discriminate. reflexivity.
Defined.

(** [remove_node] of a node that is there, in an environment without
    failures. *)
Lemma removed_node_run (yaml_dump : pyobj -> string) (base_dir : path)
    (nodes_file_name : string) (name : string) (w : world)
    (c ns : list (string * pyobj)) (e : pyobj) :
  assoc_get c "nodes" = Some (PDict ns) ->
  assoc_get ns name = Some e ->
  env w = no_faults ->
  is_file (files w) (conf_snapshots_dir base_dir ++ [name]) = false ->
  is_file (files w) (backups_dir base_dir ++ [name]) = false ->
  exists w',
    remove_node yaml_dump base_dir nodes_file_name (PDict c) name w
    = (Ok (true, PDict (assoc_set c "nodes" (PDict (assoc_del ns name)))), w')
    /\ files w' !! nodes_file base_dir nodes_file_name
       = Some (yaml_dump
                 (PDict (assoc_set c "nodes" (PDict (assoc_del ns name)))))
    /\ forall q,
         files w' !! q
         = match below (backups_dir base_dir ++ [name]) q with
           | Some _ => None
           | None =>
               match below (conf_snapshots_dir base_dir ++ [name]) q with
               | Some _ => None
               | None =>
                   <[nodes_file base_dir nodes_file_name
                     := yaml_dump
                          (PDict (assoc_set c "nodes"
                                    (PDict (assoc_del ns name))))]>
                     (files w) !! q
               end
           end.
Proof.
  intros Hn He Henv Hsnap Hback.
  rewrite (remove_node_in_memory yaml_dump base_dir nodes_file_name c ns name
             e Hn He w).
  cbv zeta.
  set (c' := assoc_set c "nodes" (PDict (assoc_del ns name))).
  destruct (save_result yaml_dump base_dir nodes_file_name (PDict c') w)
    as (w1 & Hs & Henv1 & Hf1).
  rewrite Henv in Hs, Hf1. cbn [no_faults open_write_fails dump_fails] in Hs, Hf1.
  assert (Hne1 : conf_snapshots_dir base_dir ++ [name]
                 <> nodes_file base_dir nodes_file_name).
  { unfold conf_snapshots_dir, NodeRegistry.nodes_file. rewrite <- app_assoc.
    intros Heq. apply app_inv_head in Heq. discriminate. }
  assert (Hne2 : backups_dir base_dir ++ [name]
                 <> nodes_file base_dir nodes_file_name).
  { unfold backups_dir, NodeRegistry.nodes_file. rewrite <- app_assoc.
    intros Heq. apply app_inv_head in Heq. discriminate. }
  assert (Hsnap1 : is_file (files w1) (conf_snapshots_dir base_dir ++ [name])
                   = false).
  { unfold is_file in *. rewrite Hf1, lookup_insert_ne by congruence.
    exact Hsnap. }
  destruct (remove_tree_result (conf_snapshots_dir base_dir ++ [name]) w1
              Hsnap1) as (w2 & Hr2 & Henv2 & Hf2).
  assert (Hback2 : is_file (files w2) (backups_dir base_dir ++ [name]) = false).
  { unfold is_file in *. rewrite Hf2.
    destruct (below _ _); [reflexivity|].
    rewrite Hf1, lookup_insert_ne by congruence. exact Hback. }
  destruct (remove_tree_result (backups_dir base_dir ++ [name]) w2 Hback2)
    as (w3 & Hr3 & Henv3 & Hf3).
  assert (Hfiles : forall q,
             files w3 !! q
             = match below (backups_dir base_dir ++ [name]) q with
               | Some _ => None
               | None =>
                   match below (conf_snapshots_dir base_dir ++ [name]) q with
                   | Some _ => None
                   | None =>
                       <[nodes_file base_dir nodes_file_name
                         := yaml_dump (PDict c')]> (files w) !! q
                   end
               end).
  { intros q. rewrite Hf3. destruct (below (backups_dir _ ++ _) q);
      [reflexivity|].
    rewrite Hf2. destruct (below (conf_snapshots_dir _ ++ _) q);
      [reflexivity|].
    now rewrite Hf1. }
  exists w3. split; [|split; [|exact Hfiles]].
  - unfold try_except, bindM, path_exists. rewrite Hs. cbv beta iota.
    rewrite Hr2. cbv beta iota. rewrite Hr3. reflexivity.
  - rewrite Hfiles.
    unfold backups_dir at 1. rewrite <- app_assoc, nodes_file_not_below.
    unfold conf_snapshots_dir at 1.
    rewrite <- app_assoc, nodes_file_not_below.
    apply lookup_insert_eq.
Qed.

(** X28. [remove_node] of a name that is not among the nodes answers
    False and changes nothing, in memory or on disk. For a node that
    is there, with a name that is one path component and no failure of
    the environment, it answers True: the node is gone from
    [get_nodes], every other node and section is as before, the nodes
    file holds the dump of the new configuration, every file below
    [conf_snapshots/<name>] and [backups/<name>] is deleted, and no
    other file changes. *)
Theorem removed_node_is_forgotten (yaml_dump : pyobj -> string)
    (base_dir : path) (nodes_file_name : string) (name : string) (w : world) :
  (forall nodes_config ns,
     get_nodes nodes_config = Ok (PDict ns) ->
     assoc_get ns name = None ->
     remove_node yaml_dump base_dir nodes_file_name nodes_config name w
     = (Ok (false, nodes_config), w))
  /\ (forall c ns e,
      assoc_get c "nodes" = Some (PDict ns) ->
      assoc_get ns name = Some e ->
      is_component name = true ->
      env w = no_faults ->
      is_file (files w) (conf_snapshots_dir base_dir ++ [name]) = false ->
      is_file (files w) (backups_dir base_dir ++ [name]) = false ->
      exists c' ns' w',
        remove_node yaml_dump base_dir nodes_file_name (PDict c) name w
        = (Ok (true, PDict c'), w')
        /\ get_nodes (PDict c') = Ok (PDict ns')
        /\ assoc_get ns' name = None
        /\ (forall k, k <> name -> assoc_get ns' k = assoc_get ns k)
        /\ (forall k, k <> "nodes" -> assoc_get c' k = assoc_get c k)
        /\ files w' !! nodes_file base_dir nodes_file_name
           = Some (yaml_dump (PDict c'))
        /\ (forall q r,
            below (conf_snapshots_dir base_dir ++ [name]) q = Some r
            \/ below (backups_dir base_dir ++ [name]) q = Some r ->
            files w' !! q = None)
        /\ (forall q,
            q <> nodes_file base_dir nodes_file_name ->
            below (conf_snapshots_dir base_dir ++ [name]) q = None ->
            below (backups_dir base_dir ++ [name]) q = None ->
            files w' !! q = files w !! q)).
Proof.
  split.
  - intros nodes_config ns Hns Hname. unfold remove_node. rewrite Hns.
    cbn [bind contains]. now rewrite Hname.
  - intros c ns e Hn He _ Henv Hsnap Hback.
    destruct (removed_node_run yaml_dump base_dir nodes_file_name name w c ns e
                Hn He Henv Hsnap Hback) as (w' & Hrun & Hfile & Hfiles).
    exists (assoc_set c "nodes" (PDict (assoc_del ns name))),
      (assoc_del ns name), w'.
    split; [exact Hrun|].
    split; [unfold get_nodes, dict_get; now rewrite assoc_get_set_eq|].
    split; [apply assoc_del_get_eq|].
    split; [intros k Hk; now apply assoc_del_get_ne|].
    split; [intros k Hk; now apply assoc_get_set_ne|].
    split; [exact Hfile|]. split.
    + intros q r [H|H]; rewrite Hfiles.
      * destruct (below (backups_dir _ ++ _) q); [reflexivity|].
        now rewrite H.
      * now rewrite H.
    + intros q Hq H1 H2. rewrite Hfiles, H2, H1.
      now rewrite lookup_insert_ne by congruence.
Qed.

Lemma removed_node_is_forgotten_witness :
  exists c' ns' w',
    remove_node Examples.flow_dump [] "nodes.yaml" Examples.registry "node2"
      (Examples.world_of Examples.registry_files)
    = (Ok (true, PDict c'), w')
    /\ get_nodes (PDict c') = Ok (PDict ns')
    /\ assoc_get ns' "node2" = None
    /\ assoc_get ns' "node1" = Some (Examples.entry_of "10.0.0.1" true)
    /\ files w' !! ["conf_snapshots"; "node2"; "conf.d"; "Apache"; "conf.yml"]
       = None
    /\ files w' !! ["backups"; "node2"; "conf.yml.bak"] = None
    /\ files w' !! ["conf_snapshots"; "node1"; "conf.d"; "Apache"; "conf.yml"]
       = Some (Examples.flow_dump (Examples.module_doc 5 "1s")).
Proof.
  destruct (removed_node_is_forgotten Examples.flow_dump [] "nodes.yaml"
              "node2" (Examples.world_of Examples.registry_files)) as [_ H].
  destruct (H [("nodes", PDict [("node1", Examples.entry_of "10.0.0.1" true);
                                ("node2", Examples.entry_of "10.0.0.2" false)]);
               ("cluster_settings", PDict [])]
              [("node1", Examples.entry_of "10.0.0.1" true);
               ("node2", Examples.entry_of "10.0.0.2" false)]
              (Examples.entry_of "10.0.0.2" false)
              eq_refl eq_refl eq_refl eq_refl
              ltac:(vm_compute; reflexivity) ltac:(vm_compute; reflexivity))
    as (c' & ns' & w' & Hrun & Hget & Hgone & Hold & _ & _ & Hdel & Hkeep).
  exists c', ns', w'.
  split; [exact Hrun|]. split; [exact Hget|]. split; [exact Hgone|].
  split; [rewrite Hold by discriminate; reflexivity|].
  split; [|split].
  - apply (Hdel _ ["conf.d"; "Apache"; "conf.yml"]). left. reflexivity.
  - apply (Hdel _ ["conf.yml.bak"]). right. reflexivity.
  - rewrite Hkeep; [vm_compute; reflexivity | discriminate | reflexivity
                   | reflexivity].
Defined.

(** X29. Adding a node and removing it again gives back the nodes as
    they were: for a name that is not yet among the nodes, with no
    failure of the environment, [add_node] followed by [remove_node]
    answers True twice and leaves [get_nodes] as before the two calls;
    when the configuration had its ["nodes"] section it is the same
    configuration again, and the nodes file holds its dump. *)
Theorem add_then_remove_restores (yaml_dump : pyobj -> string)
    (base_dir : path) (nodes_file_name : string)
    (c ns : list (string * pyobj)) (name : string)
    (host user key_path conf_dir binary_dir description enabled : pyobj)
    (w : world) :
  get_nodes (PDict c) = Ok (PDict ns) ->
  assoc_get ns name = None ->
  is_component name = true ->
  env w = no_faults ->
  is_file (files w) (conf_snapshots_dir base_dir ++ [name]) = false ->
  is_file (files w) (backups_dir base_dir ++ [name]) = false ->
  exists c1 w1 c2 w2,
    add_node yaml_dump base_dir nodes_file_name (PDict c) name host user
      key_path conf_dir binary_dir description enabled w
    = (Ok (true, PDict c1), w1)
    /\ remove_node yaml_dump base_dir nodes_file_name (PDict c1) name w1
       = (Ok (true, PDict c2), w2)
    /\ get_nodes (PDict c2) = get_nodes (PDict c)
    /\ files w2 !! nodes_file base_dir nodes_file_name
       = Some (yaml_dump (PDict c2))
    /\ (forall x, assoc_get c "nodes" = Some x -> c2 = c).
Proof.
  intros Hns Hfresh Hcomp Henv Hsnap Hback.
  destruct (add_node_in_memory yaml_dump base_dir nodes_file_name c ns name
              host user key_path conf_dir binary_dir description enabled Hns)
    as (c1 & Hrun & Hnodes & Hrest & Hsame).
  destruct (save_result yaml_dump base_dir nodes_file_name (PDict c1) w)
    as (w1 & Hs & Henv1 & Hf1).
  rewrite Henv in Hs, Hf1. cbn [no_faults open_write_fails dump_fails] in Hs, Hf1.
  assert (Hadd : add_node yaml_dump base_dir nodes_file_name (PDict c) name
                   host user key_path conf_dir binary_dir description enabled w
                 = (Ok (true, PDict c1), w1)).
  { rewrite Hrun. unfold try_except, bindM, ret. now rewrite Hs. }
  assert (Hne1 : conf_snapshots_dir base_dir ++ [name]
                 <> nodes_file base_dir nodes_file_name).
  { unfold conf_snapshots_dir, NodeRegistry.nodes_file. rewrite <- app_assoc.
    intros Heq. apply app_inv_head in Heq. discriminate. }
  assert (Hne2 : backups_dir base_dir ++ [name]
                 <> nodes_file base_dir nodes_file_name).
  { unfold backups_dir, NodeRegistry.nodes_file. rewrite <- app_assoc.
    intros Heq. apply app_inv_head in Heq. discriminate. }
  destruct (removed_node_run yaml_dump base_dir nodes_file_name name w1 c1
              (assoc_set ns name
                 (node_entry host user key_path conf_dir binary_dir
                    description enabled))
              (node_entry host user key_path conf_dir binary_dir
                 description enabled))
    as (w2 & Hrem & Hfile & _);
    [exact Hnodes | apply assoc_get_set_eq | congruence
    | unfold is_file in *; rewrite Hf1, lookup_insert_ne by congruence;
      exact Hsnap
    | unfold is_file in *; rewrite Hf1, lookup_insert_ne by congruence;
      exact Hback |].
  rewrite (assoc_del_set ns name _ Hfresh) in Hrem, Hfile.
  exists c1, w1, (assoc_set c1 "nodes" (PDict ns)), w2.
  split; [exact Hadd|]. split; [exact Hrem|]. split; [|split].
  - rewrite Hns. unfold get_nodes, dict_get. now rewrite assoc_get_set_eq.
  - exact Hfile.
  - intros x Hx. unfold get_nodes, dict_get in Hns. rewrite Hx in Hns.
    injection Hns as ->. rewrite (Hsame Hx), assoc_set_set.
    now apply assoc_set_same.
Qed.

Lemma add_then_remove_restores_witness :
  exists c1 w1 w2,
    add_node Examples.flow_dump [] "nodes.yaml" Examples.registry "node3"
      (PStr "10.0.0.3") (PStr "vunet") (PStr "key") (PStr "/conf.d")
      (PStr "/bin") (PStr "third") (PBool true)
      (Examples.world_of Examples.registry_files)
    = (Ok (true, PDict c1), w1)
    /\ remove_node Examples.flow_dump [] "nodes.yaml" (PDict c1) "node3" w1
       = (Ok (true, Examples.registry), w2)
    /\ files w2 !! ["nodes.yaml"] = Some (Examples.flow_dump Examples.registry).
Proof.
  destruct (add_then_remove_restores Examples.flow_dump [] "nodes.yaml"
              [("nodes", PDict [("node1", Examples.entry_of "10.0.0.1" true);
                                ("node2", Examples.entry_of "10.0.0.2" false)]);
               ("cluster_settings", PDict [])]
              [("node1", Examples.entry_of "10.0.0.1" true);
               ("node2", Examples.entry_of "10.0.0.2" false)]
              "node3" (PStr "10.0.0.3") (PStr "vunet") (PStr "key")
              (PStr "/conf.d") (PStr "/bin") (PStr "third") (PBool true)
              (Examples.world_of Examples.registry_files)
              eq_refl eq_refl eq_refl eq_refl
              ltac:(vm_compute; reflexivity) ltac:(vm_compute; reflexivity))
    as (c1 & w1 & c2 & w2 & Hadd & Hrem & _ & Hfile & Hsame).
  rewrite (Hsame _ eq_refl) in Hrem, Hfile.
  exists c1, w1, w2. split; [exact Hadd|]. split; [exact Hrem | exact Hfile].
Defined.

(** X30. [get_enabled_nodes] returns the entries of [get_nodes] whose
    ["enabled"] is missing or truthy, each with its configuration: a
    node without the field counts as enabled, and so does one whose
    field is a non-empty string or a non-zero number. One node whose
    configuration is no mapping makes the call raise AttributeError,
    so that no node is returned. *)
Theorem enabled_nodes_are_the_truthy (nodes_config : pyobj)
    (ns : list (string * pyobj)) :
  get_nodes nodes_config = Ok (PDict ns) ->
  (Forall (fun kv : string * pyobj => is_dict kv.2 = true) ns ->
   exists kept,
     get_enabled_nodes nodes_config = Ok (PDict kept)
     /\ forall name config,
          In (name, config) kept
          <-> In (name, config) ns
              /\ exists d,
                   config = PDict d
                   /\ match assoc_get d "enabled" with
                      | Some v => truthy v
                      | None => true
                      end = true)
  /\ (Exists (fun kv : string * pyobj => is_dict kv.2 = false) ns ->
      get_enabled_nodes nodes_config = Raise AttributeError).
Proof.
  intros Hns. destruct (enabled_items_spec ns) as [Ha Hb]. split.
  - intros Hall. eexists. split.
    + unfold get_enabled_nodes. rewrite Hns. cbn [bind items].
      rewrite (Ha Hall). reflexivity.
    + intros name config. rewrite filter_In. cbn [snd]. split.
      * intros [Hin Hen]. split; [exact Hin|].
        destruct config as [| | | | |d]; try discriminate.
        exists d. split; [reflexivity | exact Hen].
      * intros [Hin (d & -> & Hen)]. split; [exact Hin | exact Hen].
  - intros Hex. unfold get_enabled_nodes. rewrite Hns. cbn [bind items].
    now rewrite (Hb Hex).
Qed.

Lemma enabled_nodes_are_the_truthy_witness :
  get_enabled_nodes Examples.registry
  = Ok (PDict [("node1", Examples.entry_of "10.0.0.1" true)])
  /\ exists kept,
       get_enabled_nodes Examples.registry = Ok (PDict kept)
       /\ In ("node1", Examples.entry_of "10.0.0.1" true) kept
       /\ ~ In ("node2", Examples.entry_of "10.0.0.2" false) kept.
Proof.
  split; [vm_compute; reflexivity|].
  destruct (enabled_nodes_are_the_truthy Examples.registry
              [("node1", Examples.entry_of "10.0.0.1" true);
               ("node2", Examples.entry_of "10.0.0.2" false)] eq_refl)
    as [H _].
  destruct H as (kept & Hrun & Hin).
  { repeat constructor. }
  exists kept. split; [exact Hrun|]. split.
  - apply Hin. split; [left; reflexivity|].
    eexists. split; reflexivity.
  - intros Hk. apply Hin in Hk as [_ (d & Hd & Hen)].
    injection Hd as <-. discriminate Hen.
Defined.

End RegistryFacts.
